(** * Launch script generator of the ACRN configuration tools

    A shallow embedding of [misc/config_tools/launch_config/launch_cfg_gen.py]
    and the properties of its slot allocator, command stream builder, device
    enumerator and orchestrator.

    Conventions of the embedding:
    - Python [int] is [Z]; Python [str] is [string], one character per code
      point below 256.
    - [None]-able values are [option]; an f-string renders [None] as the
      text [None].
    - What depends on the interpreter and not on the program (the order in
      which a [set] is iterated, the digit limit of [int]) is read from an
      [interpreter] record.
    - A raised exception is the [Raise] constructor of [result]; methods that
      mutate [self] take the object and return the updated one.
    - The lxml trees are represented by the answers they give to the XPath
      queries of the program, one record field per query. A query built by
      pasting a text between apostrophes compares with that text when the
      text is a string literal of XPath; for any other text the query is
      another expression, and the tree's answer to it is a field of its
      own. *)

From Stdlib Require Import ZArith String Ascii List Lia.
From Stdlib Require Import HexadecimalString.
From stdpp Require Import gmap strings list sorting pretty.

Local Open Scope string_scope.
Local Open Scope list_scope.
Local Open Scope Z_scope.

(** ** Exceptions and results *)

Inductive exn :=
| IndexError | ValueError | TypeError | AttributeError
| XPathEvalError.   (* lxml: the query is no valid expression *)

Inductive result (A : Type) : Type :=
| Ok (a : A)
| Raise (e : exn).
Arguments Ok {A} a.
Arguments Raise {A} e.

#[global] Instance exn_eq_dec : EqDecision exn.
Proof. solve_decision. Defined.

(** ** Python primitives used by the generator *)

Module Py.

(** [needle in hay] on strings: substring test. *)
Fixpoint str_in (needle hay : string) : bool :=
  String.prefix needle hay ||
  match hay with
  | EmptyString => false
  | String _ hay' => str_in needle hay'
  end.

(** [range(a, b)] as a list. *)
Definition range (a b : Z) : list Z :=
  map (fun i => a + Z.of_nat i) (seq 0 (Z.to_nat (b - a))).

(** [l.remove(x)]: drops the first occurrence (the caller checks presence). *)
Fixpoint list_remove {A} `{EqDecision A} (x : A) (l : list A) : list A :=
  match l with
  | [] => []
  | y :: l' => if decide (x = y) then l' else y :: list_remove x l'
  end.

(** Truthiness of an optional string: [None] and the empty string are false. *)
Definition truthy (o : option string) : bool :=
  match o with
  | Some (String _ _) => true
  | _ => false
  end.

(** [f"{x}"] for a value that may be [None]. *)
Definition fmt (o : option string) : string := default "None" o.

(** [str.isspace] on one character (code points below 256). *)
Definition isspace (c : ascii) : bool :=
  let n := N_of_ascii c in
  ((9 <=? n) && (n <=? 13) || (28 <=? n) && (n <=? 32)
   || (n =? 133) || (n =? 160))%N.

Fixpoint lstrip (s : string) : string :=
  match s with
  | EmptyString => EmptyString
  | String c s' => if isspace c then lstrip s' else s
  end.

Fixpoint rstrip (s : string) : string :=
  match s with
  | EmptyString => EmptyString
  | String c s' =>
      if isspace c
      then match rstrip s' with
           | EmptyString => EmptyString
           | r => String c r
           end
      else String c (rstrip s')
  end.

(** [s.strip()]. *)
Definition strip (s : string) : string := rstrip (lstrip s).

Fixpoint repeat_char (c : ascii) (n : nat) : string :=
  match n with
  | O => EmptyString
  | S n' => String c (repeat_char c n')
  end.

(** [f"{s:Ns}"]: left-justified in a field of [w] characters. *)
Definition ljust (w : nat) (s : string) : string :=
  s +:+ repeat_char " " (w - String.length s).

Definition rjust (w : nat) (c : ascii) (s : string) : string :=
  repeat_char c (w - String.length s) +:+ s.

(** [str(n)] and [f"{n}"] for an [int]. *)
Definition str_of_int (n : Z) : string := pretty n.

(** [f"{n:3d}"]. *)
Definition fmt_3d (n : Z) : string := rjust 3 " " (str_of_int n).

Definition hex_digits (n : Z) : string :=
  HexadecimalString.NilZero.string_of_uint (N.to_hex_uint (Z.to_N n)).

(** [f"{n:x}"]. *)
Definition fmt_x (n : Z) : string :=
  if n <? 0 then "-" +:+ hex_digits (- n) else hex_digits n.

(** [f"{n:02x}"]: zero padding counts the sign. *)
Definition fmt_02x (n : Z) : string :=
  if n <? 0 then "-" +:+ rjust 1 "0" (hex_digits (- n))
  else rjust 2 "0" (hex_digits n).

(** Value of a character as a digit in bases up to 36. *)
Definition digit_value (c : ascii) : option Z :=
  let n := Z.of_N (N_of_ascii c) in
  if (48 <=? n) && (n <=? 57) then Some (n - 48)
  else if (97 <=? n) && (n <=? 122) then Some (n - 87)
  else if (65 <=? n) && (n <=? 90) then Some (n - 55)
  else None.

Inductive scan_state := AtStart | AfterDigit | AfterUnderscore.

(** The digit part of an integer literal: digits below [base], single
    underscores between them. *)
Fixpoint scan_digits (base acc : Z) (st : scan_state) (s : string) : option Z :=
  match s with
  | EmptyString =>
      match st with
      | AfterDigit => Some acc
      | _ => None
      end
  | String c s' =>
      if decide (c = "_"%char) then
        match st with
        | AfterDigit => scan_digits base acc AfterUnderscore s'
        | _ => None
        end
      else
        match digit_value c with
        | Some d =>
            if d <? base then scan_digits base (acc * base + d) AfterDigit s'
            else None
        | None => None
        end
  end.

(** The blanks [int] skips around a literal: the ASCII blanks, and the two
    other blanks below 256, which a text beyond ASCII has replaced by a
    space before it is read. The separators 28 to 31 are no blanks here,
    other than for [str.strip]. *)
Definition int_space (c : ascii) : bool :=
  let n := N_of_ascii c in
  ((9 <=? n) && (n <=? 13) || (n =? 32) || (n =? 133) || (n =? 160))%N.

Fixpoint int_lstrip (s : string) : string :=
  match s with
  | EmptyString => EmptyString
  | String c s' => if int_space c then int_lstrip s' else s
  end.

Fixpoint int_rstrip (s : string) : string :=
  match s with
  | EmptyString => EmptyString
  | String c s' =>
      if int_space c
      then match int_rstrip s' with
           | EmptyString => EmptyString
           | r => String c r
           end
      else String c (int_rstrip s')
  end.

(** The sign of a literal and the text after it. *)
Definition signed_body (s : string) : Z * string :=
  match int_rstrip (int_lstrip s) with
  | String "-" t => (-1, t)
  | String "+" t => (1, t)
  | t => (1, t)
  end.

(** After the sign: for base 16 an optional [0x]/[0X] and then an optional
    underscore. *)
Definition skip_prefix (base : Z) (s : string) : string :=
  match s with
  | String "0" (String x s') =>
      if (base =? 16) && (bool_decide (x = "x"%char) || bool_decide (x = "X"%char))
      then match s' with
           | String "_" s'' => s''
           | _ => s'
           end
      else s
  | _ => s
  end.

(** [int(s, base)] on a string, for [base] 16 and, without the digit limit
    of the interpreter, for [base] 10: the limit does not apply to a base
    that is a power of two. *)
Definition int (base : Z) (s : string) : result Z :=
  let '(sign, t) := signed_body s in
  match scan_digits base 0 AtStart (skip_prefix base t) with
  | Some n => Ok (sign * n)
  | None => Raise ValueError
  end.

(** The digits of a literal's digit part: its characters but the
    underscores. *)
Fixpoint digit_count (s : string) : nat :=
  match s with
  | EmptyString => O
  | String c s' =>
      if decide (c = "_"%char) then digit_count s' else S (digit_count s')
  end.

(** [int(s)]: base 10. A literal of more than 640 digits is refused with
    [ValueError] when the interpreter has a digit limit ([max_str_digits],
    0 for none) and the literal has more digits than that. *)
Definition int_decimal (max_str_digits : nat) (s : string) : result Z :=
  match int 10 s with
  | Ok n =>
      let digits := digit_count (snd (signed_body s)) in
      if ((640 <? digits) && (0 <? max_str_digits)
          && (max_str_digits <? digits))%nat
      then Raise ValueError
      else Ok n
  | Raise e => Raise e
  end.

(** [s.split(sep, maxsplit=1)]: the text before the first [sep], and the
    text after it when there is one. *)
Fixpoint split_once (sep : ascii) (s : string) : string * option string :=
  match s with
  | EmptyString => (EmptyString, None)
  | String c s' =>
      if decide (c = sep) then (EmptyString, Some s')
      else let '(a, b) := split_once sep s' in (String c a, b)
  end.

(** [s.split(sep)[0]]. *)
Definition first_field (sep : ascii) (s : string) : string :=
  fst (split_once sep s).

(** [os.path.basename(p)]: the text after the last slash. *)
Fixpoint basename (p : string) : string :=
  match p with
  | EmptyString => EmptyString
  | String c p' =>
      if str_in "/" p' then basename p'
      else if decide (c = "/"%char) then p'
      else p
  end.

Fixpoint endswith_slash (p : string) : bool :=
  match p with
  | EmptyString => false
  | String c EmptyString => bool_decide (c = "/"%char)
  | String _ p' => endswith_slash p'
  end.

(** [os.path.join(a, b)]. *)
Definition path_join (a b : string) : string :=
  if String.prefix "/" b then b
  else if bool_decide (a = EmptyString) || endswith_slash a then a +:+ b
  else a +:+ "/" +:+ b.

(** [s.replace(old, new)] for a non-empty [old]; [skip] counts the
    characters of a match still to be dropped. *)
Fixpoint replace_from (old new : string) (skip : nat) (s : string) : string :=
  match s with
  | EmptyString => EmptyString
  | String c s' =>
      match skip with
      | S k => replace_from old new k s'
      | O =>
          if String.prefix old s
          then new +:+ replace_from old new (String.length old - 1) s'
          else String c (replace_from old new 0 s')
      end
  end.

Definition replace (old new s : string) : string := replace_from old new 0 s.

(** [sep.join(l)]. *)
Definition join (sep : string) (l : list string) : string := String.concat sep l.

(** [sorted(l)] on integers. *)
Definition sorted (l : list Z) : list Z := merge_sort Z.le l.

(** [d[k] = v] on an insertion-ordered dictionary. *)
Fixpoint dict_set {K V} `{EqDecision K} (k : K) (v : V) (d : list (K * V))
    : list (K * V) :=
  match d with
  | [] => [(k, v)]
  | (k', v') :: d' =>
      if decide (k = k') then (k, v) :: d' else (k', v') :: dict_set k v d'
  end.

(** [dict(pairs)]. *)
Definition dict {K V} `{EqDecision K} (pairs : list (K * V)) : list (K * V) :=
  fold_left (fun d kv => dict_set (fst kv) (snd kv) d) pairs [].

(** [s[:n]] and [s[n:]]. *)
Definition take (n : nat) (s : string) : string := String.substring 0 n s.
Fixpoint drop (n : nat) (s : string) : string :=
  match n, s with
  | O, _ => s
  | S n', String _ s' => drop n' s'
  | S _, EmptyString => EmptyString
  end.

End Py.

(** ** The interpreter *)

(** What the program takes from the interpreter it runs on. *)
Record interpreter := {
  (* sys.get_int_max_str_digits(): the digit limit of int(), 0 for none *)
  int_max_str_digits : nat;
  (* the order in which set(l) is iterated: each element once, in an order
     that depends on the hashes of the texts and so on the hash seed *)
  set_order : list string -> list string;
  set_order_NoDup : ∀ l, NoDup (set_order l);
  set_order_elem : ∀ l x, x ∈ set_order l ↔ x ∈ l;
}.

(** [int(s)] on the interpreter. *)
Definition int_of_str (py : interpreter) (s : string) : result Z :=
  Py.int_decimal (int_max_str_digits py) s.

(** ** Queries built from a text *)

Module XPath.

(** A character of an XML document. *)
Definition is_char (c : ascii) : bool :=
  let n := N_of_ascii c in
  ((n =? 9) || (n =? 10) || (n =? 13) || (32 <=? n))%N.

(** Whether [f"...'{t}'..."] holds the string literal for [t]: [t] has no
    apostrophe, which would end the literal before the end of [t], and
    only characters of XML. *)
Fixpoint literal (t : string) : bool :=
  match t with
  | EmptyString => true
  | String c t' => negb (bool_decide (c = "'"%char)) && is_char c && literal t'
  end.

(** One item of an answer: a text, or a node that is no text. *)
Inductive item :=
| Text (t : string)
| Node.

(** [int(x, base)] on an item: only a text has a base. *)
Definition int (base : Z) (x : item) : result Z :=
  match x with
  | Text t => Py.int base t
  | Node => Raise TypeError
  end.

End XPath.

(** ** Board document *)

(** A [<device>] element below a [<bus>] element, in document order. *)
Record device_etree := {
  dev_bus_type : option string;     (* ../@type *)
  dev_bus_address : option string;  (* ../@address *)
  dev_address : option string;      (* @address *)
  dev_vendor : option string;       (* vendor/text() *)
  dev_class : option string;        (* class/text() *)
}.

(** ** Slot allocator: [LaunchScript.VirtualBDFAllocator] *)

(** A value passed as [vbdf]/[slot]: the callers pass integers (from
    [get_slot_by_vbdf]) and strings (["0:0"], ["1:0"]). *)
Inductive vbdf_t :=
| VInt (n : Z)
| VStr (s : string).

#[global] Instance vbdf_eq_dec : EqDecision vbdf_t.
Proof. solve_decision. Defined.

Module VirtualBDFAllocator.

Record t := { _free_slots : list Z }.

(** [__init__]: [self._free_slots = list(range(3, 30))]. *)
Definition init : t := {| _free_slots := Py.range 3 30 |}.

(** [self._free_slots.pop(0)]. *)
Definition pop0 (a : t) : result (Z * t) :=
  match _free_slots a with
  | [] => Raise IndexError
  | s :: rest => Ok (s, {| _free_slots := rest |})
  end.

Definition get_virtual_bdf (device_etree : option device_etree)
    (options : option string) (a : t) : result (Z * t) :=
  let vga :=
    match device_etree with
    | Some d =>
        (* bus and vendor_id are read and not used *)
        let class_code := dev_class d in
        (* VGA-compatible controller, either integrated or discrete GPU *)
        bool_decide (class_code = Some "0x030000")
    | None => false
    end in
  if vga then Ok (2, a)
  else if Py.truthy options && Py.str_in "igd" (default EmptyString options) then Ok (2, a)
  else pop0 a.

(** [slot in self._free_slots] holds for no [str]: the pool holds [int]s. *)
Definition remove_virtual_bdf (slot : vbdf_t) (a : t) : t :=
  match slot with
  | VInt n =>
      if bool_decide (n ∈ _free_slots a)
      then {| _free_slots := Py.list_remove n (_free_slots a) |}
      else a
  | VStr _ => a
  end.

(** Whether a call takes one of the two early returns of slot 2. *)
Definition gpu_shortcut (device_etree : option device_etree)
    (options : option string) : bool :=
  match device_etree with
  | Some d => bool_decide (dev_class d = Some "0x030000")
  | None => false
  end
  || (Py.truthy options && Py.str_in "igd" (default EmptyString options)).

(** *** Call sequences on one allocator *)

Inductive call :=
| Allocate (device_etree : option device_etree) (options : option string)
| Release (slot : vbdf_t).

(** What a call gave back: the slot of a pool draw, the fixed GPU slot,
    nothing (release), or the [IndexError] of an empty pool. *)
Inductive outcome :=
| Drawn (slot : Z)
| Shortcut (slot : Z)
| Released
| Exhausted.

Definition step (c : call) (a : t) : outcome * t :=
  match c with
  | Allocate d o =>
      match get_virtual_bdf d o a with
      | Ok (s, a') => (if gpu_shortcut d o then Shortcut s else Drawn s, a')
      | Raise _ => (Exhausted, a)
      end
  | Release s => (Released, remove_virtual_bdf s a)
  end.

(** Runs the calls in order; an exhausted allocation leaves the pool as it
    is (the caller may stop or go on). *)
Fixpoint run (cs : list call) (a : t) : list outcome * t :=
  match cs with
  | [] => ([], a)
  | c :: cs' =>
      let '(o, a') := step c a in
      let '(os, a'') := run cs' a' in
      (o :: os, a'')
  end.

Fixpoint draws (os : list outcome) : list Z :=
  match os with
  | [] => []
  | Drawn s :: os' => s :: draws os'
  | _ :: os' => draws os'
  end.

End VirtualBDFAllocator.

(** ** Documents *)

(** A [<thread>] element below [<processors>]. *)
Record thread_etree := {
  thread_cpu_id : list string;   (* string values of its cpu_id elements *)
  thread_apic_id : list string;  (* apic_id/text() *)
}.

(** The board document: what [//processors//thread...] and
    [//bus[...]/device[...]] select, in document order; and for a text [t]
    that is no string literal, the first item of the answer to
    [//processors//thread[cpu_id='{t}']/apic_id/text()], which is then
    another expression than the comparison with [t], or the exception of
    its evaluation. *)
Record board_etree := {
  board_threads : list thread_etree;
  board_devices : list device_etree;
  board_apic_id_pasted : string -> result (option XPath.item);
}.

Record virtio_input_etree := {
  input_backend_device_file : option string;  (* ./backend_device_file[text() != '']/text() *)
  input_id : option string;                   (* ./id[text() != '']/text() *)
}.

Record virtio_console_etree := {
  console_use_type : option string;
  console_backend_type : option string;
  console_output_file_path : option string;
  console_tty_device_path : option string;
  console_sock_file_path : option string;
}.

Record virtio_network_etree := {
  network_virtio_framework : option string;
  network_interface_name : option string;
}.

Record display_etree := {
  display_window_dimensions : option string;
  display_horizontal_offset : option string;
  display_vertical_offset : option string;
  display_monitor_id : option string;
}.

Record gpu_etree := {
  gpu_display_type : option string;     (* ./display_type[text() != '']/text() *)
  gpu_displays : list display_etree;    (* ./displays/display *)
}.

(** A [<vm>] element of the scenario document. Each field is the answer to
    the query named beside it; a query for one value answers with the first
    node selected, or [None]. *)
Record vm_etree := {
  vm_id : option string;                  (* @id *)
  vm_load_order : list string;            (* string values of load_order *)
  vm_name_text : option string;           (* ./name/text() *)
  vm_os_type : option string;             (* .//os_type/text() *)
  vm_os_type_is_windows : bool;           (* .//os_type[text()='Windows OS'] selects a node *)
  vm_PTM_is_y : bool;                     (* .//PTM[text()='y'] selects a node *)
  vm_vm_type : option string;             (* .//vm_type/text() *)
  vm_pcpu_ids : list string;              (* .//cpu_affinity//pcpu_id[text() != '']/text() *)
  vm_own_pcpu_ids : list string;          (* cpu_affinity//pcpu_id/text() *)
  vm_memory_size : option string;         (* .//memory/size/text() *)
  vm_vbootloader : option string;         (* .//vbootloader/text() *)
  vm_vuart0 : option string;              (* .//vuart0/text() *)
  vm_console_vuart : option string;       (* .//console_vuart/text() *)
  vm_lapic_passthrough : option string;   (* .//lapic_passthrough/text() *)
  vm_usb_xhci : list string;              (* .//usb_xhci/usb_dev[text() != '']/text() *)
  vm_virtio_input : list virtio_input_etree;      (* .//virtio_devices/input *)
  vm_virtio_console : list virtio_console_etree;  (* .//virtio_devices/console *)
  vm_virtio_network : list virtio_network_etree;  (* .//virtio_devices/network *)
  vm_virtio_block : list string;          (* .//virtio_devices/block[text() != '']/text() *)
  vm_virtio_gpu : list gpu_etree;         (* .//virtio_devices/gpu *)
  vm_vsock : list string;                 (* .//virtio_devices/vsock[text() != '']/text() *)
  vm_pci_devs : list string;              (* .//pci_devs/*/text() *)
}.

Record ivshmem_etree := {
  ivshmem_PROVIDED_BY : list string;      (* string values of PROVIDED_BY *)
  ivshmem_VM_NAME : list string;          (* string values of .//VM_NAME *)
  ivshmem_VBDF : option string;           (* .//VBDF/text() *)
  ivshmem_NAME : option (option string);  (* find('NAME'), then its .text *)
  ivshmem_IVSHMEM_SIZE : option (option string);
}.

Record endpoint_etree := {
  endpoint_vm_name : list string;         (* vm_name/text() *)
  endpoint_vbdf : list string;            (* vbdf/text() *)
}.

Record vuart_connection_etree := {
  conn_type : option string;              (* ./type/text() *)
  conn_endpoints : list endpoint_etree;   (* ./endpoint *)
  (* first item of ./endpoint[vm_name/text() = '{t}']/vbdf/text() for a
     [t] that is no string literal *)
  conn_vbdf_pasted : string -> result (option XPath.item);
}.

Record hv_etree := {
  hv_SCHEDULER : option string;           (* .//SCHEDULER/text() *)
}.

(** The scenario document: the [<hv>] element, the [<vm>] elements and what
    the document-wide ([//...]) queries select. For a text [t] that is no
    string literal, the items of the answers to the queries with [t]
    pasted in, [None] standing for an item that is no element, or the
    exception of the evaluation. *)
Record scenario_etree := {
  scenario_hv : option hv_etree;                          (* //hv *)
  scenario_vms : list vm_etree;                           (* //vm *)
  scenario_IVSHMEM_REGION : list ivshmem_etree;           (* //IVSHMEM_REGION *)
  scenario_vuart_connection : list vuart_connection_etree; (* //vuart_connection *)
  scenario_has_SSRAM_ENABLED : bool;                      (* //SSRAM_ENABLED selects a node *)
  (* //IVSHMEM_REGION[PROVIDED_BY = '<provider>' and .//VM_NAME = '{t}'] *)
  scenario_IVSHMEM_REGION_pasted :
    string -> string -> result (list (option ivshmem_etree));
  (* //vuart_connection[endpoint/vm_name/text() = '{t}'] *)
  scenario_vuart_connection_pasted :
    string -> result (list (option vuart_connection_etree));
}.

(** ** Option inference: [LaunchScript.PassThruDeviceOptions] *)

Module PassThruDeviceOptions.

(** Class-code prefix, scenario predicate, option tokens. *)
Definition passthru_device_options
    : list (string * ((vm_etree -> bool) * list string)) :=
  [ ("0x0200", (vm_PTM_is_y, ["enable_ptm"]));
    ("0x0c0330", (vm_os_type_is_windows, ["d3hot_reset"])) ].

Definition get_option (device_etree : option device_etree)
    (vm_scenario_etree : vm_etree) : string :=
  let passthru_options :=
    match device_etree with
    | Some d =>
        let class_code := default EmptyString (dev_class d) in
        flat_map
          (fun kv =>
             if String.prefix (fst kv) class_code && fst (snd kv) vm_scenario_etree
             then snd (snd kv) else [])
          passthru_device_options
    | None => []
    end in
  Py.join "," passthru_options.

End PassThruDeviceOptions.

(** ** Command stream builder: [LaunchScript] *)

Record LaunchScript := {
  _board_etree : board_etree;
  _vm_scenario_etree : vm_etree;
  _vm_name : string;
  _vm_descriptors : list (string * string);
  _init_commands : list string;
  _cpu_dict : list (Z * option Z);
  _dm_parameters : list string;
  _deinit_commands : list string;
  _vbdf_allocator : VirtualBDFAllocator.t;
}.

Definition set_vm_descriptors (v : list (string * string)) (s : LaunchScript) :=
  {| _board_etree := _board_etree s; _vm_scenario_etree := _vm_scenario_etree s;
     _vm_name := _vm_name s; _vm_descriptors := v;
     _init_commands := _init_commands s; _cpu_dict := _cpu_dict s;
     _dm_parameters := _dm_parameters s; _deinit_commands := _deinit_commands s;
     _vbdf_allocator := _vbdf_allocator s |}.

Definition set_init_commands (v : list string) (s : LaunchScript) :=
  {| _board_etree := _board_etree s; _vm_scenario_etree := _vm_scenario_etree s;
     _vm_name := _vm_name s; _vm_descriptors := _vm_descriptors s;
     _init_commands := v; _cpu_dict := _cpu_dict s;
     _dm_parameters := _dm_parameters s; _deinit_commands := _deinit_commands s;
     _vbdf_allocator := _vbdf_allocator s |}.

Definition set_cpu_dict (v : list (Z * option Z)) (s : LaunchScript) :=
  {| _board_etree := _board_etree s; _vm_scenario_etree := _vm_scenario_etree s;
     _vm_name := _vm_name s; _vm_descriptors := _vm_descriptors s;
     _init_commands := _init_commands s; _cpu_dict := v;
     _dm_parameters := _dm_parameters s; _deinit_commands := _deinit_commands s;
     _vbdf_allocator := _vbdf_allocator s |}.

Definition set_dm_parameters (v : list string) (s : LaunchScript) :=
  {| _board_etree := _board_etree s; _vm_scenario_etree := _vm_scenario_etree s;
     _vm_name := _vm_name s; _vm_descriptors := _vm_descriptors s;
     _init_commands := _init_commands s; _cpu_dict := _cpu_dict s;
     _dm_parameters := v; _deinit_commands := _deinit_commands s;
     _vbdf_allocator := _vbdf_allocator s |}.

Definition set_deinit_commands (v : list string) (s : LaunchScript) :=
  {| _board_etree := _board_etree s; _vm_scenario_etree := _vm_scenario_etree s;
     _vm_name := _vm_name s; _vm_descriptors := _vm_descriptors s;
     _init_commands := _init_commands s; _cpu_dict := _cpu_dict s;
     _dm_parameters := _dm_parameters s; _deinit_commands := v;
     _vbdf_allocator := _vbdf_allocator s |}.

Definition set_vbdf_allocator (v : VirtualBDFAllocator.t) (s : LaunchScript) :=
  {| _board_etree := _board_etree s; _vm_scenario_etree := _vm_scenario_etree s;
     _vm_name := _vm_name s; _vm_descriptors := _vm_descriptors s;
     _init_commands := _init_commands s; _cpu_dict := _cpu_dict s;
     _dm_parameters := _dm_parameters s; _deinit_commands := _deinit_commands s;
     _vbdf_allocator := v |}.

(** [if x not in l: l.append(x)]. *)
Definition append_if_absent (x : string) (l : list string) : list string :=
  if bool_decide (x ∈ l) then l else l ++ [x].

(** [LaunchScript.__init__]. *)
Definition LaunchScript_init (board : board_etree) (vm_name : string)
    (vm_scenario : vm_etree) : LaunchScript :=
  {| _board_etree := board; _vm_scenario_etree := vm_scenario;
     _vm_name := vm_name; _vm_descriptors := [];
     _init_commands := []; _cpu_dict := [];
     _dm_parameters := []; _deinit_commands := [];
     _vbdf_allocator := VirtualBDFAllocator.init |}.

Definition add_vm_descriptor (name value : string) (s : LaunchScript) :=
  set_vm_descriptors (Py.dict_set name value (_vm_descriptors s)) s.

Definition add_sos_cpu_dict (cpu_and_lapic_id_list : list (Z * option Z))
    (s : LaunchScript) :=
  set_cpu_dict (Py.dict cpu_and_lapic_id_list) s.

Definition add_init_command (command : string) (s : LaunchScript) :=
  set_init_commands (append_if_absent command (_init_commands s)) s.

Definition add_deinit_command (command : string) (s : LaunchScript) :=
  set_deinit_commands (append_if_absent command (_deinit_commands s)) s.

Definition add_plain_dm_parameter (opt : string) (s : LaunchScript) :=
  let full_opt := opt in
  set_dm_parameters (append_if_absent full_opt (_dm_parameters s)) s.

(** The text [add_dynamic_dm_parameter] builds from its arguments. *)
Definition dynamic_dm_parameter (cmd opt : string) : string :=
  let full_cmd := Py.strip (Py.ljust 40 cmd +:+ " " +:+ opt) in
  "`" +:+ full_cmd +:+ "`".

Definition add_dynamic_dm_parameter (cmd opt : string) (s : LaunchScript) :=
  let full_opt := dynamic_dm_parameter cmd opt in
  set_dm_parameters (append_if_absent full_opt (_dm_parameters s)) s.

(** [f"{vbdf}"] for an integer or a string. *)
Definition fmt_vbdf (v : vbdf_t) : string :=
  match v with
  | VInt n => Py.str_of_int n
  | VStr t => t
  end.

Definition add_virtual_device (kind : string) (vbdf : option vbdf_t)
    (options : string) (s : LaunchScript) : result LaunchScript :=
  let s1 :=
    if Py.str_in "virtio" kind
       && bool_decide (vm_vm_type (_vm_scenario_etree s) = Some "RTVM")
    then add_plain_dm_parameter "--virtio_poll 1000000" s
    else s in
  match vbdf with
  | None =>
      match VirtualBDFAllocator.get_virtual_bdf None None (_vbdf_allocator s1) with
      | Ok (n, a) =>
          Ok (add_dynamic_dm_parameter "add_virtual_device"
                (Py.str_of_int n +:+ " " +:+ kind +:+ " " +:+ options)
                (set_vbdf_allocator a s1))
      | Raise e => Raise e
      end
  | Some v =>
      let a := VirtualBDFAllocator.remove_virtual_bdf v (_vbdf_allocator s1) in
      Ok (add_dynamic_dm_parameter "add_virtual_device"
            (fmt_vbdf v +:+ " " +:+ kind +:+ " " +:+ options)
            (set_vbdf_allocator a s1))
  end.

(** [//bus[@type='pci' and @address='0x..']/device[@address='0x..']], first
    node. *)
Definition find_pci_device (board : board_etree) (bus dev fn : Z)
    : option device_etree :=
  head (filter
          (fun d =>
             dev_bus_type d = Some "pci"
             ∧ dev_bus_address d = Some ("0x" +:+ Py.fmt_x bus)
             ∧ dev_address d = Some ("0x" +:+ Py.fmt_x (Z.lor (Z.shiftl dev 16) fn)))
          (board_devices board)).

(** The text of a passthrough device parameter's option part. *)
Definition passthru_text (vbdf bus dev fn : Z) (options : string) : string :=
  Py.str_of_int vbdf +:+ " 0000:" +:+ Py.fmt_02x bus +:+ ":" +:+ Py.fmt_02x dev
  +:+ "." +:+ Py.str_of_int fn +:+ " " +:+ options.

(** [if not options: options = self._passthru_options.get_option(...)]. *)
Definition passthru_options (options : string)
    (device_etree : option device_etree) (s : LaunchScript) : string :=
  if bool_decide (options = EmptyString)
  then PassThruDeviceOptions.get_option device_etree (_vm_scenario_etree s)
  else options.

Definition add_passthru_device (bus dev fn : Z) (options : string)
    (s : LaunchScript) : result LaunchScript :=
  let device_etree := find_pci_device (_board_etree s) bus dev fn in
  let options := passthru_options options device_etree s in
  match VirtualBDFAllocator.get_virtual_bdf device_etree (Some options)
          (_vbdf_allocator s) with
  | Ok (vbdf, a) =>
      let s1 := add_dynamic_dm_parameter "add_passthrough_device"
                  (passthru_text vbdf bus dev fn options)
                  (set_vbdf_allocator a s) in
      (* Enable interrupt storm monitoring if the VM has any passthrough
         device other than the integrated GPU (whose vBDF is fixed to 2) *)
      if bool_decide (vbdf ≠ 2)
      then Ok (add_dynamic_dm_parameter "add_interrupt_storm_monitor"
                 "10000 10 1 100" s1)
      else Ok s1
  | Raise e => Raise e
  end.

(** [has_dm_parameter(fn)]. *)
Definition has_dm_parameter (fn : string -> bool) (s : LaunchScript) : bool :=
  existsb fn (_dm_parameters s).

(** *** Serialization *)

Definition nl : string := String (ascii_of_nat 10) EmptyString.
Definition dq : string := String (ascii_of_nat 34) EmptyString.

Definition generated_banner : string :=
"
###
# The followings are generated by launch_cfg_gen.py
###
".

Definition cpu_id_note : string :=
"
# Note for developers: The number of available logical CPUs depends on the
# number of enabled cores and whether Hyperthreading is enabled in the BIOS
# settings. CPU IDs are assigned to each logical CPU but are not the same ID
# value throughout the system:
#
# Native CPU_ID:
#       ID enumerated by the Linux Kernel and shown in the
#       ACRN Configurator's CPU Affinity option (used in the scenario.xml)
# Service VM CPU_ID:
#       ID assigned by the Service VM at runtime
# APIC_ID:
#       Advanced Programmable Interrupt Controller's unique ID as
#       enumerated by the board inspector (used in this launch script)
#
# This table shows equivalent CPU IDs for this scenario and board:
#
".

(** The lines [for x in xs: s += f"...{x}...\n"] adds. *)
Definition lines_of {A} (f : A -> string) (xs : list A) : string :=
  String.concat EmptyString (map (fun x => f x +:+ nl) xs).

(** The rows of the CPU table; formatting [None] with [3d] is a
    [TypeError]. *)
Fixpoint cpu_rows (vcpu_id : Z) (d : list (Z * option Z)) : result string :=
  match d with
  | [] => Ok EmptyString
  | (cpu_info, lapic) :: d' =>
      match lapic with
      | None => Raise TypeError
      | Some apic =>
          match cpu_rows (vcpu_id + 1) d' with
          | Ok rest =>
              Ok ("#   "
                  +:+ Py.fmt_3d cpu_info +:+ Py.ljust 17 EmptyString
                  +:+ Py.fmt_3d vcpu_id +:+ Py.ljust 17 EmptyString
                  +:+ Py.fmt_3d apic +:+ nl +:+ rest)
          | Raise e => Raise e
          end
      end
  end.

(** The parameter block: [dm_params=(], one line per parameter, [)]. *)
Definition dm_params_block (s : LaunchScript) : string :=
  "dm_params=(" +:+ nl
  +:+ lines_of (fun param => "    " +:+ param) (_dm_parameters s)
  +:+ ")" +:+ nl +:+ nl.

(** [to_string]; [template] is the text of [launch_script_template.sh]. *)
Definition to_string (template : string) (s : LaunchScript) : result string :=
  match cpu_rows 0 (_cpu_dict s) with
  | Raise e => Raise e
  | Ok rows =>
      Ok (Py.take 99 template
          +:+ "# Launch script for VM name: "
          +:+ _vm_name s +:+ nl
          +:+ nl
          +:+ Py.drop 99 template
          +:+ generated_banner
          +:+ nl
          +:+ "# Defining variables that describe VM types" +:+ nl
          +:+ lines_of (fun nv => fst nv +:+ "=" +:+ snd nv) (_vm_descriptors s)
          +:+ nl
          +:+ "# Initializing" +:+ nl
          +:+ lines_of id (_init_commands s)
          +:+ nl
          +:+ cpu_id_note
          +:+ nl
          +:+ "#   Native CPU_ID    Service VM CPU_ID    APIC_ID" +:+ nl
          +:+ "#   -------------    -----------------    -------" +:+ nl
          +:+ rows
          +:+ nl
          +:+ "# Invoking ACRN device model" +:+ nl
          +:+ dm_params_block s
          +:+ "echo " +:+ dq +:+ "Launch device model with parameters: ${dm_params[@]}"
          +:+ dq +:+ nl
          +:+ "acrn-dm " +:+ dq +:+ "${dm_params[@]}" +:+ dq +:+ nl +:+ nl
          +:+ "# Deinitializing" +:+ nl
          +:+ lines_of id (_deinit_commands s))
  end.

(** ** Effects: the log and the files written *)

Inductive log_level := INFO | WARNING | ERROR.

Record world := {
  logged : list (log_level * string);
  written : list (string * string);   (* path, text *)
}.

Definition log (lvl : log_level) (msg : string) (w : world) : world :=
  {| logged := logged w ++ [(lvl, msg)]; written := written w |}.

Definition write_file (path text : string) (w : world) : world :=
  {| logged := logged w; written := written w ++ [(path, text)] |}.

(** State and exception monad. *)
Definition SE (S A : Type) : Type := S -> result (A * S).

Definition ret {S A} (a : A) : SE S A := fun s => Ok (a, s).

Definition bind {S A B} (m : SE S A) (k : A -> SE S B) : SE S B :=
  fun s =>
    match m s with
    | Ok (a, s') => k a s'
    | Raise e => Raise e
    end.

Definition raise {S A} (e : exn) : SE S A := fun _ => Raise e.

Declare Scope se_scope.
Delimit Scope se_scope with se.
Notation "x <- m ;; k" := (bind m (fun x => k))
  (at level 100, m at next level, right associativity) : se_scope.
Notation "m ;;; k" := (bind m (fun _ => k))
  (at level 100, right associativity) : se_scope.
Local Open Scope se_scope.

(** [for x in l: f(x)]. *)
Fixpoint for_each {S A} (l : list A) (f : A -> SE S unit) : SE S unit :=
  match l with
  | [] => ret tt
  | x :: l' => f x ;;; for_each l' f
  end.

(** [[f(x) for x in l]]. *)
Fixpoint map_m {S A B} (f : A -> SE S B) (l : list A) : SE S (list B) :=
  match l with
  | [] => ret []
  | x :: l' => y <- f x ;; ys <- map_m f l' ;; ret (y :: ys)
  end.

Definition of_result {S A} (r : result A) : SE S A :=
  fun s => match r with Ok a => Ok (a, s) | Raise e => Raise e end.

Definition logging {S} (lift : (world -> world) -> S -> S)
    (lvl : log_level) (msg : string) : SE S unit :=
  fun s => Ok (tt, lift (log lvl msg) s).

(** ** CPU identity mapper *)

(** The first [apic_id] text of the threads with a [cpu_id] equal to
    [cpu]. *)
Definition apic_id_text (board : board_etree) (cpu : string) : option string :=
  head (flat_map thread_apic_id
          (filter (fun t => cpu ∈ thread_cpu_id t) (board_threads board))).

(** [eval_xpath(board_etree,
    f"//processors//thread[cpu_id='{cpu}']/apic_id/text()", None)]. *)
Definition apic_id_query (board : board_etree) (cpu : string)
    : result (option XPath.item) :=
  if XPath.literal cpu then Ok (XPath.Text <$> apic_id_text board cpu)
  else board_apic_id_pasted board cpu.

Definition cpu_warning (cpu vm_name : string) : string :=
  "CPU " +:+ cpu +:+ " is not defined in the board XML, so it can't be available to VM "
  +:+ vm_name.

Definition cpu_id_to_lapic_id (board : board_etree) (vm_name cpu : string)
    : SE world (option Z) :=
  lapic_id <- of_result (apic_id_query board cpu) ;;
  match lapic_id with
  | Some x => n <- of_result (XPath.int 16 x) ;; ret (Some n)
  | None =>
      logging (fun f => f) WARNING (cpu_warning cpu vm_name) ;;;
      ret None
  end.

(** [get_slot_by_vbdf]; a node that is no text has no [split]. *)
Definition get_slot_by_vbdf (vbdf : option XPath.item) : result (option Z) :=
  match vbdf with
  | Some (XPath.Text t) =>
      match snd (Py.split_once ":" t) with
      | None => Raise IndexError
      | Some after =>
          match Py.int 16 (Py.first_field "." (Py.first_field ":" after)) with
          | Ok n => Ok (Some n)
          | Raise e => Raise e
          end
      end
  | Some XPath.Node => Raise AttributeError
  | None => Ok None
  end.

(** ** Device enumerator: [generate_for_one_vm] *)

(** The generator's state while one VM is processed: the script under
    construction and the effects so far. *)
Definition G : Type -> Type := SE (LaunchScript * world).

Definition upd (f : LaunchScript -> LaunchScript) : G unit :=
  fun sw => Ok (tt, (f (fst sw), snd sw)).

Definition attempt (f : LaunchScript -> result LaunchScript) : G unit :=
  fun sw =>
    match f (fst sw) with
    | Ok s' => Ok (tt, (s', snd sw))
    | Raise e => Raise e
    end.

Definition in_world {A} (m : SE world A) : G A :=
  fun sw =>
    match m (snd sw) with
    | Ok (a, w') => Ok (a, (fst sw, w'))
    | Raise e => Raise e
    end.

Definition when {S} (b : bool) (m : SE S unit) : SE S unit :=
  if b then m else ret tt.

(** [enumerate(l, start)]. *)
Fixpoint enumerate {A} (start : Z) (l : list A) : list (Z * A) :=
  match l with
  | [] => []
  | x :: l' => (start, x) :: enumerate (start + 1) l'
  end.

(** [e.find(tag).text] inside an f-string. *)
Definition find_text (o : option (option string)) : result string :=
  match o with
  | None => Raise AttributeError
  | Some t => Ok (Py.fmt t)
  end.

(** [re.compile("([0-9a-f]{2}):([0-1][0-9a-f]).([0-7])").match(s)]: the
    three groups when the pattern matches at the start of [s]. *)
Definition is_0_9a_f (c : ascii) : bool :=
  let n := N_of_ascii c in
  ((48 <=? n) && (n <=? 57) || (97 <=? n) && (n <=? 102))%N.

Definition is_0_1 (c : ascii) : bool :=
  let n := N_of_ascii c in ((48 <=? n) && (n <=? 49))%N.

Definition is_0_7 (c : ascii) : bool :=
  let n := N_of_ascii c in ((48 <=? n) && (n <=? 55))%N.

(** The regular expression's [.]: any character but a newline. *)
Definition is_dot (c : ascii) : bool := negb (N_of_ascii c =? 10)%N.

Definition bdf_regex_match (s : string) : option (string * string * string) :=
  match s with
  | String b1 (String b2 (String colon (String d1 (String d2
      (String sep (String f _)))))) =>
      if is_0_9a_f b1 && is_0_9a_f b2 && bool_decide (colon = ":"%char)
         && is_0_1 d1 && is_0_9a_f d2 && is_dot sep && is_0_7 f
      then Some (String b1 (String b2 EmptyString),
                 String d1 (String d2 EmptyString),
                 String f EmptyString)
      else None
  | _ => None
  end.

Section generate_for_one_vm.

Variable py : interpreter.
Variable board_etree : board_etree.
(** The document [vm_scenario_etree] and [hv_scenario_etree] belong to:
    the [//...] queries made on them select from it. *)
Variable scenario : scenario_etree.
Variable hv_scenario_etree : option hv_etree.
Variable vm_scenario_etree : vm_etree.

Definition the_vm_name : string :=
  default "ACRN Post-Launched VM" (vm_name_text vm_scenario_etree).

Definition vm_type_is_RTVM : bool :=
  bool_decide (vm_vm_type vm_scenario_etree = Some "RTVM").

(** VM types and guest OSes. *)
Definition vm_types_and_guest_oses : G unit :=
  when (bool_decide (vm_os_type vm_scenario_etree = Some "Windows OS"))
    (upd (add_plain_dm_parameter "--windows")) ;;;
  upd (add_vm_descriptor "vm_type"
         ("'" +:+ default "STANDARD_VM" (vm_vm_type vm_scenario_etree) +:+ "'")) ;;;
  match hv_scenario_etree with
  | None => raise AttributeError
  | Some hv =>
      upd (add_vm_descriptor "scheduler"
             ("'" +:+ Py.fmt (hv_SCHEDULER hv) +:+ "'"))
  end.

(** [[x for x in [cpu_id_to_lapic_id(...) for cpu_id in cpus] if x != None]]. *)
Definition lapic_ids_of (cpus : list string) : SE world (list Z) :=
  xs <- map_m (cpu_id_to_lapic_id board_etree the_vm_name) cpus ;;
  ret (omap id xs).

Definition add_cpus_text (lapic_ids : list Z) : string :=
  Py.join " " (map Py.str_of_int (Py.sorted lapic_ids)).

(** CPU resources: the [add_cpus] parameter. *)
Definition cpu_resources : G unit :=
  let cpus := set_order py (vm_pcpu_ids vm_scenario_etree) in
  lapic_ids <- in_world (lapic_ids_of cpus) ;;
  when (negb (bool_decide (lapic_ids = [])))
    (upd (add_dynamic_dm_parameter "add_cpus" (add_cpus_text lapic_ids))).

(** Memory resources. [eval_xpath(..., "//SSRAM_ENABLED")] is an element
    or [None], and neither equals the string ["y"]. *)
Definition memory_resources : G unit :=
  upd (add_plain_dm_parameter
         ("-m " +:+ Py.fmt (vm_memory_size vm_scenario_etree) +:+ "M")) ;;;
  let ssram_enabled_is_y := false in
  when (ssram_enabled_is_y && vm_type_is_RTVM)
    (upd (add_plain_dm_parameter "--ssram")).

(** Guest BIOS. *)
Definition guest_bios : G unit :=
  when (bool_decide (vm_vbootloader vm_scenario_etree = Some "y"))
    (upd (add_plain_dm_parameter "--ovmf /usr/share/acrn/bios/OVMF.fd")).

(** Emulated platform devices and the host bridge. *)
Definition platform_devices : G unit :=
  when (negb vm_type_is_RTVM)
    (attempt (add_virtual_device "lpc" (Some (VStr "1:0")) EmptyString)) ;;;
  when (bool_decide (vm_vuart0 vm_scenario_etree = Some "y"))
    (upd (add_plain_dm_parameter "-l com1,stdio")) ;;;
  attempt (add_virtual_device "hostbridge" (Some (VStr "0:0")) EmptyString).

(** The regions of a provider that name the VM. *)
Definition ivshmem_regions (provided_by : string) : list ivshmem_etree :=
  filter (fun r => provided_by ∈ ivshmem_PROVIDED_BY r
                   ∧ the_vm_name ∈ ivshmem_VM_NAME r)
    (scenario_IVSHMEM_REGION scenario).

(** [eval_xpath_all(vm_scenario_etree, f"//IVSHMEM_REGION[PROVIDED_BY =
    '<provided_by>' and .//VM_NAME = '{vm_name}']")]. *)
Definition ivshmem_query (provided_by : string)
    : result (list (option ivshmem_etree)) :=
  if XPath.literal the_vm_name then Ok (Some <$> ivshmem_regions provided_by)
  else scenario_IVSHMEM_REGION_pasted scenario provided_by the_vm_name.

(** The loop body; an item that is no element has no [xpath]. *)
Definition ivshmem_device (backend : string) (ivshmem : option ivshmem_etree)
    : G unit :=
  match ivshmem with
  | None => raise AttributeError
  | Some ivshmem =>
      let vbdf := XPath.Text <$> ivshmem_VBDF ivshmem in
      slot <- of_result (get_slot_by_vbdf vbdf) ;;
      name <- of_result (find_text (ivshmem_NAME ivshmem)) ;;
      size <- of_result (find_text (ivshmem_IVSHMEM_SIZE ivshmem)) ;;
      attempt (add_virtual_device "ivshmem" (VInt <$> slot)
                 (backend +:+ ":/" +:+ name +:+ "," +:+ size))
  end.

(** The connections with an endpoint of the VM. *)
Definition vuart_connections : list vuart_connection_etree :=
  filter (fun c => Exists (fun e => the_vm_name ∈ endpoint_vm_name e)
                     (conn_endpoints c))
    (scenario_vuart_connection scenario).

(** [eval_xpath_all(hv_scenario_etree,
    f"//vuart_connection[endpoint/vm_name/text() = '{vm_name}']")]. *)
Definition vuart_query : result (list (option vuart_connection_etree)) :=
  if XPath.literal the_vm_name then Ok (Some <$> vuart_connections)
  else scenario_vuart_connection_pasted scenario the_vm_name.

(** [eval_xpath(conn,
    f"./endpoint[vm_name/text() = '{vm_name}']/vbdf/text()")]. *)
Definition vbdf_query (conn : vuart_connection_etree)
    : result (option XPath.item) :=
  if XPath.literal the_vm_name
  then Ok (XPath.Text <$>
             head (flat_map endpoint_vbdf
                     (filter (fun e => the_vm_name ∈ endpoint_vm_name e)
                        (conn_endpoints conn))))
  else conn_vbdf_pasted conn the_vm_name.

Definition vuart_device (idx_conn : Z * option vuart_connection_etree) : G unit :=
  let '(idx, conn) := idx_conn in
  match conn with
  | None => raise AttributeError
  | Some conn =>
      when (bool_decide (conn_type conn = Some "pci"))
        (vbdf <- of_result (vbdf_query conn) ;;
         slot <- of_result (get_slot_by_vbdf vbdf) ;;
         attempt (add_virtual_device "uart" (VInt <$> slot)
                    ("vuart_idx:" +:+ Py.str_of_int idx)))
  end.

(** Shared-memory regions and vuarts: the devices with slots set by the
    user, generated before the others. *)
Definition reserved_slot_devices : G unit :=
  (regions <- of_result (ivshmem_query "Device Model") ;;
   for_each regions (ivshmem_device "dm")) ;;;
  (regions <- of_result (ivshmem_query "Hypervisor") ;;
   for_each regions (ivshmem_device "hv")) ;;;
  when (bool_decide (vm_console_vuart vm_scenario_etree = Some "PCI"))
    (attempt (add_virtual_device "uart" None "vuart_idx:0")) ;;;
  match hv_scenario_etree with
  | None => raise AttributeError
  | Some _ =>
      conns <- of_result vuart_query ;;
      for_each (enumerate 1 conns) vuart_device
  end.

Definition usb_xhci_device (usb_xhci : string) : G unit :=
  let bus_port := Py.first_field " " usb_xhci in
  attempt (add_virtual_device "xhci" None bus_port).

Definition virtio_input_device (e : virtio_input_etree) : G unit :=
  match input_backend_device_file e, input_id e with
  | Some backend_device_file, Some unique_identifier =>
      attempt (add_virtual_device "virtio-input" None
                 (backend_device_file +:+ ",id:" +:+ unique_identifier))
  | Some backend_device_file, None =>
      attempt (add_virtual_device "virtio-input" None backend_device_file)
  | None, _ => ret tt
  end.

Definition virtio_console_device (e : virtio_console_etree) : G unit :=
  let use_type := console_use_type e in
  let backend_type := console_backend_type e in
  let preceding_mask :=
    if bool_decide (use_type = Some "Virtio console") then "@" else EmptyString in
  if bool_decide (backend_type = Some "file") then
    attempt (add_virtual_device "virtio-console" None
               (preceding_mask +:+ "file:file_port="
                +:+ Py.fmt (console_output_file_path e)))
  else if bool_decide (backend_type = Some "tty") then
    attempt (add_virtual_device "virtio-console" None
               (preceding_mask +:+ "tty:tty_port="
                +:+ Py.fmt (console_tty_device_path e)))
  else if bool_decide (backend_type = Some "sock server")
          || bool_decide (backend_type = Some "sock client") then
    match console_sock_file_path e with
    | None => raise TypeError
    | Some sock_file_path =>
        attempt (add_virtual_device "virtio-console" None
                   ("socket:" +:+ Py.first_field "." (Py.basename sock_file_path)
                    +:+ "=" +:+ sock_file_path +:+ ":"
                    +:+ Py.replace "sock " EmptyString (Py.fmt backend_type)))
    end
  else if bool_decide (backend_type = Some "pty")
          || bool_decide (backend_type = Some "stdio") then
    attempt (add_virtual_device "virtio-console" None
               (preceding_mask +:+ Py.fmt backend_type +:+ ":"
                +:+ Py.fmt backend_type +:+ "_port"))
  else ret tt.

Definition virtio_network_device (e : virtio_network_etree) : G unit :=
  let virtio_framework := network_virtio_framework e in
  match network_interface_name e with
  | None => raise AttributeError
  | Some interface_name =>
      let '(first, more) := Py.split_once "," interface_name in
      let tap_conf := "tap=" +:+ first in
      let params := [tap_conf] ++ option_list more in
      let params :=
        if bool_decide (virtio_framework = Some "Kernel based (Virtual Host)")
        then params ++ ["vhost"] else params in
      upd (add_init_command "mac=$(cat /sys/class/net/e*/address)") ;;;
      let params := params ++ ["mac_seed=${mac:0:17}-" +:+ the_vm_name] in
      attempt (add_virtual_device "virtio-net" None (Py.join "," params))
  end.

Definition virtio_block_device (virtio_block : string) : G unit :=
  match Py.split_once ":" virtio_block with
  | (_, None) => attempt (add_virtual_device "virtio-blk" None virtio_block)
  | (block_device, Some rootfs_img) =>
      let var := "dir_" +:+ Py.basename block_device in
      upd (add_init_command
             (var +:+ "=`mount_partition " +:+ block_device +:+ "`")) ;;;
      attempt (add_virtual_device "virtio-blk" None
                 (Py.path_join ("${" +:+ var +:+ "}") rootfs_img)) ;;;
      upd (add_deinit_command ("unmount_partition ${" +:+ var +:+ "}"))
  end.

Definition display_params (display_type : option string) (d : display_etree)
    : list string :=
  (if bool_decide (display_type = Some "Window")
   then ["geometry=" +:+ Py.fmt (display_window_dimensions d)
         +:+ "+" +:+ Py.fmt (display_horizontal_offset d)
         +:+ "+" +:+ Py.fmt (display_vertical_offset d)]
   else [])
  ++
  (if bool_decide (display_type = Some "Full screen")
   then ["geometry=fullscreen:" +:+ Py.fmt (display_monitor_id d)]
   else []).

Definition virtio_gpu_device (e : gpu_etree) : G unit :=
  let display_type := gpu_display_type e in
  let params := flat_map (display_params display_type) (gpu_displays e) in
  attempt (add_virtual_device "virtio-gpu" None (Py.join "," params)).

Definition vsock_device (vsock : string) : G unit :=
  attempt (add_virtual_device "vhost-vsock" None ("cid=" +:+ vsock)).

(** Mediated PCI devices, including virtio. *)
Definition mediated_devices : G unit :=
  for_each (vm_usb_xhci vm_scenario_etree) usb_xhci_device ;;;
  for_each (vm_virtio_input vm_scenario_etree) virtio_input_device ;;;
  for_each (vm_virtio_console vm_scenario_etree) virtio_console_device ;;;
  for_each (vm_virtio_network vm_scenario_etree) virtio_network_device ;;;
  for_each (vm_virtio_block vm_scenario_etree) virtio_block_device ;;;
  for_each (vm_virtio_gpu vm_scenario_etree) virtio_gpu_device ;;;
  for_each (vm_vsock vm_scenario_etree) vsock_device.

(** One entry of the passthrough device list. *)
Definition passthru_entry (passthru_device : string) : G unit :=
  match bdf_regex_match passthru_device with
  | None => ret tt
  | Some (g1, g2, g3) =>
      bus <- of_result (Py.int 16 g1) ;;
      dev <- of_result (Py.int 16 g2) ;;
      func <- of_result (Py.int 16 g3) ;;
      attempt (add_passthru_device bus dev func EmptyString)
  end.

(** Passthrough PCI devices. *)
Definition passthrough_devices : G unit :=
  for_each (vm_pci_devs vm_scenario_etree) passthru_entry.

(** Miscellaneous. *)
Definition miscellaneous : G unit :=
  when vm_type_is_RTVM
    (upd (add_plain_dm_parameter "--rtvm") ;;;
     when (bool_decide (vm_lapic_passthrough vm_scenario_etree = Some "y"))
       (upd (add_plain_dm_parameter "--lapic_pt"))) ;;;
  upd (add_dynamic_dm_parameter "add_logger_settings" "console=4 kmsg=3 disk=5").

(** Lastly, conclude the device model parameters with the VM name. *)
Definition conclude : G unit :=
  upd (add_plain_dm_parameter the_vm_name).

Definition generate_body : G unit :=
  upd (add_init_command "probe_modules") ;;;
  vm_types_and_guest_oses ;;;
  cpu_resources ;;;
  memory_resources ;;;
  guest_bios ;;;
  platform_devices ;;;
  reserved_slot_devices ;;;
  mediated_devices ;;;
  passthrough_devices ;;;
  miscellaneous ;;;
  conclude.

Definition generate_for_one_vm (vm_id : Z) : SE world LaunchScript :=
  fun w =>
    let script := LaunchScript_init board_etree the_vm_name vm_scenario_etree in
    match generate_body (script, w) with
    | Ok (_, (script', w')) => Ok (script', w')
    | Raise e => Raise e
    end.

End generate_for_one_vm.

(** ** Orchestrator: [write_to_file] and [main] *)

(** What [os.mkdir(out_dir)] does: it succeeds, or raises [FileExistsError]
    (and then [os.path.isfile(out_dir)] answers [isfile]), or raises another
    exception, whose text is [e]. *)
Inductive mkdir_outcome :=
| MkdirDone
| MkdirFileExists (isfile : bool)
| MkdirFails (e : string).

Record filesystem := {
  fs_template : string;        (* text of launch_script_template.sh *)
  fs_mkdir : mkdir_outcome;    (* outcome of os.mkdir(out_dir) *)
}.

Definition write_to_file (fs : filesystem) (path : string) (s : LaunchScript)
    : SE world unit :=
  text <- of_result (to_string (fs_template fs) s) ;;
  (fun w => Ok (tt, write_file path text w)) ;;;
  logging (fun f => f) INFO
    ("Successfully generated launch script " +:+ path +:+ " for VM '"
     +:+ _vm_name s +:+ "'.").

Definition has_load_order (order : string) (vm : vm_etree) : Prop :=
  order ∈ vm_load_order vm.

#[global] Instance has_load_order_dec order vm : Decision (has_load_order order vm).
Proof. unfold has_load_order. apply _. Defined.

(** [int(x)] where [x] may be [None]. *)
Definition int_of_attr (py : interpreter) (x : option string) : result Z :=
  match x with
  | None => Raise TypeError
  | Some t => int_of_str py t
  end.

Section main.

Variable py : interpreter.
Variable fs : filesystem.
Variable board_etree : board_etree.
Variable scenario_etree : scenario_etree.
Variable user_vm_id : Z.
Variable out_dir : string.

Definition service_vms : list vm_etree :=
  filter (has_load_order "SERVICE_VM") (scenario_vms scenario_etree).

Definition post_vms : list vm_etree :=
  filter (has_load_order "POST_LAUNCHED_VM") (scenario_vms scenario_etree).

Definition no_service_vm_message : string :=
  "The scenario does not define a service VM so no launch scripts will be generated for the post-launched VMs in the scenario.".

Definition one_post_vm (hv_scenario_etree : option hv_etree)
    (service_vm_name : option string) (service_vm_id : Z)
    (cpus_for_sos post_vm_ids : list Z) (post_vm : vm_etree) : SE world unit :=
  post_vm_id <- of_result (int_of_attr py (vm_id post_vm)) ;;
  if bool_decide (post_vm_id ∈ post_vm_ids) then
    script <- generate_for_one_vm py board_etree scenario_etree hv_scenario_etree
                post_vm post_vm_id ;;
    pairs <- map_m
               (fun x =>
                  lapic <- cpu_id_to_lapic_id board_etree (Py.fmt service_vm_name)
                             (Py.str_of_int x) ;;
                  ret (x, lapic))
               cpus_for_sos ;;
    let script := add_sos_cpu_dict pairs script in
    write_to_file fs
      (Py.path_join out_dir
         ("launch_user_vm_id" +:+ Py.str_of_int (post_vm_id - service_vm_id) +:+ ".sh"))
      script
  else ret tt.

(** [main]: the value returned, or the exception that escapes. *)
Definition main : SE world Z :=
  let service_vm_id := head (omap vm_id service_vms) in
  let service_vm_name := head (omap vm_name_text service_vms) in
  let hv_scenario_etree := scenario_hv scenario_etree in
  if bool_decide (service_vm_id = None) && (0 <? Z.of_nat (length post_vms)) then
    logging (fun f => f) ERROR no_service_vm_message ;;;
    ret 1
  else
    service_vm_id <- of_result (int_of_attr py service_vm_id) ;;
    (* Service VM CPU list *)
    let pre_all_cpus :=
      flat_map vm_own_pcpu_ids
        (filter (has_load_order "PRE_LAUNCHED_VM") (scenario_vms scenario_etree)) in
    ints <- map_m (fun x => of_result (int_of_str py x))
              (filter (fun x => x ∉ pre_all_cpus)
                 (flat_map thread_cpu_id (board_threads board_etree))) ;;
    let cpus_for_sos := Py.sorted ints in
    let continue : SE world Z :=
      post_vm_ids <-
        (if bool_decide (user_vm_id = 0)
         then map_m (fun vm => of_result (int_of_attr py (vm_id vm))) post_vms
         else ret [user_vm_id + service_vm_id]) ;;
      for_each post_vms
        (one_post_vm hv_scenario_etree service_vm_name service_vm_id
           cpus_for_sos post_vm_ids) ;;;
      ret 0 in
    match fs_mkdir fs with
    | MkdirDone => continue
    | MkdirFileExists true =>
        logging (fun f => f) ERROR
          ("Cannot create output directory " +:+ out_dir +:+ ": File exists") ;;;
        ret 1
    | MkdirFileExists false => continue
    | MkdirFails e =>
        logging (fun f => f) ERROR ("Cannot create output directory: " +:+ e) ;;;
        ret 1
    end.

End main.

(** ** Vocabulary of the properties *)

(** The interrupt-storm-monitor parameter [add_passthru_device] adds. *)
Definition monitor_parameter : string :=
  dynamic_dm_parameter "add_interrupt_storm_monitor" "10000 10 1 100".

(** The parameter [add_virtual_device] adds with RTVM virtio devices. *)
Definition virtio_poll_parameter : string := "--virtio_poll 1000000".








(** How often a text occurs in a sequence. *)
Definition occurrences (t : string) (l : list string) : nat :=
  length (filter (fun y => y = t) l).

(** The interrupt-controller id of a CPU: what the board answers for it,
    read in base 16. *)
Definition apic_of (board : board_etree) (cpu : string) : option Z :=
  match apic_id_query board cpu with
  | Ok (Some x) => match XPath.int 16 x with Ok n => Some n | Raise _ => None end
  | _ => None
  end.

(** The warnings for the CPUs of a list for which the board answers with
    nothing. *)
Definition cpu_warnings (board : board_etree) (vm_name : string)
    (cpus : list string) : list (log_level * string) :=
  flat_map
    (fun cpu =>
       match apic_id_query board cpu with
       | Ok None => [(WARNING, cpu_warning cpu vm_name)]
       | _ => []
       end)
    cpus.

(** Texts that are pasted into a query as string literals. *)
Definition literal_texts (l : list string) : Prop :=
  Forall (fun t => XPath.literal t = true) l.

(** The world after more records were logged. *)
Definition log_all (records : list (log_level * string)) (w : world) : world :=
  {| logged := logged w ++ records; written := written w |}.

(** ** Example documents *)

Module Examples.

(** An interpreter with the default digit limit that iterates a set in the
    order of the list it was made from, each text at its last occurrence. *)
Definition py : interpreter :=
  {| int_max_str_digits := 4300;
     set_order := remove_dups;
     set_order_NoDup := NoDup_remove_dups;
     set_order_elem := fun l x => elem_of_remove_dups l x |}.

(** A [<vm>] element with a name, a type, affinity CPUs and passthrough
    entries, and nothing else. *)
Definition vm (name : string) (vm_type : option string)
    (pcpu_ids pci_devs : list string) : vm_etree :=
  {| vm_id := Some "1"; vm_load_order := ["POST_LAUNCHED_VM"];
     vm_name_text := Some name;
     vm_os_type := None; vm_os_type_is_windows := false; vm_PTM_is_y := false;
     vm_vm_type := vm_type; vm_pcpu_ids := pcpu_ids; vm_own_pcpu_ids := pcpu_ids;
     vm_memory_size := Some "2048"; vm_vbootloader := None; vm_vuart0 := None;
     vm_console_vuart := None; vm_lapic_passthrough := None;
     vm_usb_xhci := []; vm_virtio_input := []; vm_virtio_console := [];
     vm_virtio_network := []; vm_virtio_block := []; vm_virtio_gpu := [];
     vm_vsock := []; vm_pci_devs := pci_devs |}.

Definition thread (cpu_id apic_id : string) : thread_etree :=
  {| thread_cpu_id := [cpu_id]; thread_apic_id := [apic_id] |}.

Definition pci_device (bus address class : string) : device_etree :=
  {| dev_bus_type := Some "pci"; dev_bus_address := Some bus;
     dev_address := Some address; dev_vendor := Some "0x8086";
     dev_class := Some class |}.

(** Four CPUs with APIC ids 0, 2, 4, 6; a VGA controller at 00:02.0 and an
    Ethernet controller at 01:00.0. *)
Definition board : board_etree :=
  {| board_threads := [thread "0" "0x0"; thread "1" "0x2";
                       thread "2" "0x4"; thread "3" "0x6"];
     board_devices := [pci_device "0x0" "0x20000" "0x030000";
                       pci_device "0x1" "0x0" "0x020000"];
     board_apic_id_pasted := fun _ => Raise XPathEvalError |}.

(** A board whose CPUs 0 and 1 carry the same APIC id. *)
Definition board_shared_apic_id : board_etree :=
  {| board_threads := [thread "0" "0x1"; thread "1" "0x1"];
     board_devices := [];
     board_apic_id_pasted := fun _ => Raise XPathEvalError |}.

(** A scenario document holding the given [<vm>] elements. *)
Definition scenario (vms : list vm_etree) : scenario_etree :=
  {| scenario_hv := Some {| hv_SCHEDULER := Some "SCHED_BVT" |};
     scenario_vms := vms;
     scenario_IVSHMEM_REGION := [];
     scenario_vuart_connection := [];
     scenario_has_SSRAM_ENABLED := false;
     scenario_IVSHMEM_REGION_pasted := fun _ _ => Raise XPathEvalError;
     scenario_vuart_connection_pasted := fun _ => Raise XPathEvalError |}.

Definition nothing_yet : world := {| logged := []; written := [] |}.

Definition fs : filesystem :=
  {| fs_template := "#!/bin/bash"; fs_mkdir := MkdirDone |}.

End Examples.

(** ** Vocabulary of the further properties *)

(** Every character, by code point. *)
Definition all_ascii : list ascii := map ascii_of_nat (seq 0 256).

(** Whether a character occurs in a string. *)
Fixpoint has_char (c : ascii) (s : string) : bool :=
  match s with
  | EmptyString => false
  | String c' s' => bool_decide (c' = c) || has_char c s'
  end.

(** *** The serialized sequences *)




#[global] Instance result_eq_dec {A} `{EqDecision A} : EqDecision (result A).
Proof. solve_decision. Defined.

(** An affinity CPU the board defines with an APIC id text that
    [int(_, 16)] rejects. *)
Definition malformed_apic_id (board : board_etree) (cpu : string) : Prop :=
  ∃ t, apic_id_text board cpu = Some t ∧ Py.int 16 t = Raise ValueError.

#[global] Instance malformed_apic_id_dec board cpu :
  Decision (malformed_apic_id board cpu).
Proof.
  unfold malformed_apic_id.
  destruct (apic_id_text board cpu) as [t|].
  - destruct (decide (Py.int 16 t = Raise ValueError)) as [Hbad|Hgood].
    + left. by exists t.
    + right. by intros (t' & [= <-] & Hbad).
  - right. by intros (t' & [=] & _).
Defined.

(** *** Invariants of a generation pass *)

(** The free pool of a script's allocator. *)
Definition pool (s : LaunchScript) : list Z :=
  VirtualBDFAllocator._free_slots (_vbdf_allocator s).

(** A text that starts like a command-line option or a dynamic parameter. *)
Definition is_option_text (p : string) : bool :=
  String.prefix "-" p || String.prefix "`" p.

(** The commands a [device:path] block entry adds. *)
Definition mount_command (var block_device : string) : string :=
  var +:+ "=`mount_partition " +:+ block_device +:+ "`".

Definition unmount_command (var : string) : string :=
  "unmount_partition ${" +:+ var +:+ "}".

(** What holds of a script all through the device enumeration. *)
Record script_inv (s : LaunchScript) : Prop := {
  inv_params : NoDup (_dm_parameters s);
  inv_init : NoDup (_init_commands s);
  inv_deinit : NoDup (_deinit_commands s);
  inv_pool : StronglySorted Z.lt (pool s);
  inv_range : Forall (fun n => 3 ≤ n ≤ 29) (pool s);
  inv_options : Forall (fun p => is_option_text p = true) (_dm_parameters s);
  inv_unmount :
    ∀ d, d ∈ _deinit_commands s →
         ∃ var dev, d = unmount_command var
                    ∧ mount_command var dev ∈ _init_commands s;
}.

(** What a step does to a script: the sequences grow at their end, the pool
    shrinks, the rest stays. *)
Record extends (s s' : LaunchScript) : Prop := {
  ext_board : _board_etree s' = _board_etree s;
  ext_vm : _vm_scenario_etree s' = _vm_scenario_etree s;
  ext_name : _vm_name s' = _vm_name s;
  ext_descriptors : _vm_descriptors s' = _vm_descriptors s;
  ext_cpu_dict : _cpu_dict s' = _cpu_dict s;
  ext_params : _dm_parameters s `prefix_of` _dm_parameters s';
  ext_init : _init_commands s `prefix_of` _init_commands s';
  ext_deinit : _deinit_commands s `prefix_of` _deinit_commands s';
  ext_pool : pool s' `sublist_of` pool s;
}.

Definition good (s s' : LaunchScript) : Prop :=
  (script_inv s → script_inv s') ∧ extends s s'.

(** A generator action that, when it succeeds, keeps the invariant, only
    extends the script and leaves the world alone. *)
Definition keeps {A} (m : G A) : Prop :=
  ∀ s w a s' w', m (s, w) = Ok (a, (s', w')) → good s s' ∧ w' = w.

(** The fixed parameters of every generated script. *)
Definition memory_parameter (vm : vm_etree) : string :=
  "-m " +:+ Py.fmt (vm_memory_size vm) +:+ "M".

Definition hostbridge_parameter : string :=
  dynamic_dm_parameter "add_virtual_device" "0:0 hostbridge ".

Definition lpc_parameter : string :=
  dynamic_dm_parameter "add_virtual_device" "1:0 lpc ".

Definition logger_parameter : string :=
  dynamic_dm_parameter "add_logger_settings" "console=4 kmsg=3 disk=5".

(** The affinity CPUs of a VM, each once, as the interpreter iterates
    them. *)
Definition affinity_cpus (py : interpreter) (vm : vm_etree) : list string :=
  set_order py (vm_pcpu_ids vm).

(** *** Vocabulary of [main] *)

(** The id attribute of the service VM, as [main] selects it. *)
Definition service_vm_id_text (scenario : scenario_etree) : option string :=
  head (omap vm_id (service_vms scenario)).

(** The outcomes of [os.mkdir] after which [main] gives up. *)
Definition mkdir_blocked (m : mkdir_outcome) : Prop :=
  m = MkdirFileExists true ∨ ∃ e, m = MkdirFails e.

(** The CPU id texts of the board that no pre-launched VM holds. *)
Definition sos_cpu_texts (board : board_etree) (scenario : scenario_etree)
    : list string :=
  filter (fun x => x ∉ flat_map vm_own_pcpu_ids
                         (filter (has_load_order "PRE_LAUNCHED_VM")
                            (scenario_vms scenario)))
    (flat_map thread_cpu_id (board_threads board)).

(** The path of the script of the post-launched VM with relative id [k]. *)
Definition script_path (out_dir : string) (k : Z) : string :=
  Py.path_join out_dir ("launch_user_vm_id" +:+ Py.str_of_int k +:+ ".sh").

(** The post-launched VMs [main] generates scripts for. *)
Definition selected_post_vms (py : interpreter) (scenario : scenario_etree)
    (user_vm_id sid : Z) : list vm_etree :=
  filter (fun vm => user_vm_id = 0 ∨ int_of_attr py (vm_id vm) = Ok (user_vm_id + sid))
    (post_vms scenario).

(** What [main] does once the output directory is there: the loop over
    the post-launched VMs. *)
Definition after_mkdir (py : interpreter) (fs : filesystem) (board : board_etree)
    (scenario : scenario_etree) (user_vm_id : Z) (out_dir : string)
    (sid : Z) (cpus_for_sos : list Z) : SE world Z :=
  bind (if bool_decide (user_vm_id = 0)
        then map_m (fun vm => of_result (int_of_attr py (vm_id vm))) (post_vms scenario)
        else ret [user_vm_id + sid])
    (fun post_vm_ids =>
       bind (for_each (post_vms scenario)
               (one_post_vm py fs board scenario out_dir (scenario_hv scenario)
                  (head (omap vm_name_text (service_vms scenario))) sid
                  cpus_for_sos post_vm_ids))
         (fun _ => ret 0)).

(** A scenario with a service VM and one post-launched VM. *)
Module MoreExamples.

Definition service_vm : vm_etree :=
  {| vm_id := Some "0"; vm_load_order := ["SERVICE_VM"];
     vm_name_text := Some "ACRN_Service_VM";
     vm_os_type := None; vm_os_type_is_windows := false;
     vm_PTM_is_y := false; vm_vm_type := None;
     vm_pcpu_ids := []; vm_own_pcpu_ids := [];
     vm_memory_size := None; vm_vbootloader := None;
     vm_vuart0 := None; vm_console_vuart := None;
     vm_lapic_passthrough := None; vm_usb_xhci := [];
     vm_virtio_input := []; vm_virtio_console := [];
     vm_virtio_network := []; vm_virtio_block := [];
     vm_virtio_gpu := []; vm_vsock := []; vm_pci_devs := [] |}.

Definition scenario : scenario_etree :=
  Examples.scenario [service_vm; Examples.vm "VM1" None ["1"; "3"] ["00:1f.3"]].

End MoreExamples.

(** A [<vm>] element whose id is an integer of the list. *)
Definition has_id_in (py : interpreter) (ids : list Z) (vm : vm_etree) : Prop :=
  match int_of_attr py (vm_id vm) with
  | Ok id => id ∈ ids
  | Raise _ => False
  end.

#[global] Instance has_id_in_dec py ids vm : Decision (has_id_in py ids vm).
Proof. unfold has_id_in. destruct (int_of_attr py (vm_id vm)); apply _. Defined.

(** *** Vocabulary of the dictionaries *)

(** [d.get(k)] on an insertion-ordered dictionary. *)
Fixpoint dict_get {K V} `{EqDecision K} (k : K) (d : list (K * V)) : option V :=
  match d with
  | [] => None
  | (k', v) :: d' => if decide (k = k') then Some v else dict_get k d'
  end.

(** The keys of a dictionary, in its order. *)
Definition dict_keys {K V} (d : list (K * V)) : list K := map fst d.

(** * Properties *)

(** ** Slot allocator *)

Module AllocatorFacts.
Import VirtualBDFAllocator.

Lemma fresh_pool : _free_slots init = Py.range 3 30.
Proof. reflexivity. Qed.

Lemma fresh_pool_NoDup : NoDup (_free_slots init).
Proof. apply (bool_decide_unpack _). vm_compute. exact I. Qed.

Lemma list_remove_sublist (x : Z) (l : list Z) : Py.list_remove x l `sublist_of` l.
Proof.
  induction l as [|y l IH]; simpl; [constructor|].
  destruct (decide (x = y)); [by apply sublist_cons | by apply sublist_skip].
Qed.

Lemma list_remove_gone (x : Z) (l : list Z) : NoDup l → x ∉ Py.list_remove x l.
Proof.
  induction 1 as [|y l Hy Hl IH]; simpl; [set_solver|].
  destruct (decide (x = y)) as [->|Hne]; [done|].
  rewrite not_elem_of_cons. done.
Qed.

(** The two early returns are taken exactly when [gpu_shortcut] holds. *)
Lemma get_virtual_bdf_shortcut d o a :
  gpu_shortcut d o = true → get_virtual_bdf d o a = Ok (2, a).
Proof.
  unfold gpu_shortcut, get_virtual_bdf. intros H.
  destruct (match d with Some d0 => _ | None => false end); [done|].
  simpl in H. by rewrite H.
Qed.

Lemma get_virtual_bdf_draw d o a :
  gpu_shortcut d o = false → get_virtual_bdf d o a = pop0 a.
Proof.
  unfold gpu_shortcut, get_virtual_bdf. intros H.
  destruct (match d with Some d0 => _ | None => false end); [done|].
  simpl in H. by rewrite H.
Qed.

Lemma remove_virtual_bdf_sublist s a :
  _free_slots (remove_virtual_bdf s a) `sublist_of` _free_slots a.
Proof.
  destruct s as [n|t]; simpl; [|done].
  case_bool_decide; simpl; [apply list_remove_sublist | done].
Qed.

Lemma remove_virtual_bdf_gone n a :
  NoDup (_free_slots a) → n ∉ _free_slots (remove_virtual_bdf (VInt n) a).
Proof.
  intros Hnd. simpl. case_bool_decide; simpl; [by apply list_remove_gone | done].
Qed.

(** One call: the pool shrinks to a sublist, and a drawn slot leaves it. *)
Lemma step_shrinks c a :
  _free_slots (step c a).2 `sublist_of` _free_slots a.
Proof.
  destruct c as [d o|s]; unfold step; [|apply remove_virtual_bdf_sublist].
  destruct (gpu_shortcut d o) eqn:Hg.
  - by rewrite get_virtual_bdf_shortcut.
  - rewrite get_virtual_bdf_draw by done. unfold pop0.
    destruct a as [[|y l]]; simpl; [done | by apply sublist_cons].
Qed.

Lemma step_drawn c a s :
  NoDup (_free_slots a) → (step c a).1 = Drawn s →
  s ∈ _free_slots a ∧ s ∉ _free_slots (step c a).2.
Proof.
  intros Hnd. destruct c as [d o|x]; unfold step; [|done].
  destruct (gpu_shortcut d o) eqn:Hg.
  - by rewrite get_virtual_bdf_shortcut.
  - rewrite get_virtual_bdf_draw by done. unfold pop0.
    destruct a as [[|y l]]; simpl in *; [done|].
    intros [= ->]. apply NoDup_cons in Hnd as [Hy _]. split; [left | done].
Qed.

Lemma run_cons c cs a :
  run (c :: cs) a = ((step c a).1 :: (run cs (step c a).2).1, (run cs (step c a).2).2).
Proof. simpl. destruct (step c a), (run cs _). reflexivity. Qed.

Lemma run_app cs1 cs2 a :
  run (cs1 ++ cs2) a =
  ((run cs1 a).1 ++ (run cs2 (run cs1 a).2).1, (run cs2 (run cs1 a).2).2).
Proof.
  revert a. induction cs1 as [|c cs1 IH]; intros a.
  - simpl. by destruct (run cs2 a).
  - rewrite <- app_comm_cons, !run_cons, IH. reflexivity.
Qed.

Lemma run_shrinks cs a :
  _free_slots (run cs a).2 `sublist_of` _free_slots a.
Proof.
  revert a. induction cs as [|c cs IH]; intros a; [done|].
  rewrite run_cons. simpl. etrans; [apply IH | apply step_shrinks].
Qed.

Lemma run_NoDup cs a : NoDup (_free_slots a) → NoDup (_free_slots (run cs a).2).
Proof. intros H. eapply sublist_NoDup; [exact H | apply run_shrinks]. Qed.

(** Every slot drawn was in the pool when the run started. *)
Lemma draws_from_pool cs a s :
  NoDup (_free_slots a) → s ∈ draws (run cs a).1 → s ∈ _free_slots a.
Proof.
  revert a. induction cs as [|c cs IH]; intros a Hnd; [simpl; set_solver|].
  rewrite run_cons. simpl.
  assert (Hnd' : NoDup (_free_slots (step c a).2))
    by (eapply sublist_NoDup; [exact Hnd | apply step_shrinks]).
  assert (Hrest : s ∈ draws (run cs (step c a).2).1 → s ∈ _free_slots a).
  { intros H. eapply elem_of_sublist; [by apply IH | apply step_shrinks]. }
  destruct ((step c a).1) eqn:E; try done.
  rewrite elem_of_cons. intros [->|H]; [|by apply Hrest].
  by apply step_drawn in E as [? _].
Qed.

Lemma draws_NoDup cs a : NoDup (_free_slots a) → NoDup (draws (run cs a).1).
Proof.
  revert a. induction cs as [|c cs IH]; intros a Hnd; [constructor|].
  rewrite run_cons. simpl.
  assert (Hnd' : NoDup (_free_slots (step c a).2))
    by (eapply sublist_NoDup; [exact Hnd | apply step_shrinks]).
  destruct ((step c a).1) eqn:E; try by apply IH.
  apply NoDup_cons. split; [|by apply IH].
  intros Hin. apply draws_from_pool in Hin; [|done].
  by apply step_drawn in E as [_ ?].
Qed.

Lemma elem_of_range (a b s : Z) : s ∈ Py.range a b ↔ a ≤ s < b.
Proof.
  unfold Py.range. rewrite list_elem_of_fmap. split.
  - intros (i & -> & Hi). apply elem_of_seq in Hi. lia.
  - intros H. exists (Z.to_nat (s - a)). split; [lia|]. apply elem_of_seq. lia.
Qed.

(** Slots outside 3..29, the reserved slots 0, 1, 2 and 31 among them, are
    never given by a pool draw. *)
Lemma draws_within_pool_range (cs : list call) (s : Z) :
  s ∈ draws (run cs init).1 → 3 ≤ s ≤ 29.
Proof.
  intros H. apply draws_from_pool in H; [|apply fresh_pool_NoDup].
  rewrite fresh_pool, elem_of_range in H. lia.
Qed.

Lemma reserved_slots_never_drawn (cs : list call) :
  (0 ∉ draws (run cs init).1) ∧ (1 ∉ draws (run cs init).1)
  ∧ (2 ∉ draws (run cs init).1) ∧ (31 ∉ draws (run cs init).1).
Proof.
  repeat split; intros H; apply draws_within_pool_range in H; lia.
Qed.

Lemma run_shortcuts d o a (n : nat) :
  gpu_shortcut d o = true →
  run (replicate n (Allocate d o)) a = (replicate n (Shortcut 2), a).
Proof.
  intros Hg. induction n as [|n IH]; [done|].
  cbn [replicate]. rewrite run_cons. unfold step.
  rewrite get_virtual_bdf_shortcut, Hg by done. simpl. by rewrite IH.
Qed.

End AllocatorFacts.

(** C1. Over any sequence of [get_virtual_bdf] and [remove_virtual_bdf]
    calls on a fresh allocator: the slots returned by pool draws are pairwise
    distinct; the free pool after more calls is a sublist of the pool before
    them; a slot that is not in the pool is not drawn later, in particular a
    slot removed by [remove_virtual_bdf] (the reservation of a slot the
    caller asked for) and a slot drawn earlier. *)
Theorem allocator_draws_never_repeat
    (before after : list VirtualBDFAllocator.call) :
  let run := VirtualBDFAllocator.run in
  let fresh := VirtualBDFAllocator.init in
  let pool a := VirtualBDFAllocator._free_slots a in
  let draws os := VirtualBDFAllocator.draws os in
  NoDup (draws (run (before ++ after) fresh).1)
  ∧ pool (run (before ++ after) fresh).2 `sublist_of` pool (run before fresh).2
  ∧ (∀ s, s ∉ pool (run before fresh).2 →
          s ∉ draws (run after (run before fresh).2).1)
  ∧ (∀ s, s ∉ draws (run after
                       (run (before ++ [VirtualBDFAllocator.Release (VInt s)]) fresh).2).1)
  ∧ (∀ s, s ∈ draws (run before fresh).1 →
          s ∉ draws (run after (run before fresh).2).1).
Proof.
  intros run fresh pool draws. subst run fresh pool draws.
  pose proof AllocatorFacts.fresh_pool_NoDup as Hfresh.
  assert (Hnd : NoDup (VirtualBDFAllocator._free_slots
                         (VirtualBDFAllocator.run before VirtualBDFAllocator.init).2))
    by (by apply AllocatorFacts.run_NoDup).
  assert (Hout : ∀ a s, NoDup (VirtualBDFAllocator._free_slots a) →
            s ∉ VirtualBDFAllocator._free_slots a →
            s ∉ VirtualBDFAllocator.draws (VirtualBDFAllocator.run after a).1).
  { intros a s Ha Hs Hin. apply Hs. by eapply AllocatorFacts.draws_from_pool. }
  split; [by apply AllocatorFacts.draws_NoDup|].
  split; [rewrite AllocatorFacts.run_app; apply AllocatorFacts.run_shrinks|].
  split; [intros s; by apply Hout|].
  split.
  - intros s. rewrite AllocatorFacts.run_app. cbn [snd VirtualBDFAllocator.run
      VirtualBDFAllocator.step].
    apply Hout.
    + eapply sublist_NoDup; [exact Hnd|].
      apply AllocatorFacts.remove_virtual_bdf_sublist.
    + by apply AllocatorFacts.remove_virtual_bdf_gone.
  - intros s Hs Hs'.
    pose proof (AllocatorFacts.draws_NoDup (before ++ after) _ Hfresh) as H.
    rewrite AllocatorFacts.run_app in H. cbn [fst] in H.
    assert (Happ : ∀ os1 os2, VirtualBDFAllocator.draws (os1 ++ os2)
              = VirtualBDFAllocator.draws os1 ++ VirtualBDFAllocator.draws os2).
    { intros os1 os2. induction os1 as [|[]]; simpl; congruence. }
    rewrite Happ in H. apply NoDup_app in H as (_ & H & _). by apply (H s).
Qed.

(** C2. The pool of a fresh allocator is [3, 4, ..., 29]: slot 30 is not in
    it, and the 28th allocation in a row finds the pool empty. *)
Theorem fresh_pool_stops_at_29 :
  let fresh := VirtualBDFAllocator.init in
  (∀ s, s ∈ VirtualBDFAllocator._free_slots fresh ↔ 3 ≤ s ≤ 29)
  ∧ (30 ∉ VirtualBDFAllocator._free_slots fresh)
  ∧ length (VirtualBDFAllocator._free_slots fresh) = 27%nat
  ∧ (VirtualBDFAllocator.run
       (replicate 28 (VirtualBDFAllocator.Allocate None None)) fresh).1 !! 27%nat
    = Some VirtualBDFAllocator.Exhausted.
Proof.
  intros fresh. subst fresh.
  assert (H : ∀ s, s ∈ VirtualBDFAllocator._free_slots VirtualBDFAllocator.init
                   ↔ 3 ≤ s ≤ 29).
  { intros s. rewrite AllocatorFacts.fresh_pool, AllocatorFacts.elem_of_range. lia. }
  split; [exact H|]. split; [rewrite H; lia|]. split; reflexivity.
Qed.

(** C3. A call of [get_virtual_bdf] whose device has class code [0x030000],
    or whose options contain [igd], returns 2 and leaves the pool as it was,
    whatever the pool holds; so does every repetition of the call. *)
Theorem gpu_shortcut_returns_slot_2
    (d : option device_etree) (o : option string) (a : VirtualBDFAllocator.t) :
  (∃ dev, d = Some dev ∧ dev_class dev = Some "0x030000")
  ∨ (∃ opts, o = Some opts ∧ Py.str_in "igd" opts = true) →
  VirtualBDFAllocator.get_virtual_bdf d o a = Ok (2, a)
  ∧ ∀ n : nat,
      VirtualBDFAllocator.run (replicate n (VirtualBDFAllocator.Allocate d o)) a
      = (replicate n (VirtualBDFAllocator.Shortcut 2), a).
Proof.
  intros H.
  assert (Hg : VirtualBDFAllocator.gpu_shortcut d o = true).
  { unfold VirtualBDFAllocator.gpu_shortcut.
    destruct H as [(dev & -> & Hc) | (opts & -> & Hi)].
    - by rewrite bool_decide_eq_true_2.
    - apply orb_true_iff. right. simpl. rewrite Hi.
      destruct opts; [discriminate Hi | reflexivity]. }
  split.
  - by apply AllocatorFacts.get_virtual_bdf_shortcut.
  - intros n. by apply AllocatorFacts.run_shortcuts.
Qed.

Lemma gpu_shortcut_returns_slot_2_witness :
  let vga := {| dev_bus_type := Some "pci"; dev_bus_address := Some "0x0";
                dev_address := Some "0x20000"; dev_vendor := Some "0x8086";
                dev_class := Some "0x030000" |} in
  let empty := {| VirtualBDFAllocator._free_slots := [] |} in
  VirtualBDFAllocator.get_virtual_bdf (Some vga) None empty = Ok (2, empty)
  ∧ ∀ n : nat,
      VirtualBDFAllocator.run
        (replicate n (VirtualBDFAllocator.Allocate (Some vga) None)) empty
      = (replicate n (VirtualBDFAllocator.Shortcut 2), empty).
Proof.
  intros vga empty.
  apply (gpu_shortcut_returns_slot_2 (Some vga) None empty).
  left. exists vga. split; reflexivity.
Defined.

(** ** Command stream builder *)

Module BuilderFacts.

Lemma append_if_absent_elem x l : x ∈ append_if_absent x l.
Proof.
  unfold append_if_absent. case_bool_decide; [done|].
  apply elem_of_app. right. by left.
Qed.

Lemma append_if_absent_mono x y l : y ∈ l → y ∈ append_if_absent x l.
Proof.
  unfold append_if_absent. case_bool_decide as Hx; [done|].
  intros Hy. apply elem_of_app. by left.
Qed.

Lemma append_if_absent_inv x y l :
  y ∈ append_if_absent x l → y = x ∨ y ∈ l.
Proof.
  unfold append_if_absent. case_bool_decide; [by right|].
  rewrite elem_of_app, list_elem_of_singleton. tauto.
Qed.

Lemma append_if_absent_NoDup x l : NoDup l → NoDup (append_if_absent x l).
Proof.
  unfold append_if_absent. case_bool_decide as Hx; [done|].
  intros H. apply NoDup_app. split; [done|]. split; [|apply NoDup_singleton].
  intros y Hy Hy'. apply list_elem_of_singleton in Hy'. by subst.
Qed.


Lemma append_if_absent_prefix x l : l `prefix_of` append_if_absent x l.
Proof.
  unfold append_if_absent. case_bool_decide; [done|]. by apply prefix_app_r.
Qed.

(** A dynamic parameter starts with a backquote. *)
Lemma dynamic_dm_parameter_head (cmd opt : string) :
  ∃ rest, dynamic_dm_parameter cmd opt = String "`" rest.
Proof. unfold dynamic_dm_parameter. eexists. reflexivity. Qed.

Lemma passthrough_ne_monitor (t : string) :
  dynamic_dm_parameter "add_passthrough_device" t
  ≠ dynamic_dm_parameter "add_interrupt_storm_monitor" "10000 10 1 100".
Proof.
  unfold dynamic_dm_parameter, Py.strip, Py.ljust. cbn. discriminate.
Qed.

(** Appending a parameter and then a different one, each if absent. *)
Lemma append_two_if_absent (own mon : string) (l : list string) :
  own ≠ mon →
  own ∈ append_if_absent own l
  ∧ own ∈ append_if_absent mon (append_if_absent own l)
  ∧ mon ∈ append_if_absent mon (append_if_absent own l)
  ∧ (mon ∈ l →
       append_if_absent mon (append_if_absent own l) = append_if_absent own l)
  ∧ (mon ∉ l → own ∉ l →
       append_if_absent mon (append_if_absent own l) = l ++ [own; mon])
  ∧ (mon ∈ append_if_absent own l ↔ mon ∈ l).
Proof.
  intros Hne.
  split; [apply append_if_absent_elem|].
  split; [apply append_if_absent_mono, append_if_absent_elem|].
  split; [apply append_if_absent_elem|].
  split; [|split].
  - intros Hin. unfold append_if_absent at 1.
    rewrite bool_decide_eq_true_2; [reflexivity|].
    apply append_if_absent_mono, Hin.
  - intros Hm Ho. unfold append_if_absent.
    rewrite (bool_decide_eq_false_2 (own ∈ l) Ho).
    rewrite bool_decide_eq_false_2.
    + rewrite <- app_assoc. reflexivity.
    + rewrite elem_of_app, list_elem_of_singleton.
      intros [Hin|Heq]; [exact (Hm Hin) | exact (Hne (eq_sym Heq))].
  - split.
    + intros Hin. apply append_if_absent_inv in Hin as [Heq|Hin];
        [destruct (Hne (eq_sym Heq)) | exact Hin].
    + apply append_if_absent_mono.
Qed.

End BuilderFacts.

(** ** Passthrough devices and the interrupt storm monitor *)

(** C4, as the code has it. When the allocator resolves the device of an
    [add_passthru_device] call to slot [vbdf], the call succeeds and adds
    the device's own parameter if absent. For [vbdf] other than 2 the
    interrupt-storm-monitor parameter is in the list afterwards: appended
    right after the device's own parameter when the list held neither yet,
    and left in place, not repeated, when an earlier device put it there.
    For [vbdf] 2 the call adds no monitor parameter. *)
Theorem passthrough_monitor_present_once
    (bus dev fn vbdf : Z) (options : string) (s : LaunchScript)
    (a : VirtualBDFAllocator.t) :
  let device_etree := find_pci_device (_board_etree s) bus dev fn in
  let opts := passthru_options options device_etree s in
  let own := dynamic_dm_parameter "add_passthrough_device"
               (passthru_text vbdf bus dev fn opts) in
  VirtualBDFAllocator.get_virtual_bdf device_etree (Some opts) (_vbdf_allocator s)
  = Ok (vbdf, a) →
  ∃ s', add_passthru_device bus dev fn options s = Ok s'
    ∧ _vbdf_allocator s' = a
    ∧ own ∈ _dm_parameters s'
    ∧ (NoDup (_dm_parameters s) → NoDup (_dm_parameters s'))
    ∧ (vbdf ≠ 2 →
         monitor_parameter ∈ _dm_parameters s'
         ∧ _dm_parameters s'
           = append_if_absent monitor_parameter
               (append_if_absent own (_dm_parameters s))
         ∧ (monitor_parameter ∈ _dm_parameters s →
              _dm_parameters s' = append_if_absent own (_dm_parameters s))
         ∧ (monitor_parameter ∉ _dm_parameters s → own ∉ _dm_parameters s →
              _dm_parameters s' = _dm_parameters s ++ [own; monitor_parameter]))
    ∧ (vbdf = 2 →
         _dm_parameters s' = append_if_absent own (_dm_parameters s)
         ∧ (monitor_parameter ∈ _dm_parameters s'
            ↔ monitor_parameter ∈ _dm_parameters s)).
Proof.
  intros d opts own Hget. unfold add_passthru_device.
  fold d. fold opts. cbv zeta. rewrite Hget.
  pose proof (BuilderFacts.append_two_if_absent own monitor_parameter
                (_dm_parameters s) (BuilderFacts.passthrough_ne_monitor _))
    as (H1 & H2 & H3 & H4 & H5 & H6).
  pose proof (BuilderFacts.append_if_absent_NoDup own (_dm_parameters s)) as Hnd1.
  pose proof (BuilderFacts.append_if_absent_NoDup monitor_parameter
                (append_if_absent own (_dm_parameters s))) as Hnd2.
  unfold add_dynamic_dm_parameter. cbv zeta.
  fold own. fold monitor_parameter.
  clearbody own. revert H1 H2 H3 H4 H5 H6 Hnd1 Hnd2.
  generalize monitor_parameter. intros mon H1 H2 H3 H4 H5 H6 Hnd1 Hnd2.
  case_bool_decide as Hv; eexists; (split; [reflexivity|]);
    cbn [_dm_parameters _vbdf_allocator set_dm_parameters set_vbdf_allocator].
  - split; [reflexivity|]. split; [exact H2|].
    split; [intros Hnd; exact (Hnd2 (Hnd1 Hnd))|].
    split; [|intros Hv'; destruct (Hv Hv')].
    intros _. split; [exact H3|]. split; [reflexivity|].
    split; [exact H4 | exact H5].
  - split; [reflexivity|]. split; [exact H1|]. split; [exact Hnd1|].
    split; [intros Hv'; destruct (Hv' Hv)|].
    intros _. split; [reflexivity | exact H6].
Qed.

Lemma passthrough_monitor_present_once_witness :
  let s := LaunchScript_init Examples.board "VM1"
             (Examples.vm "VM1" None [] []) in
  VirtualBDFAllocator.get_virtual_bdf
    (find_pci_device (_board_etree s) 0 31 3)
    (Some (passthru_options EmptyString (find_pci_device (_board_etree s) 0 31 3) s))
    (_vbdf_allocator s)
  = Ok (3, {| VirtualBDFAllocator._free_slots := Py.range 4 30 |})
  ∧ ∃ s', add_passthru_device 0 31 3 EmptyString s = Ok s'
          ∧ monitor_parameter ∈ _dm_parameters s'.
Proof.
  intros s.
  assert (Hget : VirtualBDFAllocator.get_virtual_bdf
            (find_pci_device (_board_etree s) 0 31 3)
            (Some (passthru_options EmptyString
                     (find_pci_device (_board_etree s) 0 31 3) s))
            (_vbdf_allocator s)
          = Ok (3, {| VirtualBDFAllocator._free_slots := Py.range 4 30 |}))
    by (vm_compute; reflexivity).
  split; [exact Hget|].
  destruct (passthrough_monitor_present_once 0 31 3 3 EmptyString s _ Hget)
    as (s' & Hs' & _ & _ & _ & Hne2 & _).
  exists s'. split; [exact Hs'|]. apply Hne2. lia.
Defined.

(** The claim as written fails for the second of two devices that are not
    GPUs: its parameter is the last of the list, with no monitor parameter
    after it. *)
Lemma second_passthrough_device_gets_no_monitor_after_it :
  let s := LaunchScript_init Examples.board "VM1"
             (Examples.vm "VM1" None [] []) in
  ∃ s1 s2,
    add_passthru_device 0 31 3 EmptyString s = Ok s1
    ∧ add_passthru_device 0 20 0 EmptyString s1 = Ok s2
    ∧ _dm_parameters s2
      = [ dynamic_dm_parameter "add_passthrough_device" "3 0000:00:1f.3";
          monitor_parameter;
          dynamic_dm_parameter "add_passthrough_device" "4 0000:00:14.0" ].
Proof.
  intros s.
  destruct (add_passthru_device 0 31 3 EmptyString s) as [s1|e] eqn:E1;
    [|vm_compute in E1; discriminate E1].
  destruct (add_passthru_device 0 20 0 EmptyString s1) as [s2|e] eqn:E2.
  - exists s1, s2. split; [reflexivity|]. split; [exact E2|].
    vm_compute in E1. injection E1 as <-.
    vm_compute in E2. injection E2 as <-. vm_compute. reflexivity.
  - vm_compute in E1. injection E1 as <-. vm_compute in E2. discriminate E2.
Qed.

Module SequenceFacts.





Lemma occurrences_NoDup (t : string) (l : list string) :
  NoDup l → t ∈ l → occurrences t l = 1%nat.
Proof.
  unfold occurrences. induction 1 as [|x l Hx Hl IH]; [by intros ?%elem_of_nil|].
  rewrite elem_of_cons. destruct (decide (x = t)) as [->|Hne].
  - intros _. rewrite filter_cons_True by done. simpl. f_equal.
    apply length_zero_iff_nil, elem_of_nil_inv.
    intros y Hy. apply list_elem_of_filter in Hy as [-> Hy]. done.
  - intros [->|Hin]; [done|]. rewrite filter_cons_False by done. by apply IH.
Qed.













End SequenceFacts.


(** ** Virtual devices *)

Module VirtualDeviceFacts.

(** The device parameter [add_virtual_device] adds for a slot text. *)
Lemma device_parameter_ne_virtio_poll (t : string) :
  dynamic_dm_parameter "add_virtual_device" t ≠ virtio_poll_parameter.
Proof.
  destruct (BuilderFacts.dynamic_dm_parameter_head "add_virtual_device" t)
    as [rest ->].
  unfold virtio_poll_parameter. discriminate.
Qed.

Lemma poll_then_own (poll own : string) (l : list string) :
  own ≠ poll →
  poll ∈ append_if_absent own (append_if_absent poll l)
  ∧ own ∈ append_if_absent own (append_if_absent poll l)
  ∧ (NoDup l →
     occurrences poll (append_if_absent own (append_if_absent poll l)) = 1%nat)
  ∧ (own ∉ l →
     ∃ before, append_if_absent own (append_if_absent poll l) = before ++ [own]
               ∧ poll ∈ before).
Proof.
  intros Hne.
  assert (Hp : poll ∈ append_if_absent own (append_if_absent poll l))
    by apply BuilderFacts.append_if_absent_mono, BuilderFacts.append_if_absent_elem.
  split; [exact Hp|]. split; [apply BuilderFacts.append_if_absent_elem|]. split.
  - intros Hnd. apply SequenceFacts.occurrences_NoDup; [|exact Hp].
    by do 2 apply BuilderFacts.append_if_absent_NoDup.
  - intros Ho. exists (append_if_absent poll l).
    split; [|apply BuilderFacts.append_if_absent_elem].
    unfold append_if_absent at 1. rewrite bool_decide_eq_false_2; [done|].
    intros Hin. apply BuilderFacts.append_if_absent_inv in Hin as [Heq|Hin]; done.
Qed.

(** The call fails only on an empty pool with no slot given. *)
Lemma add_virtual_device_raises kind options s :
  VirtualBDFAllocator._free_slots
    (_vbdf_allocator s) = [] →
  add_virtual_device kind None options s = Raise IndexError.
Proof.
  intros Hempty. unfold add_virtual_device.
  destruct (_ && _); cbn [_vbdf_allocator add_plain_dm_parameter set_dm_parameters];
    unfold VirtualBDFAllocator.get_virtual_bdf, VirtualBDFAllocator.pop0;
    cbn; by rewrite Hempty.
Qed.

(** A call with a slot given, or with a slot left in the pool, succeeds:
    it adds the poll parameter when the condition holds, then the device
    parameter for the slot. *)
Lemma add_virtual_device_succeeds kind vbdf options s :
  (vbdf = None → VirtualBDFAllocator._free_slots (_vbdf_allocator s) ≠ []) →
  ∃ slot a,
    add_virtual_device kind vbdf options s
    = Ok (add_dynamic_dm_parameter "add_virtual_device"
            (slot +:+ " " +:+ kind +:+ " " +:+ options)
            (set_vbdf_allocator a
               (if Py.str_in "virtio" kind
                   && bool_decide (vm_vm_type (_vm_scenario_etree s) = Some "RTVM")
                then add_plain_dm_parameter virtio_poll_parameter s
                else s))).
Proof.
  intros Hpool. unfold add_virtual_device. cbv zeta.
  fold virtio_poll_parameter.
  set (s1 := if _ && _ then _ else s).
  assert (Ha : _vbdf_allocator s1 = _vbdf_allocator s)
    by (subst s1; by destruct (_ && _)).
  destruct vbdf as [v|].
  - by eexists _, _.
  - rewrite Ha. destruct (_vbdf_allocator s) as [[|n l]]; [by destruct Hpool|].
    by exists (Py.str_of_int n), {| VirtualBDFAllocator._free_slots := l |}.
Qed.

End VirtualDeviceFacts.

(** C10. A call of [add_virtual_device] with a slot given, or with a free
    slot left in the pool, succeeds and adds the device's own parameter if
    absent. For an RTVM and a kind containing [virtio], the parameter
    [--virtio_poll 1000000] is in the list afterwards, exactly once in a list
    that had no repetitions, and before the device's parameter when that one
    is new. In every other case the call leaves the presence of
    [--virtio_poll 1000000] as it was. *)
Theorem virtio_poll_added_for_rtvm
    (kind : string) (vbdf : option vbdf_t) (options : string) (s : LaunchScript) :
  (vbdf = None → VirtualBDFAllocator._free_slots (_vbdf_allocator s) ≠ []) →
  ∃ (s' : LaunchScript) (slot : string),
    let own := dynamic_dm_parameter "add_virtual_device"
                 (slot +:+ " " +:+ kind +:+ " " +:+ options) in
    add_virtual_device kind vbdf options s = Ok s'
    ∧ own ∈ _dm_parameters s'
    ∧ (vm_vm_type (_vm_scenario_etree s) = Some "RTVM" →
       Py.str_in "virtio" kind = true →
         virtio_poll_parameter ∈ _dm_parameters s'
         ∧ (NoDup (_dm_parameters s) →
              occurrences virtio_poll_parameter (_dm_parameters s') = 1%nat)
         ∧ (own ∉ _dm_parameters s →
              ∃ before, _dm_parameters s' = before ++ [own]
                        ∧ virtio_poll_parameter ∈ before))
    ∧ (vm_vm_type (_vm_scenario_etree s) ≠ Some "RTVM"
       ∨ Py.str_in "virtio" kind = false →
         (virtio_poll_parameter ∈ _dm_parameters s'
          ↔ virtio_poll_parameter ∈ _dm_parameters s)).
Proof.
  intros Hpool.
  destruct (VirtualDeviceFacts.add_virtual_device_succeeds kind vbdf options s Hpool)
    as (slot & a & Hcall).
  eexists _, slot. cbv zeta. split; [exact Hcall|].
  pose proof (VirtualDeviceFacts.device_parameter_ne_virtio_poll
                (slot +:+ " " +:+ kind +:+ " " +:+ options)) as Hne.
  unfold add_dynamic_dm_parameter. cbv zeta.
  revert Hne. generalize (dynamic_dm_parameter "add_virtual_device"
                            (slot +:+ " " +:+ kind +:+ " " +:+ options)).
  generalize virtio_poll_parameter. intros poll own Hne.
  cbn [_dm_parameters set_dm_parameters].
  split; [apply BuilderFacts.append_if_absent_elem|].
  destruct (Py.str_in "virtio" kind) eqn:Hkind; cbn [andb].
  - case_bool_decide as Hrt;
      cbn [_dm_parameters set_vbdf_allocator add_plain_dm_parameter set_dm_parameters].
    + split.
      * intros _ _.
        destruct (VirtualDeviceFacts.poll_then_own poll own (_dm_parameters s) Hne)
          as (H1 & _ & H3 & H4).
        split; [exact H1|]. split; [exact H3 | exact H4].
      * intros [Hn|Hk]; [destruct (Hn Hrt) | discriminate Hk].
    + split; [intros Hrt'; destruct (Hrt Hrt')|].
      intros _.
      destruct (BuilderFacts.append_two_if_absent own poll (_dm_parameters s) Hne)
        as (_ & _ & _ & _ & _ & H6). exact H6.
  - cbn [_dm_parameters set_vbdf_allocator].
    split; [intros _ Hk; discriminate Hk|].
    intros _.
    destruct (BuilderFacts.append_two_if_absent own poll (_dm_parameters s) Hne)
      as (_ & _ & _ & _ & _ & H6). exact H6.
Qed.

Lemma virtio_poll_added_for_rtvm_witness :
  let s := LaunchScript_init Examples.board "RT1"
             (Examples.vm "RT1" (Some "RTVM") [] []) in
  ∃ s', add_virtual_device "virtio-blk" None "./disk.img" s = Ok s'
        ∧ virtio_poll_parameter ∈ _dm_parameters s'.
Proof.
  intros s.
  destruct (virtio_poll_added_for_rtvm "virtio-blk" None "./disk.img" s)
    as (s' & slot & Hcall & _ & Hrt & _).
  - intros _. vm_compute. discriminate.
  - exists s'. split; [exact Hcall|].
    apply Hrt; reflexivity.
Defined.

(** ** CPU identity mapper and the [add_cpus] parameter *)

Module CpuFacts.

Lemma log_all_nil w : log_all [] w = w.
Proof. destruct w. unfold log_all. simpl. by rewrite app_nil_r. Qed.

Lemma log_all_app r1 r2 w : log_all r2 (log_all r1 w) = log_all (r1 ++ r2) w.
Proof. unfold log_all. simpl. by rewrite app_assoc. Qed.

(** For a literal text the query compares with the text. *)
Lemma apic_id_query_literal board cpu :
  XPath.literal cpu = true →
  apic_id_query board cpu = Ok (XPath.Text <$> apic_id_text board cpu).
Proof. intros H. unfold apic_id_query. by rewrite H. Qed.

Lemma literal_texts_elem (l : list string) (c : string) :
  literal_texts l → c ∈ l → XPath.literal c = true.
Proof. unfold literal_texts. rewrite Forall_forall. intros H. exact (H c). Qed.

Lemma literal_texts_same (l l' : list string) :
  (∀ c, c ∈ l' → c ∈ l) → literal_texts l → literal_texts l'.
Proof.
  unfold literal_texts. rewrite !Forall_forall. intros Hin H c Hc.
  by apply H, Hin.
Qed.

(** One lookup, by the answer of the board: the id when the answer is an
    item that [int(_, 16)] reads, a warning and [None] when the answer is
    empty, and the exception of the query or of [int] otherwise. *)
Lemma cpu_id_to_lapic_id_run board name cpu w :
  cpu_id_to_lapic_id board name cpu w
  = match apic_id_query board cpu with
    | Ok (Some x) =>
        match XPath.int 16 x with
        | Ok n => Ok (Some n, w)
        | Raise e => Raise e
        end
    | Ok None => Ok (None, log_all [(WARNING, cpu_warning cpu name)] w)
    | Raise e => Raise e
    end.
Proof.
  unfold cpu_id_to_lapic_id, bind, of_result, ret.
  destruct (apic_id_query board cpu) as [[x|]|e]; [|reflexivity..].
  by destruct (XPath.int 16 x).
Qed.

Lemma cpu_id_to_lapic_id_defined board name cpu t n w :
  XPath.literal cpu = true →
  apic_id_text board cpu = Some t → Py.int 16 t = Ok n →
  cpu_id_to_lapic_id board name cpu w = Ok (Some n, w).
Proof.
  intros Hl Ht Hn.
  rewrite cpu_id_to_lapic_id_run, apic_id_query_literal, Ht by done.
  cbn. by rewrite Hn.
Qed.

Lemma cpu_id_to_lapic_id_undefined board name cpu w :
  XPath.literal cpu = true →
  apic_id_text board cpu = None →
  cpu_id_to_lapic_id board name cpu w
  = Ok (None, log_all [(WARNING, cpu_warning cpu name)] w).
Proof.
  intros Hl Ht.
  by rewrite cpu_id_to_lapic_id_run, apic_id_query_literal, Ht.
Qed.

Lemma cpu_id_to_lapic_id_malformed board name cpu t w :
  XPath.literal cpu = true →
  apic_id_text board cpu = Some t → Py.int 16 t = Raise ValueError →
  cpu_id_to_lapic_id board name cpu w = Raise ValueError.
Proof.
  intros Hl Ht Hn.
  rewrite cpu_id_to_lapic_id_run, apic_id_query_literal, Ht by done.
  cbn. by rewrite Hn.
Qed.

(** The lookups of a list that all succeed give the ids and log the
    warnings, in the order of the list. *)
Lemma map_cpu_id_to_lapic_id_inv board name cpus w xs w' :
  map_m (cpu_id_to_lapic_id board name) cpus w = Ok (xs, w') →
  xs = map (apic_of board) cpus
  ∧ w' = log_all (cpu_warnings board name cpus) w.
Proof.
  revert w xs w'. induction cpus as [|c cpus IH]; intros w xs w'.
  - cbn. intros [= <- <-]. by rewrite log_all_nil.
  - cbn [map_m]. unfold bind at 1. rewrite cpu_id_to_lapic_id_run.
    unfold cpu_warnings. cbn [flat_map map]. unfold apic_of at 1.
    destruct (apic_id_query board c) as [[x|]|e]; [| |discriminate].
    + destruct (XPath.int 16 x) as [n|e]; [|discriminate].
      unfold bind. destruct (map_m _ cpus w) as [[ys w1]|e] eqn:E; [|discriminate].
      intros [= <- <-]. destruct (IH _ _ _ E) as [-> ->]. done.
    + unfold bind.
      destruct (map_m _ cpus (log_all _ w)) as [[ys w1]|e] eqn:E; [|discriminate].
      intros [= <- <-]. destruct (IH _ _ _ E) as [-> ->].
      split; [done|]. by rewrite log_all_app.
Qed.

Lemma map_cpu_id_to_lapic_id board name cpus w :
  literal_texts cpus →
  (∀ c t, c ∈ cpus → apic_id_text board c = Some t → ∃ n, Py.int 16 t = Ok n) →
  map_m (cpu_id_to_lapic_id board name) cpus w
  = Ok (map (apic_of board) cpus, log_all (cpu_warnings board name cpus) w).
Proof.
  intros Hlit Hok.
  assert (Hrun : ∃ xs w', map_m (cpu_id_to_lapic_id board name) cpus w = Ok (xs, w')).
  { revert w. induction cpus as [|c cpus IH]; intros w; [by eexists _, _|].
    apply Forall_cons in Hlit as [Hc Hlit].
    cbn [map_m]. unfold bind at 1.
    assert (Hrest : ∀ c' t, c' ∈ cpus → apic_id_text board c' = Some t →
              ∃ n, Py.int 16 t = Ok n)
      by (intros c' t Hc'; apply Hok; by right).
    destruct (apic_id_text board c) as [t|] eqn:Ht.
    - destruct (Hok c t ltac:(by left) Ht) as [n Hn].
      rewrite (cpu_id_to_lapic_id_defined _ _ _ t n) by done.
      unfold bind. destruct (IH Hlit Hrest w) as (xs & w' & ->). by eexists _, _.
    - rewrite cpu_id_to_lapic_id_undefined by done.
      unfold bind. destruct (IH Hlit Hrest (log_all [(WARNING, cpu_warning c name)] w))
        as (xs & w' & ->). by eexists _, _. }
  destruct Hrun as (xs & w' & Hrun). rewrite Hrun.
  by destruct (map_cpu_id_to_lapic_id_inv _ _ _ _ _ _ Hrun) as [-> ->].
Qed.

(** For a literal text, the id and the warning are those of the board's
    text for the CPU. *)
Lemma apic_of_literal board cpu :
  XPath.literal cpu = true →
  apic_of board cpu
  = match apic_id_text board cpu with
    | Some t => match Py.int 16 t with Ok n => Some n | Raise _ => None end
    | None => None
    end.
Proof.
  intros Hl. unfold apic_of. rewrite apic_id_query_literal by done.
  by destruct (apic_id_text board cpu).
Qed.

Lemma omap_id_map {A B} (f : A → option B) (l : list A) :
  omap id (map f l) = omap f l.
Proof.
  induction l as [|x l IH]; [done|].
  cbn. destruct (f x); cbn; [f_equal|]; exact IH.
Qed.

Lemma omap_NoDup {A B} (f : A → option B) (l : list A) :
  NoDup l →
  (∀ x y b, x ∈ l → y ∈ l → f x = Some b → f y = Some b → x = y) →
  NoDup (omap f l).
Proof.
  induction 1 as [|x l Hx Hl IH]; intros Hinj; [constructor|].
  assert (IH' : NoDup (omap f l)).
  { apply IH. intros y z b Hy Hz. apply Hinj; by right. }
  change (omap f (x :: l))
    with (match f x with Some y => y :: omap f l | None => omap f l end).
  destruct (f x) as [b|] eqn:Hfx; [|done].
  apply NoDup_cons. split; [|done].
  intros Hin. apply list_elem_of_omap in Hin as (y & Hy & Hfy).
  assert (x = y) by (eapply Hinj; [by left | by right | done | done]).
  by subst.
Qed.

Lemma omap_length_filter {A B} (f : A → option B) (l : list A) :
  length (omap f l) = length (filter (fun x => is_Some (f x)) l).
Proof.
  induction l as [|x l IH]; [done|].
  change (omap f (x :: l))
    with (match f x with Some y => y :: omap f l | None => omap f l end).
  destruct (f x) as [b|] eqn:Hfx.
  - rewrite filter_cons_True by (rewrite Hfx; by eexists).
    cbn [length]. by rewrite IH.
  - rewrite filter_cons_False by (rewrite Hfx; by intros [? ?]). exact IH.
Qed.

Lemma filter_same_on {A} (P Q : A → Prop)
    `{!∀ x, Decision (P x)} `{!∀ x, Decision (Q x)} (l : list A) :
  (∀ x, x ∈ l → P x ↔ Q x) → filter P l = filter Q l.
Proof.
  induction l as [|x l IH]; intros Hpq; [done|].
  assert (Hl : filter P l = filter Q l)
    by (apply IH; intros y Hy; apply Hpq; by right).
  assert (Hx : P x ↔ Q x) by (apply Hpq; by left).
  destruct (decide (P x)) as [Hp|Hp].
  - rewrite (filter_cons_True P) by done.
    rewrite (filter_cons_True Q) by (by apply Hx). by rewrite Hl.
  - rewrite (filter_cons_False P) by done.
    rewrite (filter_cons_False Q); [done|]. intros Hq. by apply Hp, Hx.
Qed.

Lemma sorted_nil_iff (l : list Z) : Py.sorted l = [] ↔ l = [].
Proof.
  unfold Py.sorted. split; [|by intros ->].
  intros H. apply Permutation_nil_r. rewrite <- H.
  symmetry. apply merge_sort_Permutation.
Qed.

End CpuFacts.

(** C6, as the code has it. When every affinity CPU text is pasted into
    the query as a string literal (it holds no apostrophe) and the APIC id
    text of every affinity CPU the board defines is a base-16 literal, the
    CPU step succeeds, logs one warning for each distinct affinity CPU the
    board does not define, in the order in which the interpreter iterates
    the set, and goes on. The ids it lists are the APIC ids of the affinity
    CPUs the board defines, one entry for each distinct CPU id, in ascending
    order; they are free of repetitions when distinct CPUs have distinct
    APIC ids. The [add_cpus] parameter carries them, and the step adds no
    parameter when there is none. *)
Theorem add_cpus_lists_sorted_apic_ids
    (py : interpreter) (board : board_etree) (vm : vm_etree)
    (s : LaunchScript) (w : world) :
  let cpus := set_order py (vm_pcpu_ids vm) in
  let ids := Py.sorted (omap (apic_of board) cpus) in
  literal_texts (vm_pcpu_ids vm) →
  (∀ c t, c ∈ vm_pcpu_ids vm → apic_id_text board c = Some t →
          ∃ n, Py.int 16 t = Ok n) →
  cpu_resources py board vm (s, w)
  = Ok (tt,
        (if bool_decide (ids = []) then s
         else add_dynamic_dm_parameter "add_cpus"
                (Py.join " " (map Py.str_of_int ids)) s,
         log_all (cpu_warnings board (the_vm_name vm) cpus) w))
  ∧ Sorted Z.le ids
  ∧ (∀ n, n ∈ ids ↔ ∃ c t, c ∈ vm_pcpu_ids vm ∧ apic_id_text board c = Some t
                          ∧ Py.int 16 t = Ok n)
  ∧ NoDup cpus
  ∧ (∀ c, c ∈ cpus ↔ c ∈ vm_pcpu_ids vm)
  ∧ length ids = length (filter (fun c => is_Some (apic_id_text board c)) cpus)
  ∧ ((∀ c1 c2 t1 t2 n, c1 ∈ vm_pcpu_ids vm → c2 ∈ vm_pcpu_ids vm →
        apic_id_text board c1 = Some t1 → apic_id_text board c2 = Some t2 →
        Py.int 16 t1 = Ok n → Py.int 16 t2 = Ok n → c1 = c2) →
     NoDup ids)
  ∧ (∀ r, r ∈ cpu_warnings board (the_vm_name vm) cpus
          ↔ ∃ c, c ∈ vm_pcpu_ids vm ∧ apic_id_text board c = None
                 ∧ r = (WARNING, cpu_warning c (the_vm_name vm))).
Proof.
  intros cpus ids Hlit Hok.
  assert (Hcpus : ∀ c, c ∈ cpus ↔ c ∈ vm_pcpu_ids vm)
    by (intros c; apply set_order_elem).
  assert (Hnd : NoDup cpus) by apply set_order_NoDup.
  assert (Hlit' : literal_texts cpus).
  { apply (CpuFacts.literal_texts_same (vm_pcpu_ids vm)); [|exact Hlit].
    intros c. apply Hcpus. }
  assert (Hperm : ids ≡ₚ omap (apic_of board) cpus)
    by apply merge_sort_Permutation.
  assert (Hapic : ∀ c n, c ∈ cpus →
            apic_of board c = Some n
            ↔ ∃ t, apic_id_text board c = Some t ∧ Py.int 16 t = Ok n).
  { intros c n Hc.
    rewrite CpuFacts.apic_of_literal
      by (by apply (CpuFacts.literal_texts_elem cpus)).
    destruct (apic_id_text board c) as [t|] eqn:Ht.
    - destruct (Hok c t ltac:(by apply Hcpus) Ht) as [m Hm]. rewrite Hm.
      split.
      + intros [= ->]. by exists t.
      + intros (t' & [= <-] & Hn). congruence.
    - split; [discriminate|]. by intros (t' & [=] & _). }
  assert (Hsome : ∀ c, c ∈ cpus →
            is_Some (apic_of board c) ↔ is_Some (apic_id_text board c)).
  { intros c Hc. split.
    - intros [n Hn]. apply (Hapic c n Hc) in Hn as (t & -> & _). by eexists.
    - intros [t Ht]. destruct (Hok c t ltac:(by apply Hcpus) Ht) as [n Hn].
      exists n. apply (Hapic c n Hc). by exists t. }
  split.
  { unfold cpu_resources, bind, in_world, lapic_ids_of, when. cbn [fst snd].
    fold cpus. unfold bind.
    rewrite CpuFacts.map_cpu_id_to_lapic_id;
      [|exact Hlit'|intros c t Hc Ht; apply (Hok c t); [by apply Hcpus | exact Ht]].
    unfold ret. rewrite CpuFacts.omap_id_map.
    unfold add_cpus_text. fold ids.
    destruct (decide (omap (apic_of board) cpus = [])) as [He|Hne].
    - rewrite He. rewrite (bool_decide_eq_true_2 (ids = [])); [done|].
      by apply CpuFacts.sorted_nil_iff.
    - rewrite (bool_decide_eq_false_2 (omap _ _ = [])) by done.
      rewrite (bool_decide_eq_false_2 (ids = [])); [done|].
      intros H. apply Hne, CpuFacts.sorted_nil_iff. exact H. }
  split; [apply Sorted_merge_sort, _|].
  split.
  { intros n. rewrite Hperm, list_elem_of_omap. split.
    - intros (c & Hc & Hn). apply (Hapic c n Hc) in Hn as (t & Ht & Hn).
      exists c, t. split; [by apply Hcpus | done].
    - intros (c & t & Hc & Ht & Hn). exists c. apply Hcpus in Hc.
      split; [exact Hc|]. apply (Hapic c n Hc). by exists t. }
  split; [exact Hnd|]. split; [exact Hcpus|].
  split.
  { rewrite Hperm, CpuFacts.omap_length_filter. f_equal.
    apply CpuFacts.filter_same_on. intros c Hc. by apply Hsome. }
  split.
  { intros Hinj. rewrite Hperm. apply CpuFacts.omap_NoDup; [exact Hnd|].
    intros x y b Hx Hy Hbx Hby.
    apply (Hapic x b Hx) in Hbx as (t1 & Ht1 & Hn1).
    apply (Hapic y b Hy) in Hby as (t2 & Ht2 & Hn2).
    apply (Hinj x y t1 t2 b); try done; by apply Hcpus. }
  intros r. unfold cpu_warnings. rewrite list_elem_of_In, in_flat_map.
  split.
  - intros (c & Hc & Hr). apply list_elem_of_In in Hc.
    rewrite CpuFacts.apic_id_query_literal in Hr
      by (by apply (CpuFacts.literal_texts_elem cpus)).
    destruct (apic_id_text board c) eqn:Ht; [destruct Hr|].
    destruct Hr as [<-|[]]. exists c. split; [by apply Hcpus | done].
  - intros (c & Hc & Ht & ->). exists c. apply Hcpus in Hc.
    split; [by apply list_elem_of_In|].
    rewrite CpuFacts.apic_id_query_literal
      by (by apply (CpuFacts.literal_texts_elem cpus)).
    rewrite Ht. by left.
Qed.

Lemma add_cpus_lists_sorted_apic_ids_witness :
  let vm := Examples.vm "VM1" None ["1"; "3"] [] in
  let s := LaunchScript_init Examples.board "VM1" vm in
  ∃ ids, cpu_resources Examples.py Examples.board vm (s, Examples.nothing_yet)
         = Ok (tt, (add_dynamic_dm_parameter "add_cpus"
                      (Py.join " " (map Py.str_of_int ids)) s,
                    Examples.nothing_yet))
         ∧ ids = [2; 6].
Proof.
  intros vm s.
  destruct (add_cpus_lists_sorted_apic_ids Examples.py Examples.board vm s
              Examples.nothing_yet)
    as (Hrun & _).
  - apply (bool_decide_unpack _). vm_compute. exact I.
  - intros c t Hc Ht. cbn [vm Examples.vm vm_pcpu_ids] in Hc.
    apply elem_of_cons in Hc as [->|Hc];
      [|apply elem_of_cons in Hc as [->|Hc]; [|by apply elem_of_nil in Hc]];
      vm_compute in Ht; injection Ht as <-; eexists; vm_compute; reflexivity.
  - eexists. split; [|reflexivity]. rewrite Hrun. vm_compute. reflexivity.
Defined.

(** The claim as written fails on a board whose CPUs 0 and 1 carry the same
    APIC id: the parameter lists that id twice. *)
Lemma add_cpus_repeats_a_shared_apic_id :
  let vm := Examples.vm "VM1" None ["0"; "1"] [] in
  let scenario := Examples.scenario [vm] in
  ∃ s w, generate_for_one_vm Examples.py Examples.board_shared_apic_id scenario
           (scenario_hv scenario) vm 1 Examples.nothing_yet = Ok (s, w)
         ∧ _dm_parameters s !! 0%nat = Some (dynamic_dm_parameter "add_cpus" "1 1").
Proof.
  intros vm scenario.
  destruct (generate_for_one_vm Examples.py Examples.board_shared_apic_id scenario
              (scenario_hv scenario) vm 1 Examples.nothing_yet)
    as [[s w]|e] eqn:E; vm_compute in E; [|discriminate E].
  exists s, w. split; [reflexivity|]. injection E as <- _. vm_compute. reflexivity.
Qed.

(** ** Passthrough entries *)

(** C5. An entry with another character in the place of the dot is taken
    for a bus:device.function text: [00:1fx0] gives the passthrough
    parameter of device 00:1f.0. *)
Theorem passthrough_entry_without_dot_is_emitted :
  let vm := Examples.vm "VM1" None [] ["00:1fx0"] in
  let scenario := Examples.scenario [vm] in
  bdf_regex_match "00:1fx0" = Some ("00", "1f", "0")
  ∧ ∃ s w, generate_for_one_vm Examples.py Examples.board scenario
             (scenario_hv scenario) vm 1 Examples.nothing_yet = Ok (s, w)
           ∧ dynamic_dm_parameter "add_passthrough_device" "3 0000:00:1f.0"
             ∈ _dm_parameters s.
Proof.
  intros vm scenario. split; [reflexivity|].
  destruct (generate_for_one_vm Examples.py Examples.board scenario
              (scenario_hv scenario) vm 1 Examples.nothing_yet)
    as [[s w]|e] eqn:E; vm_compute in E; [|discriminate E].
  exists s, w. split; [reflexivity|]. injection E as <- _.
  apply (bool_decide_unpack _). vm_compute. exact I.
Qed.

(** ** The VM name at the end of the parameter list *)

(** C8. For an RTVM whose name is [--rtvm], the parameter list ends with the
    logger settings: the name is already in the list as the real-time flag
    and is not added again. *)
Theorem vm_name_equal_to_a_flag_is_not_last :
  let vm := Examples.vm "--rtvm" (Some "RTVM") [] [] in
  let scenario := Examples.scenario [vm] in
  ∃ s w, generate_for_one_vm Examples.py Examples.board scenario
           (scenario_hv scenario) vm 1 Examples.nothing_yet = Ok (s, w)
         ∧ _vm_name s = "--rtvm"
         ∧ last (_dm_parameters s)
           = Some (dynamic_dm_parameter "add_logger_settings" "console=4 kmsg=3 disk=5")
         ∧ last (_dm_parameters s) ≠ Some (_vm_name s).
Proof.
  intros vm scenario.
  destruct (generate_for_one_vm Examples.py Examples.board scenario
              (scenario_hv scenario) vm 1 Examples.nothing_yet)
    as [[s w]|e] eqn:E; vm_compute in E; [|discriminate E].
  exists s, w. split; [reflexivity|]. injection E as <- _.
  split; [reflexivity|]. split; [vm_compute; reflexivity|].
  vm_compute. discriminate.
Qed.

(** ** Exit status of [main] *)

Module MainFacts.

Lemma filter_none {A} (P : A → Prop) `{!∀ x, Decision (P x)} (l : list A) :
  (∀ x, x ∈ l → ¬ P x) → filter P l = [].
Proof.
  induction l as [|x l IH]; intros Hno; [done|].
  rewrite filter_cons_False by (apply Hno; by left).
  apply IH. intros y Hy. apply Hno. by right.
Qed.

End MainFacts.

(** C9. On a scenario with neither a service VM nor a post-launched VM,
    [main] does not return: [int(service_vm_id)] is applied to [None] and
    raises [TypeError]. *)
Theorem main_raises_without_service_and_post_vms
    (py : interpreter) (fs : filesystem) (board : board_etree)
    (scenario : scenario_etree)
    (user_vm_id : Z) (out_dir : string) (w : world) :
  (∀ vm, vm ∈ scenario_vms scenario →
         ("SERVICE_VM" ∉ vm_load_order vm)
         ∧ ("POST_LAUNCHED_VM" ∉ vm_load_order vm)) →
  main py fs board scenario user_vm_id out_dir w = Raise TypeError.
Proof.
  intros H. unfold main.
  assert (Hs : service_vms scenario = []).
  { apply MainFacts.filter_none. intros vm Hvm. by apply H. }
  assert (Hp : post_vms scenario = []).
  { apply MainFacts.filter_none. intros vm Hvm. by apply H. }
  rewrite Hs, Hp. reflexivity.
Qed.

Lemma main_raises_without_service_and_post_vms_witness :
  let pre := {| vm_id := Some "0"; vm_load_order := ["PRE_LAUNCHED_VM"];
                vm_name_text := Some "PRE_RT_VM0";
                vm_os_type := None; vm_os_type_is_windows := false;
                vm_PTM_is_y := false; vm_vm_type := Some "RTVM";
                vm_pcpu_ids := ["2"; "3"]; vm_own_pcpu_ids := ["2"; "3"];
                vm_memory_size := Some "1024"; vm_vbootloader := None;
                vm_vuart0 := None; vm_console_vuart := None;
                vm_lapic_passthrough := None; vm_usb_xhci := [];
                vm_virtio_input := []; vm_virtio_console := [];
                vm_virtio_network := []; vm_virtio_block := [];
                vm_virtio_gpu := []; vm_vsock := []; vm_pci_devs := [] |} in
  main Examples.py Examples.fs Examples.board (Examples.scenario [pre]) 0 "out"
    Examples.nothing_yet = Raise TypeError.
Proof.
  intros pre.
  apply (main_raises_without_service_and_post_vms Examples.py Examples.fs
           Examples.board
           (Examples.scenario [pre]) 0 "out" Examples.nothing_yet).
  intros vm Hvm. cbn [Examples.scenario scenario_vms] in Hvm.
  apply list_elem_of_singleton in Hvm as ->. subst pre. cbn [vm_load_order].
  split; intros Hin; apply list_elem_of_singleton in Hin; discriminate Hin.
Defined.

(** ** More on the slot allocator *)

Module AllocatorOrder.
Import VirtualBDFAllocator.

Lemma sublist_StronglySorted (l k : list Z) :
  l `sublist_of` k → StronglySorted Z.lt k → StronglySorted Z.lt l.
Proof.
  induction 1 as [|x l k Hlk IH|x l k Hlk IH]; intros Hk; [constructor| |].
  - apply StronglySorted_inv in Hk as [Hk Hx]. constructor; [by apply IH|].
    rewrite Forall_forall in *. intros y Hy. apply Hx.
    by eapply elem_of_sublist.
  - apply StronglySorted_inv in Hk as [Hk _]. by apply IH.
Qed.

Lemma StronglySorted_lt_NoDup (l : list Z) : StronglySorted Z.lt l → NoDup l.
Proof.
  induction 1 as [|x l Hl IH Hx]; constructor; [|done].
  intros Hin. rewrite Forall_forall in Hx. specialize (Hx x Hin). lia.
Qed.

Lemma fresh_pool_ascending : StronglySorted Z.lt (_free_slots init).
Proof. apply (bool_decide_unpack _). vm_compute. exact I. Qed.

Lemma step_drawn_is_least c a s :
  StronglySorted Z.lt (_free_slots a) → (step c a).1 = Drawn s →
  ∀ x, x ∈ _free_slots (step c a).2 → s < x.
Proof.
  intros Hs. destruct c as [d o|x]; unfold step; [|done].
  destruct (gpu_shortcut d o) eqn:Hg.
  - by rewrite AllocatorFacts.get_virtual_bdf_shortcut.
  - rewrite AllocatorFacts.get_virtual_bdf_draw by done. unfold pop0.
    destruct a as [[|y l]]; simpl in *; [done|].
    intros [= ->]. apply StronglySorted_inv in Hs as [_ Hy].
    by rewrite Forall_forall in Hy.
Qed.

Lemma draws_ascending cs a :
  StronglySorted Z.lt (_free_slots a) → StronglySorted Z.lt (draws (run cs a).1).
Proof.
  revert a. induction cs as [|c cs IH]; intros a Hs; [constructor|].
  rewrite AllocatorFacts.run_cons. simpl.
  assert (Hs' : StronglySorted Z.lt (_free_slots (step c a).2))
    by (eapply sublist_StronglySorted; [apply AllocatorFacts.step_shrinks | done]).
  destruct ((step c a).1) eqn:E; try by apply IH.
  constructor; [by apply IH|].
  rewrite Forall_forall. intros x Hx.
  apply (step_drawn_is_least c a); [done..|].
  eapply AllocatorFacts.draws_from_pool; [|exact Hx].
  by apply StronglySorted_lt_NoDup.
Qed.

(** Draws and what is left in the pool never outnumber the pool. *)
Lemma draws_bounded cs a :
  (length (draws (run cs a).1) + length (_free_slots (run cs a).2)
   ≤ length (_free_slots a))%nat.
Proof.
  revert a. induction cs as [|c cs IH]; intros a; [simpl; lia|].
  rewrite AllocatorFacts.run_cons. cbn [fst snd].
  specialize (IH (step c a).2).
  assert (Hstep : (length (draws [(step c a).1]) + length (_free_slots (step c a).2)
                   ≤ length (_free_slots a))%nat).
  { destruct c as [d o|x]; unfold step.
    - destruct (gpu_shortcut d o) eqn:Hg.
      + rewrite AllocatorFacts.get_virtual_bdf_shortcut by done. simpl. lia.
      + rewrite AllocatorFacts.get_virtual_bdf_draw by done. unfold pop0.
        destruct a as [[|y l]]; simpl; lia.
    - cbn [fst snd draws length Nat.add].
      apply sublist_length, AllocatorFacts.remove_virtual_bdf_sublist. }
  destruct ((step c a).1); simpl in *; lia.
Qed.

Lemma run_allocations (n : nat) (l : list Z) :
  run (replicate n (Allocate None None)) {| _free_slots := l |}
  = (map Drawn (take n l) ++ replicate (n - length l) Exhausted,
     {| _free_slots := drop n l |}).
Proof.
  revert l. induction n as [|n IH]; intros l; [by rewrite drop_0|].
  cbn [replicate]. rewrite AllocatorFacts.run_cons.
  destruct l as [|x l].
  - cbn [step get_virtual_bdf gpu_shortcut pop0 _free_slots fst snd
         Py.truthy orb andb].
    rewrite IH. simpl. by rewrite take_nil, drop_nil, Nat.sub_0_r.
  - cbn [step get_virtual_bdf gpu_shortcut pop0 _free_slots fst snd
         Py.truthy orb andb].
    rewrite IH. reflexivity.
Qed.

Lemma draws_map_Drawn (l : list Z) (k : nat) :
  draws (map Drawn l ++ replicate k Exhausted) = l.
Proof.
  induction l as [|x l IH]; simpl; [|by rewrite IH].
  induction k as [|k IHk]; simpl; done.
Qed.

Lemma filter_all {A} (P : A → Prop) `{!∀ x, Decision (P x)} (l : list A) :
  (∀ x, x ∈ l → P x) → filter P l = l.
Proof.
  induction l as [|x l IH]; intros Hall; [done|].
  rewrite filter_cons_True by (apply Hall; by left).
  f_equal. apply IH. intros y Hy. apply Hall. by right.
Qed.

Lemma list_remove_filter (n : Z) (l : list Z) :
  NoDup l → Py.list_remove n l = filter (fun x => x ≠ n) l.
Proof.
  induction 1 as [|y l Hy Hl IH]; simpl; [done|].
  destruct (decide (n = y)) as [->|Hne].
  - rewrite filter_cons_False by (intros Hn; by apply Hn).
    symmetry. apply filter_all. intros x Hx ->. done.
  - rewrite filter_cons_True by (intros ->; by apply Hne). by rewrite IH.
Qed.

Lemma remove_virtual_bdf_filter (n : Z) (a : t) :
  NoDup (_free_slots a) →
  _free_slots (remove_virtual_bdf (VInt n) a) = filter (fun x => x ≠ n) (_free_slots a).
Proof.
  intros Hnd. unfold remove_virtual_bdf. case_bool_decide as Hin; simpl.
  - by apply list_remove_filter.
  - symmetry. apply filter_all. intros x Hx ->. done.
Qed.

End AllocatorOrder.

(** X1. On a fresh allocator the slots given by pool draws come in strictly
    ascending order, whatever calls are made in between. *)
Theorem allocator_draws_ascend (cs : list VirtualBDFAllocator.call) :
  StronglySorted Z.lt
    (VirtualBDFAllocator.draws
       (VirtualBDFAllocator.run cs VirtualBDFAllocator.init).1).
Proof. apply AllocatorOrder.draws_ascending, AllocatorOrder.fresh_pool_ascending. Qed.

(** X2. A fresh allocator serves at most 27 pool draws over any call
    sequence; [n] allocations in a row give the first [n] of the slots
    3, 4, ..., 29 and fail from the 28th on. *)
Theorem allocator_capacity (cs : list VirtualBDFAllocator.call) (n : nat) :
  (length (VirtualBDFAllocator.draws
             (VirtualBDFAllocator.run cs VirtualBDFAllocator.init).1) ≤ 27)%nat
  ∧ VirtualBDFAllocator.run
      (replicate n (VirtualBDFAllocator.Allocate None None))
      VirtualBDFAllocator.init
    = (map VirtualBDFAllocator.Drawn (take n (Py.range 3 30))
       ++ replicate (n - 27) VirtualBDFAllocator.Exhausted,
       {| VirtualBDFAllocator._free_slots := drop n (Py.range 3 30) |}).
Proof.
  split.
  - pose proof (AllocatorOrder.draws_bounded cs VirtualBDFAllocator.init) as H.
    change (length (VirtualBDFAllocator._free_slots VirtualBDFAllocator.init))
      with 27%nat in H. lia.
  - apply (AllocatorOrder.run_allocations n (Py.range 3 30)).
Qed.

(** X3. On a pool without repetitions, [remove_virtual_bdf] with an integer
    leaves the other slots in place and only drops that one, so releasing
    twice is releasing once; with a string, or with a slot that is not in
    the pool, it changes nothing. *)
Theorem remove_virtual_bdf_drops_one_slot
    (n : Z) (t : string) (a : VirtualBDFAllocator.t) :
  NoDup (VirtualBDFAllocator._free_slots a) →
  VirtualBDFAllocator._free_slots
    (VirtualBDFAllocator.remove_virtual_bdf (VInt n) a)
  = filter (fun x => x ≠ n) (VirtualBDFAllocator._free_slots a)
  ∧ VirtualBDFAllocator.remove_virtual_bdf (VInt n)
      (VirtualBDFAllocator.remove_virtual_bdf (VInt n) a)
    = VirtualBDFAllocator.remove_virtual_bdf (VInt n) a
  ∧ (n ∉ VirtualBDFAllocator._free_slots a →
     VirtualBDFAllocator.remove_virtual_bdf (VInt n) a = a)
  ∧ VirtualBDFAllocator.remove_virtual_bdf (VStr t) a = a.
Proof.
  intros Hnd.
  assert (Hgone := AllocatorFacts.remove_virtual_bdf_gone n a Hnd).
  assert (Habsent : ∀ b, n ∉ VirtualBDFAllocator._free_slots b →
            VirtualBDFAllocator.remove_virtual_bdf (VInt n) b = b).
  { intros b Hb. unfold VirtualBDFAllocator.remove_virtual_bdf.
    by rewrite bool_decide_eq_false_2. }
  split; [|split; [by apply Habsent | split; [exact (Habsent a) | reflexivity]]].
  by apply AllocatorOrder.remove_virtual_bdf_filter.
Qed.

Lemma remove_virtual_bdf_drops_one_slot_witness :
  VirtualBDFAllocator._free_slots
    (VirtualBDFAllocator.remove_virtual_bdf (VInt 8) VirtualBDFAllocator.init)
  = filter (fun x => x ≠ 8) (VirtualBDFAllocator._free_slots VirtualBDFAllocator.init).
Proof.
  apply (remove_virtual_bdf_drops_one_slot 8 EmptyString VirtualBDFAllocator.init).
  apply AllocatorFacts.fresh_pool_NoDup.
Defined.

(** ** Texts of slots and of bus:device.function addresses *)

Module TextFacts.

Lemma all_ascii_complete (c : ascii) : c ∈ all_ascii.
Proof.
  unfold all_ascii. apply list_elem_of_fmap. exists (nat_of_ascii c).
  split; [by rewrite ascii_nat_embedding|].
  apply elem_of_seq. pose proof (nat_ascii_bounded c). lia.
Qed.

Lemma for_all_ascii (P : ascii → bool) :
  forallb P all_ascii = true → ∀ c, P c = true.
Proof.
  intros H c. rewrite forallb_forall in H. apply H.
  apply list_elem_of_In, all_ascii_complete.
Qed.

Lemma for_all_range (P : Z → bool) (a b : Z) :
  forallb P (Py.range a b) = true → ∀ n, a ≤ n < b → P n = true.
Proof.
  intros H n Hn. rewrite forallb_forall in H. apply H.
  apply list_elem_of_In, AllocatorFacts.elem_of_range, Hn.
Qed.

Lemma append_nil (b : string) : EmptyString +:+ b = b.
Proof. reflexivity. Qed.

Lemma append_cons (c : ascii) (a b : string) :
  String c a +:+ b = String c (a +:+ b).
Proof. reflexivity. Qed.

Lemma append_nil_r (a : string) : a +:+ EmptyString = a.
Proof. induction a as [|c a IH]; [done|]. by rewrite append_cons, IH. Qed.

(** Splitting at the first separator, when the text starts with a part
    that has none. *)
Lemma split_once_app (sep : ascii) (a b : string) :
  has_char sep a = false →
  Py.split_once sep (a +:+ b)
  = (a +:+ (Py.split_once sep b).1, (Py.split_once sep b).2).
Proof.
  induction a as [|c a IH]; intros Ha.
  - rewrite !append_nil. by destruct (Py.split_once sep b).
  - cbn [has_char] in Ha. apply orb_false_iff in Ha as [Hc Ha].
    apply bool_decide_eq_false in Hc.
    rewrite !append_cons. cbn [Py.split_once]. rewrite decide_False by done.
    rewrite IH by done. reflexivity.
Qed.

Lemma split_once_sep (sep : ascii) (a b : string) :
  has_char sep a = false →
  Py.split_once sep (a +:+ String sep b) = (a, Some b).
Proof.
  intros Ha. rewrite split_once_app by done.
  cbn [Py.split_once]. rewrite decide_True by done. cbn [fst snd].
  by rewrite append_nil_r.
Qed.

(** Two lowercase hex digits are read as a number below 256 that
    [f"{n:02x}"] writes back as the same two digits. *)
Lemma hex2_round_trip (c1 c2 : ascii) :
  is_0_9a_f c1 = true → is_0_9a_f c2 = true →
  ∃ n, Py.int 16 (String c1 (String c2 EmptyString)) = Ok n
       ∧ 0 ≤ n < 256
       ∧ (is_0_1 c1 = true → n < 32)
       ∧ Py.fmt_02x n = String c1 (String c2 EmptyString).
Proof.
  intros H1 H2.
  pose (check := fun c1 c2 : ascii =>
    implb (is_0_9a_f c1 && is_0_9a_f c2)
      match Py.int 16 (String c1 (String c2 EmptyString)) with
      | Ok n => (0 <=? n) && (n <? 256) && implb (is_0_1 c1) (n <? 32)
                && bool_decide (Py.fmt_02x n = String c1 (String c2 EmptyString))
      | Raise _ => false
      end).
  assert (Hall : forallb (fun c1 => forallb (check c1) all_ascii) all_ascii = true)
    by (vm_compute; reflexivity).
  pose proof (for_all_ascii _ (for_all_ascii _ Hall c1) c2) as Hc.
  unfold check in Hc. rewrite H1, H2 in Hc. cbn [andb implb] in Hc.
  destruct (Py.int 16 _) as [n|e]; [|discriminate Hc].
  exists n. split; [reflexivity|].
  apply andb_true_iff in Hc as [Hc Hfmt]. apply andb_true_iff in Hc as [Hc H32].
  apply andb_true_iff in Hc as [Hlo Hhi].
  apply bool_decide_eq_true in Hfmt.
  split; [lia|]. split; [|exact Hfmt].
  intros H01. rewrite H01 in H32. cbn [implb] in H32. lia.
Qed.

(** One octal digit is read as a number below 8 that [f"{n}"] writes back. *)
Lemma oct1_round_trip (c : ascii) :
  is_0_7 c = true →
  ∃ n, Py.int 16 (String c EmptyString) = Ok n ∧ 0 ≤ n < 8
       ∧ Py.str_of_int n = String c EmptyString.
Proof.
  intros H.
  pose (check := fun c : ascii =>
    implb (is_0_7 c)
      match Py.int 16 (String c EmptyString) with
      | Ok n => (0 <=? n) && (n <? 8)
                && bool_decide (Py.str_of_int n = String c EmptyString)
      | Raise _ => false
      end).
  assert (Hall : forallb check all_ascii = true) by (vm_compute; reflexivity).
  pose proof (for_all_ascii _ Hall c) as Hc.
  unfold check in Hc. rewrite H in Hc. cbn [implb] in Hc.
  destruct (Py.int 16 _) as [n|e]; [|discriminate Hc].
  exists n. split; [reflexivity|].
  apply andb_true_iff in Hc as [Hc Hfmt]. apply andb_true_iff in Hc as [Hlo Hhi].
  apply bool_decide_eq_true in Hfmt. split; [lia | exact Hfmt].
Qed.

(** What [f"{n:02x}"] writes for a number below 256 has no colon and no
    dot, and [int(_, 16)] reads it back. *)
Lemma fmt_02x_round_trip (n : Z) :
  0 ≤ n < 256 →
  has_char ":" (Py.fmt_02x n) = false ∧ has_char "." (Py.fmt_02x n) = false
  ∧ Py.int 16 (Py.fmt_02x n) = Ok n.
Proof.
  intros Hn.
  pose (check := fun n : Z =>
    negb (has_char ":" (Py.fmt_02x n)) && negb (has_char "." (Py.fmt_02x n))
    && bool_decide (Py.int 16 (Py.fmt_02x n) = Ok n)).
  assert (Hall : forallb check (Py.range 0 256) = true) by (vm_compute; reflexivity).
  pose proof (for_all_range _ _ _ Hall n Hn) as Hc. unfold check in Hc.
  apply andb_true_iff in Hc as [Hc Hint]. apply andb_true_iff in Hc as [H1 H2].
  apply negb_true_iff in H1, H2. apply bool_decide_eq_true in Hint.
  split; [exact H1|]. split; [exact H2 | exact Hint].
Qed.

End TextFacts.

(** X4. [get_slot_by_vbdf] reads the device number back from a vBDF text
    written as two hex digits of the bus, a colon, two hex digits of the
    device, a dot and anything after it. It gives [None] for [None] and
    raises [IndexError] for a text without a colon. *)
Theorem get_slot_by_vbdf_reads_device_number (bus dev : Z) (rest t : string) :
  0 ≤ bus < 256 → 0 ≤ dev < 256 →
  get_slot_by_vbdf
    (Some (XPath.Text
             (Py.fmt_02x bus +:+ ":" +:+ Py.fmt_02x dev +:+ "." +:+ rest)))
  = Ok (Some dev)
  ∧ get_slot_by_vbdf None = Ok None
  ∧ (has_char ":" t = false →
     get_slot_by_vbdf (Some (XPath.Text t)) = Raise IndexError).
Proof.
  intros Hbus Hdev.
  destruct (TextFacts.fmt_02x_round_trip bus Hbus) as (Hb1 & _ & _).
  destruct (TextFacts.fmt_02x_round_trip dev Hdev) as (Hd1 & Hd2 & Hdint).
  split; [|split; [reflexivity|]].
  - unfold get_slot_by_vbdf.
    change (Py.fmt_02x bus +:+ ":" +:+ Py.fmt_02x dev +:+ "." +:+ rest)
      with (Py.fmt_02x bus
            +:+ String ":" (Py.fmt_02x dev +:+ String "." rest)).
    rewrite TextFacts.split_once_sep by done. cbn [snd].
    unfold Py.first_field at 2. rewrite TextFacts.split_once_app by done.
    cbn [fst]. cbn [Py.split_once].
    rewrite decide_False by discriminate.
    destruct (Py.split_once ":" rest) as [r1 r2]. cbn [fst].
    unfold Py.first_field. rewrite TextFacts.split_once_sep by done.
    cbn [fst]. by rewrite Hdint.
  - intros Ht. unfold get_slot_by_vbdf.
    assert (Hsplit : ∀ s, has_char ":" s = false → (Py.split_once ":" s).2 = None).
    { induction s as [|c s IH]; [done|]. cbn [has_char]. intros Hs.
      apply orb_false_iff in Hs as [Hc Hs]. apply bool_decide_eq_false in Hc.
      cbn [Py.split_once]. rewrite decide_False by done.
      specialize (IH Hs). by destruct (Py.split_once ":" s). }
    by rewrite Hsplit.
Qed.

Lemma get_slot_by_vbdf_reads_device_number_witness :
  get_slot_by_vbdf (Some (XPath.Text "00:08.0")) = Ok (Some 8).
Proof.
  assert (H := get_slot_by_vbdf_reads_device_number 0 8 "0" EmptyString
                 ltac:(lia) ltac:(lia)).
  destruct H as [H _]. exact H.
Defined.

(** X5. A passthrough entry the pattern accepts is always turned into a
    call of [add_passthru_device]: its digit groups are read without error
    as a bus below 256, a device below 32 and a function below 8, and the
    parameter text writes the same digits back. *)
Theorem passthru_entry_reads_address (t g1 g2 g3 : string) :
  bdf_regex_match t = Some (g1, g2, g3) →
  ∃ bus dev fn,
    (0 ≤ bus < 256 ∧ 0 ≤ dev < 32 ∧ 0 ≤ fn < 8)
    ∧ (∃ sep rest, t = g1 +:+ ":" +:+ g2 +:+ String sep (g3 +:+ rest))
    ∧ (∀ vbdf options,
         passthru_text vbdf bus dev fn options
         = Py.str_of_int vbdf +:+ " 0000:" +:+ g1 +:+ ":" +:+ g2 +:+ "." +:+ g3
           +:+ " " +:+ options)
    ∧ ∀ sw, passthru_entry t sw
            = attempt (add_passthru_device bus dev fn EmptyString) sw.
Proof.
  unfold bdf_regex_match.
  destruct t as [|b1 [|b2 [|colon [|d1 [|d2 [|sep [|f rest]]]]]]]; try discriminate.
  destruct (is_0_9a_f b1) eqn:Hb1; [|discriminate].
  destruct (is_0_9a_f b2) eqn:Hb2; [|discriminate].
  case_bool_decide as Hcolon; [|discriminate]. subst colon.
  destruct (is_0_1 d1) eqn:Hd1; [|discriminate].
  destruct (is_0_9a_f d2) eqn:Hd2; [|discriminate].
  destruct (is_dot sep) eqn:Hsep; [|discriminate].
  destruct (is_0_7 f) eqn:Hf; [|discriminate].
  cbn [andb]. intros [= <- <- <-].
  assert (Hd1' : is_0_9a_f d1 = true).
  { assert (Hall : forallb (fun c => implb (is_0_1 c) (is_0_9a_f c)) all_ascii = true)
      by (vm_compute; reflexivity).
    pose proof (TextFacts.for_all_ascii _ Hall d1) as Hc.
    cbn beta in Hc. rewrite Hd1 in Hc. exact Hc. }
  destruct (TextFacts.hex2_round_trip b1 b2 Hb1 Hb2) as (bus & Hbus & Hbr & _ & Hbf).
  destruct (TextFacts.hex2_round_trip d1 d2 Hd1' Hd2) as (dev & Hdev & Hdr & Hd32 & Hdf).
  destruct (TextFacts.oct1_round_trip f Hf) as (fn & Hfn & Hfr & Hff).
  exists bus, dev, fn.
  split; [specialize (Hd32 Hd1); lia|].
  split; [by exists sep, rest|].
  split.
  - intros vbdf options. unfold passthru_text. by rewrite Hbf, Hdf, Hff.
  - intros sw. unfold passthru_entry, bdf_regex_match.
    rewrite Hb1, Hb2, Hd1, Hd2, Hsep, Hf. rewrite bool_decide_eq_true_2 by done.
    cbn [andb]. unfold bind, of_result. by rewrite Hbus, Hdev, Hfn.
Qed.

Lemma passthru_entry_reads_address_witness :
  ∃ bus dev fn,
    (0 ≤ bus < 256 ∧ 0 ≤ dev < 32 ∧ 0 ≤ fn < 8)
    ∧ ∀ sw, passthru_entry "00:1f.3 Audio device" sw
            = attempt (add_passthru_device bus dev fn EmptyString) sw.
Proof.
  destruct (passthru_entry_reads_address "00:1f.3 Audio device" "00" "1f" "3")
    as (bus & dev & fn & Hr & _ & _ & Hcall); [reflexivity|].
  by exists bus, dev, fn.
Defined.

(** X6. Entries the pattern rejects, every text shorter than seven
    characters among them, have no effect at all: the passthrough step does
    what it does on the accepted entries alone. *)
Theorem passthrough_devices_skips_rejected_entries
    (vm : vm_etree) (t : string) (sw : LaunchScript * world) :
  passthrough_devices vm sw
  = for_each (filter (fun t => is_Some (bdf_regex_match t)) (vm_pci_devs vm))
      passthru_entry sw
  ∧ (bdf_regex_match t = None → passthru_entry t sw = Ok (tt, sw))
  ∧ ((String.length t < 7)%nat → bdf_regex_match t = None).
Proof.
  split; [|split].
  - unfold passthrough_devices. revert sw.
    induction (vm_pci_devs vm) as [|x l IH]; intros sw; [done|].
    destruct (bdf_regex_match x) as [g|] eqn:Hx.
    + rewrite filter_cons_True by (rewrite Hx; by eexists).
      cbn [for_each]. unfold bind.
      destruct (passthru_entry x sw) as [[[] sw']|e]; [apply IH | done].
    + rewrite filter_cons_False by (rewrite Hx; by intros [? ?]).
      cbn [for_each]. unfold bind at 1. unfold passthru_entry at 1.
      rewrite Hx. unfold ret. apply IH.
  - intros Ht. unfold passthru_entry. by rewrite Ht.
  - intros Hlen.
    destruct t as [|b1 [|b2 [|colon [|d1 [|d2 [|sep [|f rest]]]]]]]; try done.
    simpl in Hlen. lia.
Qed.

(** ** Option inference *)

Module OptionFacts.

Lemma prefix_app (a c : string) :
  String.prefix a c = true → ∃ r, c = a +:+ r.
Proof.
  revert c. induction a as [|x a IH]; intros c; [by exists c|].
  destruct c as [|y c]; [discriminate|]. cbn [String.prefix].
  destruct (ascii_dec x y) as [->|]; [|discriminate].
  intros H. destruct (IH c H) as [r ->]. by exists r.
Qed.

(** No class code starts with both prefixes of the table. *)
Lemma prefixes_exclusive (c : string) :
  String.prefix "0x0200" c = true → String.prefix "0x0c0330" c = false.
Proof. intros H. destruct (prefix_app _ _ H) as [r ->]. reflexivity. Qed.

Lemma get_option_some (dev : device_etree) (vm : vm_etree) :
  PassThruDeviceOptions.get_option (Some dev) vm
  = (if String.prefix "0x0200" (default EmptyString (dev_class dev))
        && vm_PTM_is_y vm
     then "enable_ptm"
     else if String.prefix "0x0c0330" (default EmptyString (dev_class dev))
             && vm_os_type_is_windows vm
          then "d3hot_reset"
          else EmptyString).
Proof.
  unfold PassThruDeviceOptions.get_option,
    PassThruDeviceOptions.passthru_device_options.
  cbn [flat_map fst snd].
  destruct (String.prefix "0x0200" _) eqn:H1.
  - rewrite (prefixes_exclusive _ H1). cbn [andb].
    by destruct (vm_PTM_is_y vm).
  - cbn [andb]. by destruct (String.prefix "0x0c0330" _ && _).
Qed.

Lemma get_option_no_igd (d : option device_etree) (vm : vm_etree) :
  Py.str_in "igd" (PassThruDeviceOptions.get_option d vm) = false.
Proof.
  destruct d as [dev|]; [|reflexivity]. rewrite get_option_some.
  destruct (_ && _); [reflexivity|]. destruct (_ && _); reflexivity.
Qed.

End OptionFacts.

(** X7. [get_option] gives the empty text when there is no board node, and
    otherwise one of three texts: [enable_ptm] for a class code starting
    with [0x0200] in a VM with PTM set to y, [d3hot_reset] for a class code
    starting with [0x0c0330] in a Windows VM, the empty text in every other
    case. *)
Theorem get_option_values (dev : device_etree) (vm : vm_etree) :
  let class_code := default EmptyString (dev_class dev) in
  PassThruDeviceOptions.get_option None vm = EmptyString
  ∧ PassThruDeviceOptions.get_option (Some dev) vm
    = (if String.prefix "0x0200" class_code && vm_PTM_is_y vm then "enable_ptm"
       else if String.prefix "0x0c0330" class_code && vm_os_type_is_windows vm
            then "d3hot_reset"
            else EmptyString).
Proof.
  intros class_code. split; [reflexivity | apply OptionFacts.get_option_some].
Qed.

(** X8. With the options [add_passthru_device] infers itself, the allocator
    gives slot 2 exactly for a board node of class code [0x030000]; every
    other device, a device without board node too, draws the lowest free
    slot, or finds the pool empty. *)
Theorem inferred_options_leave_slot_2_to_vga
    (d : option device_etree) (s : LaunchScript) (a : VirtualBDFAllocator.t) :
  VirtualBDFAllocator.get_virtual_bdf d
    (Some (passthru_options EmptyString d s)) a
  = match d with
    | Some dev =>
        if bool_decide (dev_class dev = Some "0x030000") then Ok (2, a)
        else VirtualBDFAllocator.pop0 a
    | None => VirtualBDFAllocator.pop0 a
    end.
Proof.
  unfold passthru_options. rewrite bool_decide_eq_true_2 by done.
  set (o := PassThruDeviceOptions.get_option d (_vm_scenario_etree s)).
  assert (Higd : Py.truthy (Some o)
                 && Py.str_in "igd" (default EmptyString (Some o)) = false).
  { change (default EmptyString (Some o)) with o. subst o.
    rewrite OptionFacts.get_option_no_igd. apply andb_false_r. }
  unfold VirtualBDFAllocator.get_virtual_bdf. rewrite Higd.
  by destruct d.
Qed.

(** ** Failure of the CPU step *)

Module CpuFailure.

Lemma int_raises_ValueError (base : Z) (t : string) (e : exn) :
  Py.int base t = Raise e → e = ValueError.
Proof.
  unfold Py.int. intros H. repeat case_match; congruence.
Qed.

Lemma map_cpu_id_to_lapic_id_raises board name cpus w :
  literal_texts cpus →
  Exists (malformed_apic_id board) cpus →
  map_m (cpu_id_to_lapic_id board name) cpus w = Raise ValueError.
Proof.
  revert w. induction cpus as [|c cpus IH]; intros w Hlit Hex; [by inversion Hex|].
  apply Forall_cons in Hlit as [Hc Hlit].
  cbn [map_m]. unfold bind at 1.
  destruct (decide (malformed_apic_id board c)) as [(t & Ht & Hbad)|Hgood].
  - by rewrite (CpuFacts.cpu_id_to_lapic_id_malformed _ _ _ t).
  - apply Exists_cons in Hex as [Hc'|Hex]; [done|].
    destruct (apic_id_text board c) as [t|] eqn:Ht.
    + destruct (Py.int 16 t) as [n|e] eqn:Hn.
      * rewrite (CpuFacts.cpu_id_to_lapic_id_defined _ _ _ t n) by done.
        unfold bind. by rewrite IH.
      * destruct Hgood. exists t. split; [done|].
        by rewrite (int_raises_ValueError _ _ _ Hn) in Hn.
    + rewrite CpuFacts.cpu_id_to_lapic_id_undefined by done.
      unfold bind. by rewrite IH.
Qed.

End CpuFailure.

(** X9. When every affinity CPU text is pasted into the query as a string
    literal (it holds no apostrophe), the CPU step of the generator fails
    exactly when some affinity CPU is defined in the board with an APIC id
    text that is not a base-16 integer literal, and then with [ValueError];
    a CPU missing from the board never makes it fail. *)
Theorem cpu_resources_fails_on_malformed_apic_id
    (py : interpreter) (board : board_etree) (vm : vm_etree)
    (s : LaunchScript) (w : world) (e : exn) :
  literal_texts (vm_pcpu_ids vm) →
  cpu_resources py board vm (s, w) = Raise e
  ↔ e = ValueError ∧ ∃ c, c ∈ vm_pcpu_ids vm ∧ malformed_apic_id board c.
Proof.
  intros Hlit.
  set (cpus := set_order py (vm_pcpu_ids vm)).
  assert (Hcpus : ∀ c, c ∈ cpus ↔ c ∈ vm_pcpu_ids vm)
    by (intros c; apply set_order_elem).
  assert (Hlit' : literal_texts cpus).
  { apply (CpuFacts.literal_texts_same (vm_pcpu_ids vm)); [|exact Hlit].
    intros c. apply Hcpus. }
  assert (Hrun : ∀ r, map_m (cpu_id_to_lapic_id board (the_vm_name vm)) cpus w = r →
            cpu_resources py board vm (s, w)
            = match r with
              | Ok (xs, w') =>
                  when (negb (bool_decide (omap id xs = [])))
                    (upd (add_dynamic_dm_parameter "add_cpus"
                            (add_cpus_text (omap id xs)))) (s, w')
              | Raise e => Raise e
              end).
  { intros r <-. unfold cpu_resources, bind, in_world, lapic_ids_of. cbn [fst snd].
    fold cpus. unfold bind.
    by destruct (map_m _ cpus w) as [[xs w']|e']. }
  destruct (decide (Exists (malformed_apic_id board) cpus)) as [Hex|Hno].
  - rewrite (Hrun _ (CpuFailure.map_cpu_id_to_lapic_id_raises _ _ _ _ Hlit' Hex)).
    split.
    + intros [= <-]. split; [done|].
      apply Exists_exists in Hex as (c & Hc & Hbad). exists c.
      split; [by apply Hcpus | done].
    + by intros [-> _].
  - assert (Hok : ∀ c t, c ∈ cpus → apic_id_text board c = Some t →
              ∃ n, Py.int 16 t = Ok n).
    { intros c t Hc Ht. destruct (Py.int 16 t) as [n|e'] eqn:Hn; [by exists n|].
      destruct Hno. apply Exists_exists. exists c. split; [done|].
      exists t. split; [done|].
      by rewrite (CpuFailure.int_raises_ValueError _ _ _ Hn) in Hn. }
    rewrite (Hrun _ (CpuFacts.map_cpu_id_to_lapic_id _ _ _ _ Hlit' Hok)).
    split.
    + unfold when, upd, ret. by destruct (negb _).
    + intros [_ (c & Hc & Hbad)]. destruct Hno.
      apply Exists_exists. exists c. split; [by apply Hcpus | done].
Qed.

Lemma cpu_resources_fails_on_malformed_apic_id_witness :
  let board := {| board_threads := [Examples.thread "0" "0x0";
                                    Examples.thread "1" "two"];
                  board_devices := [];
                  board_apic_id_pasted := fun _ => Raise XPathEvalError |} in
  let vm := Examples.vm "VM1" None ["0"; "1"; "7"] [] in
  cpu_resources Examples.py board vm
    (LaunchScript_init board "VM1" vm, Examples.nothing_yet)
  = Raise ValueError.
Proof.
  intros board vm.
  apply (cpu_resources_fails_on_malformed_apic_id Examples.py board vm).
  - apply (bool_decide_unpack _). vm_compute. exact I.
  - split; [reflexivity|]. exists "1". split.
    + apply (bool_decide_unpack _). vm_compute. exact I.
    + exists "two". split; vm_compute; reflexivity.
Defined.

(** ** The generation pass as a whole *)

Module GenFacts.

Lemma extends_refl s : extends s s.
Proof. by constructor. Qed.

Lemma extends_trans s1 s2 s3 : extends s1 s2 → extends s2 s3 → extends s1 s3.
Proof.
  intros [] []. constructor; try congruence; try (etrans; eassumption).
Qed.

Lemma good_refl s : good s s.
Proof. split; [done | apply extends_refl]. Qed.

Lemma good_trans s1 s2 s3 : good s1 s2 → good s2 s3 → good s1 s3.
Proof.
  intros [H1 E1] [H2 E2]. split; [auto | by eapply extends_trans].
Qed.

(** *** Elementary updates *)

Lemma good_add_parameter (p : string) (s : LaunchScript) :
  is_option_text p = true →
  good s (set_dm_parameters (append_if_absent p (_dm_parameters s)) s).
Proof.
  intros Hp. split.
  - intros []. constructor; cbn; try assumption.
    + by apply BuilderFacts.append_if_absent_NoDup.
    + rewrite Forall_forall in *. intros q Hq.
      apply BuilderFacts.append_if_absent_inv in Hq as [->|Hq]; auto.
  - constructor; cbn; try reflexivity.
    apply BuilderFacts.append_if_absent_prefix.
Qed.

Lemma good_add_plain (opt : string) (s : LaunchScript) :
  is_option_text opt = true → good s (add_plain_dm_parameter opt s).
Proof. apply good_add_parameter. Qed.

Lemma dynamic_is_option_text (cmd opt : string) :
  is_option_text (dynamic_dm_parameter cmd opt) = true.
Proof.
  destruct (BuilderFacts.dynamic_dm_parameter_head cmd opt) as [rest ->].
  unfold is_option_text. cbn. by destruct rest.
Qed.

Lemma good_add_dynamic (cmd opt : string) (s : LaunchScript) :
  good s (add_dynamic_dm_parameter cmd opt s).
Proof. apply good_add_parameter, dynamic_is_option_text. Qed.

Lemma good_add_init (command : string) (s : LaunchScript) :
  good s (add_init_command command s).
Proof.
  split.
  - intros [Ipar Iini Idei Ipoo Iran Iopt Iunm]. constructor; cbn; try assumption.
    + by apply BuilderFacts.append_if_absent_NoDup.
    + intros d Hd. destruct (Iunm d Hd) as (var & dev & -> & Hm).
      exists var, dev. split; [done|]. by apply BuilderFacts.append_if_absent_mono.
  - constructor; cbn; try reflexivity.
    apply BuilderFacts.append_if_absent_prefix.
Qed.

Lemma good_add_deinit (var dev : string) (s : LaunchScript) :
  mount_command var dev ∈ _init_commands s →
  good s (add_deinit_command (unmount_command var) s).
Proof.
  intros Hm. split.
  - intros [Ipar Iini Idei Ipoo Iran Iopt Iunm]. constructor; cbn; try assumption.
    + by apply BuilderFacts.append_if_absent_NoDup.
    + intros d Hd. apply BuilderFacts.append_if_absent_inv in Hd as [->|Hd].
      * by exists var, dev.
      * by apply Iunm.
  - constructor; cbn; try reflexivity.
    apply BuilderFacts.append_if_absent_prefix.
Qed.

Lemma good_set_allocator (a : VirtualBDFAllocator.t) (s : LaunchScript) :
  VirtualBDFAllocator._free_slots a `sublist_of` pool s →
  good s (set_vbdf_allocator a s).
Proof.
  intros Hsub. split.
  - intros [Ipar Iini Idei Ipoo Iran Iopt Iunm]. constructor; cbn; try assumption.
    + by eapply AllocatorOrder.sublist_StronglySorted.
    + rewrite Forall_forall in *. intros n Hn. apply Iran.
      by eapply elem_of_sublist.
  - by constructor.
Qed.

(** *** The device methods *)

Lemma pop0_sublist a n a' :
  VirtualBDFAllocator.pop0 a = Ok (n, a') →
  VirtualBDFAllocator._free_slots a' `sublist_of` VirtualBDFAllocator._free_slots a.
Proof.
  unfold VirtualBDFAllocator.pop0. destruct a as [[|x l]]; [discriminate|].
  intros [= <- <-]. by apply sublist_cons.
Qed.

Lemma get_virtual_bdf_sublist d o a n a' :
  VirtualBDFAllocator.get_virtual_bdf d o a = Ok (n, a') →
  VirtualBDFAllocator._free_slots a' `sublist_of` VirtualBDFAllocator._free_slots a.
Proof.
  destruct (VirtualBDFAllocator.gpu_shortcut d o) eqn:Hg.
  - rewrite AllocatorFacts.get_virtual_bdf_shortcut by done. by intros [= <- <-].
  - rewrite AllocatorFacts.get_virtual_bdf_draw by done. apply pop0_sublist.
Qed.

Lemma good_add_virtual_device kind vbdf options s s' :
  add_virtual_device kind vbdf options s = Ok s' → good s s'.
Proof.
  unfold add_virtual_device. cbv zeta.
  set (s1 := if _ && _ then _ else s).
  assert (H1 : good s s1).
  { subst s1. destruct (_ && _); [by apply good_add_plain | apply good_refl]. }
  destruct vbdf as [v|].
  - intros [= <-]. eapply good_trans; [exact H1|].
    eapply good_trans; [|apply good_add_dynamic].
    apply good_set_allocator, AllocatorFacts.remove_virtual_bdf_sublist.
  - destruct (VirtualBDFAllocator.get_virtual_bdf None None (_vbdf_allocator s1))
      as [[n a]|e] eqn:Hget; [|discriminate].
    intros [= <-]. eapply good_trans; [exact H1|].
    eapply good_trans; [|apply good_add_dynamic].
    eapply good_set_allocator, get_virtual_bdf_sublist, Hget.
Qed.

Lemma good_add_passthru_device bus dev fn options s s' :
  add_passthru_device bus dev fn options s = Ok s' → good s s'.
Proof.
  unfold add_passthru_device. cbv zeta.
  destruct (VirtualBDFAllocator.get_virtual_bdf _ _ (_vbdf_allocator s))
    as [[n a]|e] eqn:Hget; [|discriminate].
  assert (H1 : good s (set_vbdf_allocator a s))
    by (eapply good_set_allocator, get_virtual_bdf_sublist, Hget).
  destruct (bool_decide (n ≠ 2)); intros [= <-].
  - eapply good_trans; [exact H1|].
    eapply good_trans; apply good_add_dynamic.
  - eapply good_trans; [exact H1 | apply good_add_dynamic].
Qed.

(** *** Combinators *)

Lemma keeps_ret {A} (a : A) : keeps (ret a).
Proof. intros s w a' s' w' [= <- <- <-]. split; [apply good_refl | done]. Qed.

Lemma keeps_raise {A} (e : exn) : keeps (@raise _ A e).
Proof. intros s w a' s' w' [=]. Qed.

Lemma keeps_of_result {A} (r : result A) : keeps (of_result r).
Proof.
  intros s w a' s' w'. unfold of_result. destruct r; [|discriminate].
  intros [= <- <- <-]. split; [apply good_refl | done].
Qed.

Lemma keeps_bind {A B} (m : G A) (k : A → G B) :
  keeps m → (∀ a, keeps (k a)) → keeps (bind m k).
Proof.
  intros Hm Hk s w b s' w'. unfold bind.
  destruct (m (s, w)) as [[a [s1 w1]]|e] eqn:E; [|discriminate].
  intros Hk'. destruct (Hm _ _ _ _ _ E) as [G1 ->].
  destruct (Hk a _ _ _ _ _ Hk') as [G2 ->].
  split; [by eapply good_trans | done].
Qed.

Lemma keeps_when (b : bool) (m : G unit) : keeps m → keeps (when b m).
Proof. intros Hm. destruct b; [exact Hm | apply keeps_ret]. Qed.

Lemma keeps_for_each {A} (l : list A) (f : A → G unit) :
  (∀ x, keeps (f x)) → keeps (for_each l f).
Proof.
  intros Hf. induction l as [|x l IH]; [apply keeps_ret|].
  cbn [for_each]. apply keeps_bind; [apply Hf | by intros _].
Qed.

Lemma keeps_upd (f : LaunchScript → LaunchScript) :
  (∀ s, good s (f s)) → keeps (upd f).
Proof. intros Hf s w a s' w' [= <- <-]. done. Qed.

Lemma keeps_attempt (f : LaunchScript → result LaunchScript) :
  (∀ s s', f s = Ok s' → good s s') → keeps (attempt f).
Proof.
  intros Hf s w a s' w'. unfold attempt. cbn [fst snd].
  destruct (f s) as [s1|e] eqn:E; [|discriminate].
  intros [= <- <-]. split; [by apply Hf | done].
Qed.

Lemma keeps_add_virtual_device kind vbdf options :
  keeps (attempt (add_virtual_device kind vbdf options)).
Proof. apply keeps_attempt, good_add_virtual_device. Qed.

Lemma keeps_add_plain opt :
  is_option_text opt = true → keeps (upd (add_plain_dm_parameter opt)).
Proof. intros H. apply keeps_upd. intros s. by apply good_add_plain. Qed.

Lemma keeps_add_init command : keeps (upd (add_init_command command)).
Proof. apply keeps_upd. intros s. apply good_add_init. Qed.

Lemma keeps_add_dynamic cmd opt : keeps (upd (add_dynamic_dm_parameter cmd opt)).
Proof. apply keeps_upd. intros s. apply good_add_dynamic. Qed.

Lemma keeps_add_passthru_device bus dev fn options :
  keeps (attempt (add_passthru_device bus dev fn options)).
Proof. apply keeps_attempt, good_add_passthru_device. Qed.

Ltac keeps_step :=
  first
    [ apply keeps_ret
    | apply keeps_raise
    | apply keeps_of_result
    | apply keeps_add_virtual_device
    | apply keeps_add_passthru_device
    | apply keeps_add_init
    | apply keeps_add_dynamic
    | apply keeps_add_plain; reflexivity
    | apply keeps_when
    | apply keeps_for_each; intros ?
    | apply keeps_bind; [|intros ?]
    | match goal with
      | |- keeps (match ?x with _ => _ end) => destruct x
      end ].

Ltac keeps_all := repeat keeps_step.

(** *** The phases after the CPU step *)

Lemma keeps_memory_resources vm : keeps (memory_resources vm).
Proof. unfold memory_resources. keeps_all. Qed.

Lemma keeps_guest_bios vm : keeps (guest_bios vm).
Proof. unfold guest_bios. keeps_all. Qed.

Lemma keeps_platform_devices vm : keeps (platform_devices vm).
Proof. unfold platform_devices. keeps_all. Qed.

Lemma keeps_ivshmem_device backend ivshmem : keeps (ivshmem_device backend ivshmem).
Proof. unfold ivshmem_device. keeps_all. Qed.

Lemma keeps_vuart_device vm idx_conn : keeps (vuart_device vm idx_conn).
Proof. unfold vuart_device. destruct idx_conn. keeps_all. Qed.

Lemma keeps_reserved_slot_devices scenario hv vm :
  keeps (reserved_slot_devices scenario hv vm).
Proof.
  unfold reserved_slot_devices.
  repeat first [ apply keeps_ivshmem_device | apply keeps_vuart_device | keeps_step ].
Qed.

Lemma keeps_virtio_console_device e : keeps (virtio_console_device e).
Proof. unfold virtio_console_device. cbv zeta. keeps_all. Qed.

Lemma keeps_virtio_network_device vm e : keeps (virtio_network_device vm e).
Proof.
  unfold virtio_network_device. cbv zeta.
  destruct (network_interface_name e); [|apply keeps_raise].
  destruct (Py.split_once _ _). keeps_all.
Qed.

Lemma keeps_virtio_block_device virtio_block : keeps (virtio_block_device virtio_block).
Proof.
  unfold virtio_block_device.
  destruct (Py.split_once ":" virtio_block) as [block_device [rootfs_img|]];
    [|keeps_all].
  cbv zeta. set (var := "dir_" +:+ Py.basename block_device).
  change (var +:+ "=`mount_partition " +:+ block_device +:+ "`")
    with (mount_command var block_device).
  change ("unmount_partition ${" +:+ var +:+ "}") with (unmount_command var).
  intros s w a s' w'. unfold bind, upd, attempt. cbn [fst snd].
  destruct (add_virtual_device _ _ _ _) as [s2|e] eqn:E; [|discriminate].
  intros [= <- <- <-].
  pose proof (good_add_init (mount_command var block_device) s) as G1.
  pose proof (good_add_virtual_device _ _ _ _ _ E) as G2.
  assert (Hm : mount_command var block_device ∈ _init_commands s2).
  { destruct G2 as [_ [Eb Ev En Ed Ec Epar Eini Edei Epoo]].
    eapply elem_of_prefix; [|exact Eini].
    apply BuilderFacts.append_if_absent_elem. }
  split; [|done].
  eapply good_trans; [exact G1|]. eapply good_trans; [exact G2|].
  by eapply good_add_deinit.
Qed.

Lemma keeps_mediated_devices vm : keeps (mediated_devices vm).
Proof.
  unfold mediated_devices.
  repeat first
    [ apply keeps_virtio_console_device | apply keeps_virtio_network_device
    | apply keeps_virtio_block_device
    | apply keeps_bind; [|intros ?] | apply keeps_for_each; intros ? ].
  - unfold usb_xhci_device. keeps_all.
  - unfold virtio_input_device. keeps_all.
  - unfold virtio_gpu_device. keeps_all.
  - unfold vsock_device. keeps_all.
Qed.

Lemma keeps_passthrough_devices vm : keeps (passthrough_devices vm).
Proof.
  unfold passthrough_devices. apply keeps_for_each. intros t.
  unfold passthru_entry. destruct (bdf_regex_match t) as [[[g1 g2] g3]|]; keeps_all.
Qed.

Lemma keeps_miscellaneous vm : keeps (miscellaneous vm).
Proof. unfold miscellaneous. keeps_all. Qed.

End GenFacts.

Module PassFacts.
Import GenFacts.

Lemma bind_inv {S A B} (m : SE S A) (k : A → SE S B) (s : S) (r : B * S) :
  bind m k s = Ok r → ∃ a s1, m s = Ok (a, s1) ∧ k a s1 = Ok r.
Proof.
  unfold bind. destruct (m s) as [[a s1]|e]; [|discriminate].
  intros H. by exists a, s1.
Qed.

Lemma keeps_inv {A} (m : G A) sw a sw' :
  keeps m → m sw = Ok (a, sw') → good sw.1 sw'.1 ∧ sw'.2 = sw.2.
Proof. intros Hk. destruct sw, sw'. apply Hk. Qed.

(** The script after the first two steps, on a fresh script. *)
Lemma opening_steps board hv vm w s1 w1 :
  bind (upd (add_init_command "probe_modules"))
    (fun _ => vm_types_and_guest_oses hv vm)
    (LaunchScript_init board (the_vm_name vm) vm, w) = Ok (tt, (s1, w1)) →
  ∃ h, hv = Some h ∧ w1 = w ∧ script_inv s1
       ∧ _board_etree s1 = board ∧ _vm_scenario_etree s1 = vm
       ∧ _vm_name s1 = the_vm_name vm ∧ _cpu_dict s1 = []
       ∧ _vm_descriptors s1
         = [("vm_type", "'" +:+ default "STANDARD_VM" (vm_vm_type vm) +:+ "'");
            ("scheduler", "'" +:+ Py.fmt (hv_SCHEDULER h) +:+ "'")]
       ∧ _init_commands s1 = ["probe_modules"]
       ∧ _deinit_commands s1 = []
       ∧ pool s1 = Py.range 3 30.
Proof.
  unfold bind, upd, vm_types_and_guest_oses, bind, when, upd, ret, raise.
  cbn [fst snd].
  destruct hv as [h|]; [|by destruct (bool_decide _)].
  assert (Hpool : StronglySorted Z.lt (Py.range 3 30)
                  ∧ Forall (fun n => 3 ≤ n ≤ 29) (Py.range 3 30)).
  { split; [apply AllocatorOrder.fresh_pool_ascending|].
    rewrite Forall_forall. intros n Hn.
    apply AllocatorFacts.elem_of_range in Hn. lia. }
  destruct Hpool as [Hp1 Hp2].
  destruct (bool_decide (vm_os_type vm = Some "Windows OS"));
    intros [= <- <-]; exists h; (split; [done|]); (split; [done|]);
    (split; [|done]);
    (constructor; cbn;
      [ repeat constructor; set_solver
      | repeat constructor; set_solver
      | constructor
      | exact Hp1
      | exact Hp2
      | repeat constructor
      | intros d Hd; by apply elem_of_nil in Hd ]).
Qed.

(** The CPU step, when it succeeds. *)
Lemma cpu_resources_ok (py : interpreter) board vm s w s' w' :
  cpu_resources py board vm (s, w) = Ok (tt, (s', w')) →
  good s s'
  ∧ w' = log_all (cpu_warnings board (the_vm_name vm) (affinity_cpus py vm)) w.
Proof.
  unfold cpu_resources, bind, in_world, lapic_ids_of. cbn [fst snd].
  fold (affinity_cpus py vm). unfold bind.
  destruct (map_m _ (affinity_cpus py vm) w) as [[xs w1]|e] eqn:E; [|discriminate].
  destruct (CpuFacts.map_cpu_id_to_lapic_id_inv _ _ _ _ _ _ E) as [-> ->].
  unfold ret, when, upd. cbn [fst snd].
  destruct (negb _); intros [= <- <-]; (split; [|done]);
    [apply good_add_dynamic | apply good_refl].
Qed.

Lemma memory_resources_adds vm s w :
  memory_resources vm (s, w)
  = Ok (tt, (add_plain_dm_parameter (memory_parameter vm) s, w)).
Proof. reflexivity. Qed.

Lemma platform_devices_adds vm s w s' w' :
  platform_devices vm (s, w) = Ok (tt, (s', w')) →
  hostbridge_parameter ∈ _dm_parameters s'
  ∧ (vm_vm_type vm ≠ Some "RTVM" → lpc_parameter ∈ _dm_parameters s').
Proof.
  unfold platform_devices. intros H.
  apply bind_inv in H as ([] & [s1 w1] & H1 & H).
  apply bind_inv in H as ([] & [s2 w2] & H2 & H).
  assert (G2 : good s1 s2).
  { eapply (keeps_inv _ (s1, w1) tt (s2, w2)); [|exact H2]. keeps_all. }
  assert (G3 : good s2 s').
  { eapply (keeps_inv _ (s2, w2) tt (s', w')); [|exact H]. keeps_all. }
  split.
  - unfold attempt in H. cbn [fst snd] in H.
    destruct (add_virtual_device "hostbridge" _ _ s2) as [s3|e] eqn:E;
      [|discriminate].
    injection H as <- _.
    destruct (VirtualDeviceFacts.add_virtual_device_succeeds "hostbridge"
                (Some (VStr "0:0")) EmptyString s2) as (slot & a & Hs);
      [discriminate|].
    unfold add_virtual_device in E, Hs. cbn [Py.str_in String.prefix orb andb] in E, Hs.
    injection E as <-. cbn. apply BuilderFacts.append_if_absent_elem.
  - intros Hrt. unfold vm_type_is_RTVM, when in H1.
    rewrite bool_decide_eq_false_2 in H1 by done. cbn [negb] in H1.
    unfold attempt in H1. cbn [fst snd] in H1.
    destruct (add_virtual_device "lpc" _ _ s) as [s3|e] eqn:E; [|discriminate].
    injection H1 as <- _.
    unfold add_virtual_device in E. cbn [Py.str_in String.prefix orb andb] in E.
    injection E as <-.
    destruct G2 as [_ [Eb Ev En Ed Ec Epar Eini Edei Epoo]].
    destruct G3 as [_ [Eb1 Ev1 En1 Ed1 Ec1 Epar1 Eini1 Edei1 Epoo1]].
    eapply elem_of_prefix; [|exact Epar1].
    eapply elem_of_prefix; [|exact Epar].
    cbn. apply BuilderFacts.append_if_absent_elem.
Qed.

Lemma miscellaneous_adds vm s w s' w' :
  miscellaneous vm (s, w) = Ok (tt, (s', w')) →
  logger_parameter ∈ _dm_parameters s'
  ∧ (vm_vm_type vm = Some "RTVM" → "--rtvm" ∈ _dm_parameters s').
Proof.
  unfold miscellaneous. intros H.
  apply bind_inv in H as ([] & [s1 w1] & H1 & H).
  injection H as <- _. split.
  - cbn. apply BuilderFacts.append_if_absent_elem.
  - intros Hrt. unfold vm_type_is_RTVM, when in H1.
    rewrite bool_decide_eq_true_2 in H1 by done.
    apply bind_inv in H1 as ([] & [s2 w2] & H2 & H1).
    injection H2 as <- <-.
    assert (G : good (add_plain_dm_parameter "--rtvm" s) s1).
    { eapply (keeps_inv _ (add_plain_dm_parameter "--rtvm" s, w) tt (s1, w1));
        [|exact H1]. keeps_all. }
    destruct G as [_ [Eb Ev En Ed Ec Epar Eini Edei Epoo]]. cbn.
    apply BuilderFacts.append_if_absent_mono.
    eapply elem_of_prefix; [|exact Epar].
    cbn. apply BuilderFacts.append_if_absent_elem.
Qed.

(** What every script returned by [generate_for_one_vm] is made of. *)
Lemma generated_script (py : interpreter) board scenario hv vm id w s w' :
  generate_for_one_vm py board scenario hv vm id w = Ok (s, w') →
  ∃ s9 h,
    hv = Some h
    ∧ s = add_plain_dm_parameter (the_vm_name vm) s9
    ∧ w' = log_all (cpu_warnings board (the_vm_name vm) (affinity_cpus py vm)) w
    ∧ script_inv s9
    ∧ _board_etree s9 = board ∧ _vm_scenario_etree s9 = vm
    ∧ _vm_name s9 = the_vm_name vm ∧ _cpu_dict s9 = []
    ∧ _vm_descriptors s9
      = [("vm_type", "'" +:+ default "STANDARD_VM" (vm_vm_type vm) +:+ "'");
         ("scheduler", "'" +:+ Py.fmt (hv_SCHEDULER h) +:+ "'")]
    ∧ ["probe_modules"] `prefix_of` _init_commands s9
    ∧ pool s9 `sublist_of` Py.range 3 30
    ∧ memory_parameter vm ∈ _dm_parameters s9
    ∧ hostbridge_parameter ∈ _dm_parameters s9
    ∧ logger_parameter ∈ _dm_parameters s9
    ∧ (vm_vm_type vm ≠ Some "RTVM" → lpc_parameter ∈ _dm_parameters s9)
    ∧ (vm_vm_type vm = Some "RTVM" → "--rtvm" ∈ _dm_parameters s9).
Proof.
  intros Hgen. unfold generate_for_one_vm in Hgen.
  destruct (generate_body py board scenario hv vm _) as [[[] [s' w'']]|e] eqn:Hbody;
    [|discriminate].
  injection Hgen as -> ->. unfold generate_body in Hbody.
  apply bind_inv in Hbody as ([] & sw0 & H0 & Hbody).
  apply bind_inv in Hbody as ([] & [s1 w1] & H1 & Hbody).
  assert (Hopen : bind (upd (add_init_command "probe_modules"))
                    (fun _ => vm_types_and_guest_oses hv vm)
                    (LaunchScript_init board (the_vm_name vm) vm, w)
                  = Ok (tt, (s1, w1))).
  { unfold bind at 1. rewrite H0. exact H1. }
  clear H0 H1 sw0.
  apply opening_steps in Hopen
    as (h & -> & -> & Inv1 & Hb1 & Hv1 & Hn1 & Hc1 & Hd1 & Hi1 & Hde1 & Hp1).
  apply bind_inv in Hbody as ([] & [s2 w2] & Hcpu & Hbody).
  apply cpu_resources_ok in Hcpu as [G2 ->].
  apply bind_inv in Hbody as ([] & [s3 w3] & Hmem & Hbody).
  rewrite memory_resources_adds in Hmem. injection Hmem as <- <-.
  apply bind_inv in Hbody as ([] & [s4 w4] & Hbios & Hbody).
  apply (keeps_inv _ _ _ _ (keeps_guest_bios vm)) in Hbios as [G4 E4].
  apply bind_inv in Hbody as ([] & [s5 w5] & Hplat & Hbody).
  pose proof (platform_devices_adds _ _ _ _ _ Hplat) as [Hhost Hlpc].
  apply (keeps_inv _ _ _ _ (keeps_platform_devices vm)) in Hplat as [G5 E5].
  apply bind_inv in Hbody as ([] & [s6 w6] & Hres & Hbody).
  apply (keeps_inv _ _ _ _ (keeps_reserved_slot_devices scenario (Some h) vm))
    in Hres as [G6 E6].
  apply bind_inv in Hbody as ([] & [s7 w7] & Hmed & Hbody).
  apply (keeps_inv _ _ _ _ (keeps_mediated_devices vm)) in Hmed as [G7 E7].
  apply bind_inv in Hbody as ([] & [s8 w8] & Hpt & Hbody).
  apply (keeps_inv _ _ _ _ (keeps_passthrough_devices vm)) in Hpt as [G8 E8].
  apply bind_inv in Hbody as ([] & [s9 w9] & Hmisc & Hbody).
  pose proof (miscellaneous_adds _ _ _ _ _ Hmisc) as [Hlog Hrtvm].
  apply (keeps_inv _ _ _ _ (keeps_miscellaneous vm)) in Hmisc as [G9 E9].
  unfold conclude, upd in Hbody. cbn [fst snd] in *.
  injection Hbody as <- <-.
  exists s9, h. split; [done|]. split; [done|]. split; [congruence|].
  (* from the memory parameter on, the script is only extended *)
  pose proof (good_add_plain (memory_parameter vm) s2 eq_refl) as G3.
  assert (G39 : good (add_plain_dm_parameter (memory_parameter vm) s2) s9).
  { repeat (eapply good_trans; [eassumption|]). apply good_refl. }
  assert (G59 : good s5 s9).
  { repeat (eapply good_trans; [eassumption|]). apply good_refl. }
  assert (G19 : good s1 s9).
  { eapply good_trans; [exact G2|]. eapply good_trans; [exact G3 | exact G39]. }
  destruct G19 as [I19 E19]. destruct G39 as [_ E39]. destruct G59 as [_ E59].
  split; [by apply I19|].
  split; [by rewrite (ext_board _ _ E19)|].
  split; [by rewrite (ext_vm _ _ E19)|].
  split; [by rewrite (ext_name _ _ E19)|].
  split; [by rewrite (ext_cpu_dict _ _ E19)|].
  split; [by rewrite (ext_descriptors _ _ E19)|].
  split; [rewrite <- Hi1; apply (ext_init _ _ E19)|].
  split; [rewrite <- Hp1; apply (ext_pool _ _ E19)|].
  split.
  { eapply elem_of_prefix; [|apply (ext_params _ _ E39)].
    cbn. apply BuilderFacts.append_if_absent_elem. }
  split; [eapply elem_of_prefix; [exact Hhost | apply (ext_params _ _ E59)]|].
  split; [exact Hlog|]. split; [|exact Hrtvm].
  intros Hrt. eapply elem_of_prefix; [by apply Hlpc | apply (ext_params _ _ E59)].
Qed.

End PassFacts.

(** X10. In every script [generate_for_one_vm] returns, the parameter list,
    the initialization commands and the deinitialization commands are free
    of repetitions, and the slots left in the pool are ascending slots
    between 3 and 29. *)
Theorem generated_sequences_have_no_repetition
    (py : interpreter) (board : board_etree) (scenario : scenario_etree)
    (hv : option hv_etree)
    (vm : vm_etree) (id : Z) (w w' : world) (s : LaunchScript) :
  generate_for_one_vm py board scenario hv vm id w = Ok (s, w') →
  NoDup (_dm_parameters s) ∧ NoDup (_init_commands s)
  ∧ NoDup (_deinit_commands s)
  ∧ StronglySorted Z.lt (pool s) ∧ Forall (fun n => 3 ≤ n ≤ 29) (pool s).
Proof.
  intros H. apply PassFacts.generated_script in H
    as (s9 & h & _ & -> & _ & [] & _).
  split; [by apply BuilderFacts.append_if_absent_NoDup | done].
Qed.

Lemma generated_sequences_have_no_repetition_witness :
  let vm := Examples.vm "VM1" None ["1"; "3"] ["00:1f.3"; "00:1f.3"] in
  let scenario := Examples.scenario [vm] in
  ∃ s w', generate_for_one_vm Examples.py Examples.board scenario
            (scenario_hv scenario) vm 1 Examples.nothing_yet = Ok (s, w')
          ∧ NoDup (_dm_parameters s).
Proof.
  intros vm scenario.
  destruct (generate_for_one_vm Examples.py Examples.board scenario
              (scenario_hv scenario) vm 1 Examples.nothing_yet) as [[s w']|e] eqn:E;
    [|vm_compute in E; discriminate E].
  exists s, w'. split; [reflexivity|].
  apply (generated_sequences_have_no_repetition _ _ _ _ _ _ _ _ _ E).
Defined.

(** X11. A successful [generate_for_one_vm] writes no file. It logs one
    warning for each affinity CPU for which the board answers with nothing,
    in the order in which the interpreter iterates the set of the affinity
    CPUs, and nothing else. When the CPU texts are pasted into the query as
    string literals (they hold no apostrophe), these are the CPUs that no
    thread of the board carries with an APIC id text. *)
Theorem generation_logs_only_cpu_warnings
    (py : interpreter) (board : board_etree) (scenario : scenario_etree)
    (hv : option hv_etree)
    (vm : vm_etree) (id : Z) (w w' : world) (s : LaunchScript) :
  generate_for_one_vm py board scenario hv vm id w = Ok (s, w') →
  written w' = written w
  ∧ logged w'
    = logged w ++ cpu_warnings board (the_vm_name vm) (affinity_cpus py vm)
  ∧ NoDup (affinity_cpus py vm)
  ∧ (∀ c, c ∈ affinity_cpus py vm ↔ c ∈ vm_pcpu_ids vm)
  ∧ (literal_texts (vm_pcpu_ids vm) →
     cpu_warnings board (the_vm_name vm) (affinity_cpus py vm)
     = map (fun c => (WARNING, cpu_warning c (the_vm_name vm)))
         (filter (fun c => apic_id_text board c = None) (affinity_cpus py vm))).
Proof.
  intros H. apply PassFacts.generated_script in H
    as (s9 & h & _ & _ & -> & _).
  split; [done|]. split; [done|].
  split; [apply set_order_NoDup|].
  split; [intros c; apply set_order_elem|].
  intros Hlit.
  assert (Hlit' : literal_texts (affinity_cpus py vm)).
  { apply (CpuFacts.literal_texts_same (vm_pcpu_ids vm)); [|exact Hlit].
    intros c. apply set_order_elem. }
  revert Hlit'. generalize (affinity_cpus py vm). unfold cpu_warnings.
  induction l as [|c l IH]; intros Hl; [done|].
  apply Forall_cons in Hl as [Hc Hl].
  cbn [flat_map]. rewrite (IH Hl), CpuFacts.apic_id_query_literal by done.
  destruct (apic_id_text board c) as [t|] eqn:Ht;
    cbn [fmap option_fmap option_map app].
  - by rewrite filter_cons_False by (by rewrite Ht).
  - by rewrite filter_cons_True by (by rewrite Ht).
Qed.

Lemma generation_logs_only_cpu_warnings_witness :
  let vm := Examples.vm "VM1" None ["1"; "9"] [] in
  let scenario := Examples.scenario [vm] in
  ∃ s w', generate_for_one_vm Examples.py Examples.board scenario
            (scenario_hv scenario) vm 1 Examples.nothing_yet = Ok (s, w')
          ∧ written w' = []
          ∧ logged w' = [(WARNING, cpu_warning "9" "VM1")].
Proof.
  intros vm scenario.
  destruct (generate_for_one_vm Examples.py Examples.board scenario
              (scenario_hv scenario) vm 1 Examples.nothing_yet) as [[s w']|e] eqn:E;
    [|vm_compute in E; discriminate E].
  exists s, w'. split; [reflexivity|].
  destruct (generation_logs_only_cpu_warnings _ _ _ _ _ _ _ _ _ E)
    as (Hw & Hl & _).
  split; [exact Hw|]. rewrite Hl. vm_compute. reflexivity.
Defined.

(** X12. The VM name is in the parameter list of every generated script,
    and a name that starts neither with a dash nor with a backquote is its
    last element and occurs nowhere else in it. *)
Theorem vm_name_concludes_the_parameters
    (py : interpreter) (board : board_etree) (scenario : scenario_etree)
    (hv : option hv_etree)
    (vm : vm_etree) (id : Z) (w w' : world) (s : LaunchScript) :
  generate_for_one_vm py board scenario hv vm id w = Ok (s, w') →
  _vm_name s = the_vm_name vm
  ∧ the_vm_name vm ∈ _dm_parameters s
  ∧ (is_option_text (the_vm_name vm) = false →
     ∃ before, _dm_parameters s = before ++ [the_vm_name vm]
               ∧ (the_vm_name vm ∉ before)
               ∧ last (_dm_parameters s) = Some (the_vm_name vm)).
Proof.
  intros H. apply PassFacts.generated_script in H
    as (s9 & h & _ & -> & _ & [Ipar Iini Idei Ipoo Iran Iopt Iunm] & _ & _ & Hname & _).
  split; [exact Hname|].
  split; [cbn; apply BuilderFacts.append_if_absent_elem|].
  intros Hopt. exists (_dm_parameters s9).
  assert (Hnew : the_vm_name vm ∉ _dm_parameters s9).
  { intros Hin. rewrite Forall_forall in Iopt.
    specialize (Iopt _ Hin). congruence. }
  cbn. unfold append_if_absent. rewrite bool_decide_eq_false_2 by done.
  split; [done|]. split; [done|]. apply last_snoc.
Qed.

Lemma vm_name_concludes_the_parameters_witness :
  let vm := Examples.vm "VM1" (Some "RTVM") [] [] in
  let scenario := Examples.scenario [vm] in
  ∃ s w', generate_for_one_vm Examples.py Examples.board scenario
            (scenario_hv scenario) vm 1 Examples.nothing_yet = Ok (s, w')
          ∧ last (_dm_parameters s) = Some "VM1".
Proof.
  intros vm scenario.
  destruct (generate_for_one_vm Examples.py Examples.board scenario
              (scenario_hv scenario) vm 1 Examples.nothing_yet) as [[s w']|e] eqn:E;
    [|vm_compute in E; discriminate E].
  exists s, w'. split; [reflexivity|].
  destruct (vm_name_concludes_the_parameters _ _ _ _ _ _ _ _ _ E) as (_ & _ & Hlast).
  destruct (Hlast eq_refl) as (before & _ & _ & Hl). exact Hl.
Defined.

(** X13. Every generated script has the memory parameter, the host bridge
    at [0:0] and the logger settings in its parameter list; it has the LPC
    device at [1:0] unless the VM is an RTVM, and the [--rtvm] flag if it
    is one. *)
Theorem generated_script_has_fixed_parameters
    (py : interpreter) (board : board_etree) (scenario : scenario_etree)
    (hv : option hv_etree)
    (vm : vm_etree) (id : Z) (w w' : world) (s : LaunchScript) :
  generate_for_one_vm py board scenario hv vm id w = Ok (s, w') →
  memory_parameter vm ∈ _dm_parameters s
  ∧ hostbridge_parameter ∈ _dm_parameters s
  ∧ logger_parameter ∈ _dm_parameters s
  ∧ (vm_vm_type vm ≠ Some "RTVM" → lpc_parameter ∈ _dm_parameters s)
  ∧ (vm_vm_type vm = Some "RTVM" → "--rtvm" ∈ _dm_parameters s).
Proof.
  intros H. apply PassFacts.generated_script in H
    as (s9 & h & _ & -> & _ & _ & _ & _ & _ & _ & _ & _ & _
        & Hmem & Hhost & Hlog & Hlpc & Hrt).
  cbn [_dm_parameters add_plain_dm_parameter set_dm_parameters].
  split; [apply BuilderFacts.append_if_absent_mono; exact Hmem|].
  split; [apply BuilderFacts.append_if_absent_mono; exact Hhost|].
  split; [apply BuilderFacts.append_if_absent_mono; exact Hlog|].
  split; intros Hrt'; apply BuilderFacts.append_if_absent_mono;
    [exact (Hlpc Hrt') | exact (Hrt Hrt')].
Qed.

Lemma generated_script_has_fixed_parameters_witness :
  let vm := Examples.vm "VM1" None [] [] in
  let scenario := Examples.scenario [vm] in
  ∃ s w', generate_for_one_vm Examples.py Examples.board scenario
            (scenario_hv scenario) vm 1 Examples.nothing_yet = Ok (s, w')
          ∧ "-m 2048M" ∈ _dm_parameters s
          ∧ hostbridge_parameter ∈ _dm_parameters s.
Proof.
  intros vm scenario.
  destruct (generate_for_one_vm Examples.py Examples.board scenario
              (scenario_hv scenario) vm 1 Examples.nothing_yet) as [[s w']|e] eqn:E;
    [|vm_compute in E; discriminate E].
  exists s, w'. split; [reflexivity|].
  destruct (generated_script_has_fixed_parameters _ _ _ _ _ _ _ _ _ E)
    as (Hm & Hh & _).
  split; [exact Hm | exact Hh].
Defined.

(** X14. A generated script carries the VM name, the board and the VM
    element it was made for, exactly the two descriptors [vm_type] and
    [scheduler] in this order, an empty CPU table, and [probe_modules] as
    its first initialization command. *)
Theorem generated_script_header
    (py : interpreter) (board : board_etree) (scenario : scenario_etree)
    (hv : option hv_etree)
    (vm : vm_etree) (id : Z) (w w' : world) (s : LaunchScript) :
  generate_for_one_vm py board scenario hv vm id w = Ok (s, w') →
  ∃ h, hv = Some h
       ∧ _board_etree s = board ∧ _vm_scenario_etree s = vm
       ∧ _vm_name s = the_vm_name vm ∧ _cpu_dict s = []
       ∧ _vm_descriptors s
         = [("vm_type", "'" +:+ default "STANDARD_VM" (vm_vm_type vm) +:+ "'");
            ("scheduler", "'" +:+ Py.fmt (hv_SCHEDULER h) +:+ "'")]
       ∧ head (_init_commands s) = Some "probe_modules".
Proof.
  intros H. apply PassFacts.generated_script in H
    as (s9 & h & -> & -> & _ & _ & Hb & Hv & Hn & Hc & Hd & Hi & _).
  exists h. cbn. repeat (split; [done|]).
  destruct Hi as [k ->]. reflexivity.
Qed.

Lemma generated_script_header_witness :
  let vm := Examples.vm "VM1" None [] [] in
  let scenario := Examples.scenario [vm] in
  ∃ s w', generate_for_one_vm Examples.py Examples.board scenario
            (scenario_hv scenario) vm 1 Examples.nothing_yet = Ok (s, w')
          ∧ _vm_descriptors s
            = [("vm_type", "'STANDARD_VM'"); ("scheduler", "'SCHED_BVT'")].
Proof.
  intros vm scenario.
  destruct (generate_for_one_vm Examples.py Examples.board scenario
              (scenario_hv scenario) vm 1 Examples.nothing_yet) as [[s w']|e] eqn:E;
    [|vm_compute in E; discriminate E].
  exists s, w'. split; [reflexivity|].
  destruct (generated_script_header _ _ _ _ _ _ _ _ _ E)
    as (h & Hh & _ & _ & _ & _ & Hd & _).
  rewrite Hd. injection Hh as <-. reflexivity.
Defined.

(** X15. Every deinitialization command of a generated script unmounts a
    partition that one of its initialization commands mounts. *)
Theorem generated_unmounts_match_mounts
    (py : interpreter) (board : board_etree) (scenario : scenario_etree)
    (hv : option hv_etree)
    (vm : vm_etree) (id : Z) (w w' : world) (s : LaunchScript) (d : string) :
  generate_for_one_vm py board scenario hv vm id w = Ok (s, w') →
  d ∈ _deinit_commands s →
  ∃ var block_device,
    d = unmount_command var
    ∧ mount_command var block_device ∈ _init_commands s.
Proof.
  intros H. apply PassFacts.generated_script in H
    as (s9 & h & _ & -> & _ & [Ipar Iini Idei Ipoo Iran Iopt Iunm] & _).
  exact (Iunm d).
Qed.

Lemma generated_unmounts_match_mounts_witness :
  let vm := {| vm_id := Some "1"; vm_load_order := ["POST_LAUNCHED_VM"];
               vm_name_text := Some "VM1";
               vm_os_type := None; vm_os_type_is_windows := false;
               vm_PTM_is_y := false; vm_vm_type := None;
               vm_pcpu_ids := []; vm_own_pcpu_ids := [];
               vm_memory_size := Some "1024"; vm_vbootloader := None;
               vm_vuart0 := None; vm_console_vuart := None;
               vm_lapic_passthrough := None; vm_usb_xhci := [];
               vm_virtio_input := []; vm_virtio_console := [];
               vm_virtio_network := [];
               vm_virtio_block := ["/dev/sda1:img/root.img"];
               vm_virtio_gpu := []; vm_vsock := []; vm_pci_devs := [] |} in
  let scenario := Examples.scenario [vm] in
  ∃ s w', generate_for_one_vm Examples.py Examples.board scenario
            (scenario_hv scenario) vm 1 Examples.nothing_yet = Ok (s, w')
          ∧ ∃ var block_device,
              "unmount_partition ${dir_sda1}" = unmount_command var
              ∧ mount_command var block_device ∈ _init_commands s.
Proof.
  intros vm scenario.
  destruct (generate_for_one_vm Examples.py Examples.board scenario
              (scenario_hv scenario) vm 1 Examples.nothing_yet) as [[s w']|e] eqn:E;
    [|vm_compute in E; discriminate E].
  exists s, w'. split; [reflexivity|].
  apply (generated_unmounts_match_mounts _ _ _ _ _ _ _ _ _ _ E).
  vm_compute in E. injection E as <- _.
  apply (bool_decide_unpack _). vm_compute. exact I.
Defined.

(** X16. For a scenario without an [hv] element the generation raises
    [AttributeError], whatever the VM holds. *)
Theorem generation_needs_the_hv_element
    (py : interpreter) (board : board_etree) (scenario : scenario_etree) (vm : vm_etree)
    (id : Z) (w : world) :
  generate_for_one_vm py board scenario None vm id w = Raise AttributeError.
Proof.
  unfold generate_for_one_vm, generate_body, bind, upd, vm_types_and_guest_oses,
    bind, when, upd, ret, raise.
  cbn [fst snd]. by destruct (bool_decide _).
Qed.

(** ** The orchestrator *)

Module OrchestratorFacts.

Lemma bind_ok {S A B} (m : SE S A) (k : A → SE S B) (s : S) (a : A) (s1 : S) :
  m s = Ok (a, s1) → bind m k s = k a s1.
Proof. intros H. unfold bind. by rewrite H. Qed.

(** Reading the integers of a list of texts leaves the world alone. *)
Lemma map_int_world (f : string → result Z) (l : list string) (w : world) r w' :
  map_m (fun x => of_result (f x)) l w = Ok (r, w') → w' = w.
Proof.
  revert r. induction l as [|x l IH]; intros r; [by intros [= <- <-]|].
  cbn [map_m]. unfold bind, of_result, ret.
  destruct (f x); [|discriminate].
  destruct (map_m _ l w) as [[ys w1]|e] eqn:E; [|discriminate].
  intros [= <- <-]. by eapply IH.
Qed.

Lemma main_stages (py : interpreter) fs board scenario user_vm_id out_dir w :
  main py fs board scenario user_vm_id out_dir w
  = if bool_decide (service_vm_id_text scenario = None)
       && (0 <? Z.of_nat (length (post_vms scenario)))
    then Ok (1, log ERROR no_service_vm_message w)
    else
      match int_of_attr py (service_vm_id_text scenario) with
      | Raise e => Raise e
      | Ok sid =>
          match map_m (fun x => of_result (int_of_str py x))
                  (sos_cpu_texts board scenario) w with
          | Raise e => Raise e
          | Ok (ints, w1) =>
              match fs_mkdir fs with
              | MkdirFileExists true =>
                  Ok (1, log ERROR ("Cannot create output directory " +:+ out_dir
                                    +:+ ": File exists") w1)
              | MkdirFails e =>
                  Ok (1, log ERROR ("Cannot create output directory: " +:+ e) w1)
              | _ => after_mkdir py fs board scenario user_vm_id out_dir sid
                       (Py.sorted ints) w1
              end
          end
      end.
Proof.
  unfold main. fold (service_vm_id_text scenario).
  fold (sos_cpu_texts board scenario).
  destruct (bool_decide _ && _); [reflexivity|].
  unfold bind at 1. unfold of_result at 1.
  destruct (int_of_attr py (service_vm_id_text scenario)) as [sid|e]; [|done].
  unfold bind at 1.
  destruct (map_m _ (sos_cpu_texts board scenario) w) as [[ints w1]|e]; [|done].
  by destruct (fs_mkdir fs) as [|[]|].
Qed.

Lemma after_mkdir_returns_0 py fs board scenario user_vm_id out_dir sid cpus
    w r w' :
  after_mkdir py fs board scenario user_vm_id out_dir sid cpus w = Ok (r, w') →
  r = 0.
Proof.
  unfold after_mkdir, bind, ret.
  destruct (if bool_decide _ then _ else _) as [[ids w1]|e]; [|discriminate].
  destruct (for_each _ _ w1) as [[[] w2]|e]; [|discriminate].
  by intros [= <- _].
Qed.

End OrchestratorFacts.

(** X17. [main] returns 0 or 1 whenever it returns. It returns 1 only when
    the scenario has post-launched VMs and no service VM id, or when
    [os.mkdir] finds a plain file or fails; it has then logged one error
    and written no file. It returns 0 only when the service VM id was found
    and the output directory is there. *)
Theorem main_exit_status
    (py : interpreter) (fs : filesystem) (board : board_etree)
    (scenario : scenario_etree)
    (user_vm_id : Z) (out_dir : string) (w w' : world) (r : Z) :
  main py fs board scenario user_vm_id out_dir w = Ok (r, w') →
  (r = 0 ∨ r = 1)
  ∧ (r = 1 →
       ((service_vm_id_text scenario = None ∧ post_vms scenario ≠ [])
        ∨ mkdir_blocked (fs_mkdir fs))
       ∧ written w' = written w
       ∧ ∃ msg, logged w' = logged w ++ [(ERROR, msg)])
  ∧ (r = 0 →
       service_vm_id_text scenario ≠ None ∧ ¬ mkdir_blocked (fs_mkdir fs)).
Proof.
  rewrite OrchestratorFacts.main_stages.
  destruct (bool_decide (service_vm_id_text scenario = None)
            && (0 <? Z.of_nat (length (post_vms scenario)))) eqn:Hguard.
  { intros [= <- <-]. apply andb_true_iff in Hguard as [Hs Hp].
    apply bool_decide_eq_true in Hs.
    split; [by right|]. split; [|discriminate].
    intros _. split; [|split; [done | by eexists]].
    left. split; [done|]. intros Hnil. rewrite Hnil in Hp. discriminate Hp. }
  destruct (service_vm_id_text scenario) as [t|] eqn:Hsid; [|discriminate].
  destruct (int_of_attr py (Some t)) as [sid|e]; [|discriminate].
  destruct (map_m _ _ w) as [[ints w1]|e] eqn:Hints; [|discriminate].
  apply OrchestratorFacts.map_int_world in Hints as ->.
  destruct (fs_mkdir fs) as [|[]|e] eqn:Hmk.
  - intros H. rewrite (OrchestratorFacts.after_mkdir_returns_0 _ _ _ _ _ _ _ _ _ _ _ H).
    split; [by left|]. split; [discriminate|]. intros _. split; [done|].
    intros [Hb|[e Hb]]; discriminate Hb.
  - intros [= <- <-]. split; [by right|]. split; [|discriminate].
    intros _. split; [right; by left|]. split; [done | by eexists].
  - intros H. rewrite (OrchestratorFacts.after_mkdir_returns_0 _ _ _ _ _ _ _ _ _ _ _ H).
    split; [by left|]. split; [discriminate|]. intros _. split; [done|].
    intros [Hb|[e Hb]]; discriminate Hb.
  - intros [= <- <-]. split; [by right|]. split; [|discriminate].
    intros _. split; [right; right; by exists e|]. split; [done | by eexists].
Qed.

Lemma main_exit_status_witness :
  let fs := {| fs_template := "#!/bin/bash"; fs_mkdir := MkdirFileExists true |} in
  ∃ w', main Examples.py fs Examples.board MoreExamples.scenario 0 "out"
          Examples.nothing_yet
        = Ok (1, w')
        ∧ written w' = [].
Proof.
  intros fs.
  destruct (main Examples.py fs Examples.board MoreExamples.scenario 0 "out"
              Examples.nothing_yet) as [[r w']|e] eqn:E;
    [|vm_compute in E; discriminate E].
  assert (Hr : r = 1) by (vm_compute in E; by injection E as <- _).
  subst r. exists w'. split; [reflexivity|].
  destruct (main_exit_status Examples.py fs Examples.board MoreExamples.scenario 0 "out"
              Examples.nothing_yet w' 1 E) as (_ & H1 & _).
  destruct (H1 eq_refl) as (_ & Hw & _). exact Hw.
Defined.

Module GiveUpFacts.

Lemma map_int_ok (py : interpreter) (l : list string) (w : world) :
  Forall (fun x => ∃ n, int_of_str py x = Ok n) l →
  ∃ ints, map_m (fun x => of_result (int_of_str py x)) l w = Ok (ints, w).
Proof.
  induction 1 as [|x l [n Hn] Hl [ints IH]]; [by exists []|].
  exists (n :: ints). cbn [map_m]. unfold bind, of_result at 1, ret.
  by rewrite Hn, IH.
Qed.

End GiveUpFacts.

(** X18. [main] returns 1 with one error record and no file written: on a
    scenario with post-launched VMs and no service VM id, whatever the board
    and the output directory are; and, once the service VM id and the board
    CPU ids are read as integers, when [os.mkdir] finds a plain file at the
    path or fails otherwise. *)
Theorem main_gives_up
    (py : interpreter) (fs : filesystem) (board : board_etree)
    (scenario : scenario_etree)
    (user_vm_id : Z) (out_dir : string) (w : world) :
  (service_vm_id_text scenario = None → post_vms scenario ≠ [] →
   main py fs board scenario user_vm_id out_dir w
   = Ok (1, log ERROR no_service_vm_message w))
  ∧ (∀ t sid,
       service_vm_id_text scenario = Some t → int_of_str py t = Ok sid →
       Forall (fun x => ∃ n, int_of_str py x = Ok n)
         (sos_cpu_texts board scenario) →
       (fs_mkdir fs = MkdirFileExists true →
        main py fs board scenario user_vm_id out_dir w
        = Ok (1, log ERROR ("Cannot create output directory " +:+ out_dir
                            +:+ ": File exists") w))
       ∧ (∀ e, fs_mkdir fs = MkdirFails e →
               main py fs board scenario user_vm_id out_dir w
               = Ok (1, log ERROR ("Cannot create output directory: " +:+ e) w))).
Proof.
  split.
  - intros Hs Hp. rewrite OrchestratorFacts.main_stages, Hs.
    destruct (post_vms scenario); [done | reflexivity].
  - intros t sid Hs Hsid Hcpus.
    destruct (GiveUpFacts.map_int_ok py _ w Hcpus) as [ints Hints].
    split; [intros Hmk | intros e Hmk];
      rewrite OrchestratorFacts.main_stages, Hs; cbn [bool_decide andb];
      rewrite bool_decide_eq_false_2 by discriminate; cbn [andb int_of_attr];
      by rewrite Hsid, Hints, Hmk.
Qed.

Module FileFacts.

Lemma cpu_lookup_written board name cpu w r w' :
  cpu_id_to_lapic_id board name cpu w = Ok (r, w') → written w' = written w.
Proof.
  rewrite CpuFacts.cpu_id_to_lapic_id_run.
  destruct (apic_id_query board cpu) as [[x|]|e]; [| |discriminate].
  - destruct (XPath.int 16 x); [|discriminate]. by intros [= _ <-].
  - by intros [= _ <-].
Qed.

Lemma sos_pairs_written board name (cpus : list Z) w r w' :
  map_m (fun x => bind (cpu_id_to_lapic_id board name (Py.str_of_int x))
                    (fun lapic => ret (x, lapic))) cpus w = Ok (r, w') →
  written w' = written w.
Proof.
  revert w r. induction cpus as [|x cpus IH]; intros w r; [by intros [= _ <-]|].
  cbn [map_m]. unfold bind at 1. unfold bind at 1.
  destruct (cpu_id_to_lapic_id _ _ _ w) as [[lapic w1]|e] eqn:E1; [|discriminate].
  unfold ret at 1. unfold bind at 1.
  destruct (map_m _ cpus w1) as [[ys w2]|e] eqn:E2; [|discriminate].
  intros [= _ <-]. rewrite (IH _ _ E2). by eapply cpu_lookup_written.
Qed.

Lemma write_to_file_written fs path s w w' :
  write_to_file fs path s w = Ok (tt, w') →
  ∃ text, to_string (fs_template fs) s = Ok text
          ∧ written w' = written w ++ [(path, text)].
Proof.
  unfold write_to_file, bind, of_result, logging.
  destruct (to_string (fs_template fs) s) as [text|e]; [|discriminate].
  intros [= <-]. by exists text.
Qed.

(** One post-launched VM: nothing is written for a VM that is not selected,
    and one file for a VM that is. *)
Lemma one_post_vm_written py fs board scenario out_dir hv sname sid cpus ids
    vm w w' :
  one_post_vm py fs board scenario out_dir hv sname sid cpus ids vm w = Ok (tt, w') →
  ∃ id, int_of_attr py (vm_id vm) = Ok id
        ∧ if bool_decide (id ∈ ids)
          then ∃ text, written w' = written w ++ [(script_path out_dir (id - sid), text)]
          else w' = w.
Proof.
  unfold one_post_vm. unfold bind at 1. unfold of_result at 1.
  destruct (int_of_attr py (vm_id vm)) as [id|e]; [|discriminate].
  intros H. exists id. split; [done|].
  destruct (bool_decide (id ∈ ids)); [|by injection H as <-].
  apply PassFacts.bind_inv in H as (script & w1 & Hgen & H).
  apply PassFacts.generated_script in Hgen as (s9 & h & _ & _ & Hw1 & _).
  apply PassFacts.bind_inv in H as (pairs & w2 & Hpairs & H).
  apply sos_pairs_written in Hpairs.
  apply write_to_file_written in H as (text & _ & Hw).
  exists text. rewrite Hw, Hpairs, Hw1. reflexivity.
Qed.

Lemma for_each_written py fs board scenario out_dir hv sname sid cpus ids
    vms w w' :
  for_each vms (one_post_vm py fs board scenario out_dir hv sname sid cpus ids) w
  = Ok (tt, w') →
  ∃ files,
    written w' = written w ++ files
    ∧ Forall2
        (fun vm file =>
           ∃ id, int_of_attr py (vm_id vm) = Ok id
                 ∧ file.1 = script_path out_dir (id - sid))
        (filter (has_id_in py ids) vms) files
    ∧ Forall (fun vm => ∃ id, int_of_attr py (vm_id vm) = Ok id) vms.
Proof.
  revert w. induction vms as [|vm vms IH]; intros w.
  - intros [= <-]. exists []. rewrite app_nil_r. repeat constructor.
  - cbn [for_each]. intros H.
    apply PassFacts.bind_inv in H as ([] & w1 & H1 & H).
    apply one_post_vm_written in H1 as (id & Hid & H1).
    destruct (IH _ H) as (files & Hw & Hfiles & Hall).
    case_bool_decide as Hsel.
    + destruct H1 as [text H1].
      exists ((script_path out_dir (id - sid), text) :: files).
      split; [rewrite Hw, H1, <- app_assoc; reflexivity|].
      split; [|constructor; [by exists id | done]].
      rewrite filter_cons_True by (unfold has_id_in; by rewrite Hid).
      constructor; [by exists id | done].
    + subst w1. exists files. split; [done|].
      split; [|constructor; [by exists id | done]].
      rewrite filter_cons_False; [done|].
      unfold has_id_in. by rewrite Hid.
Qed.

Lemma filter_ext_in {A} (P Q : A → Prop) `{!∀ x, Decision (P x)}
    `{!∀ x, Decision (Q x)} (l : list A) :
  (∀ x, x ∈ l → (P x ↔ Q x)) → filter P l = filter Q l.
Proof.
  induction l as [|x l IH]; intros Hext; [done|].
  assert (IH' : filter P l = filter Q l)
    by (apply IH; intros y Hy; apply Hext; by right).
  assert (Hx : P x ↔ Q x) by (apply Hext; by left).
  destruct (decide (P x)) as [Hp|Hp].
  - rewrite !filter_cons_True by tauto. by rewrite IH'.
  - rewrite !filter_cons_False by tauto. done.
Qed.

Lemma map_ids_ok (py : interpreter) (vms : list vm_etree) (w : world) ids w' :
  map_m (fun vm => of_result (int_of_attr py (vm_id vm))) vms w = Ok (ids, w') →
  w' = w ∧ ∀ vm id, vm ∈ vms → int_of_attr py (vm_id vm) = Ok id → id ∈ ids.
Proof.
  revert ids. induction vms as [|vm vms IH]; intros ids.
  - intros [= <- <-]. split; [done|]. by intros vm id ?%elem_of_nil.
  - cbn [map_m]. unfold bind, of_result at 1, ret.
    destruct (int_of_attr py (vm_id vm)) as [id0|e] eqn:E0; [|discriminate].
    destruct (map_m _ vms w) as [[ys w1]|e] eqn:E; [|discriminate].
    intros [= <- <-]. destruct (IH _ eq_refl) as [-> Hin]. split; [done|].
    intros vm' id Hvm Hid. apply elem_of_cons in Hvm as [->|Hvm].
    + assert (id = id0) as -> by congruence. by left.
    + right. by eapply Hin.
Qed.

End FileFacts.

(** X19. When [main] returns 0 it has written, after the files that were
    there, one file for each selected post-launched VM in the order of the
    scenario (every post-launched VM when [user_vm_id] is 0, otherwise
    those whose id is [user_vm_id] plus the service VM id); the file of the
    VM with id [id] is [launch_user_vm_id] followed by [id] minus the
    service VM id, in the output directory. *)
Theorem main_writes_one_script_per_selected_vm
    (py : interpreter) (fs : filesystem) (board : board_etree)
    (scenario : scenario_etree)
    (user_vm_id : Z) (out_dir : string) (w w' : world) :
  main py fs board scenario user_vm_id out_dir w = Ok (0, w') →
  ∃ sid files,
    int_of_attr py (service_vm_id_text scenario) = Ok sid
    ∧ written w' = written w ++ files
    ∧ Forall2
        (fun vm file =>
           ∃ id, int_of_attr py (vm_id vm) = Ok id
                 ∧ file.1 = script_path out_dir (id - sid))
        (selected_post_vms py scenario user_vm_id sid) files.
Proof.
  rewrite OrchestratorFacts.main_stages.
  destruct (_ && _); [discriminate|].
  destruct (int_of_attr py (service_vm_id_text scenario)) as [sid|e]; [|discriminate].
  destruct (map_m _ _ w) as [[ints w1]|e] eqn:Hints; [|discriminate].
  apply OrchestratorFacts.map_int_world in Hints as ->.
  assert (Hloop : after_mkdir py fs board scenario user_vm_id out_dir sid
                    (Py.sorted ints) w = Ok (0, w') →
            ∃ files, written w' = written w ++ files
              ∧ Forall2
                  (fun vm file =>
                     ∃ id, int_of_attr py (vm_id vm) = Ok id
                           ∧ file.1 = script_path out_dir (id - sid))
                  (selected_post_vms py scenario user_vm_id sid) files).
  { unfold after_mkdir. intros H.
    apply PassFacts.bind_inv in H as (ids & w1 & Hids & H).
    apply PassFacts.bind_inv in H as ([] & w2 & Hfor & H).
    injection H as <-.
    apply FileFacts.for_each_written in Hfor as (files & Hw & Hfiles & Hall).
    assert (Hsel : filter (has_id_in py ids) (post_vms scenario)
                   = selected_post_vms py scenario user_vm_id sid).
    { unfold selected_post_vms. apply FileFacts.filter_ext_in. intros vm Hvm.
      rewrite Forall_forall in Hall. destruct (Hall vm Hvm) as [id Hid].
      unfold has_id_in. rewrite Hid.
      case_bool_decide as Hu.
      - apply FileFacts.map_ids_ok in Hids as [_ Hin].
        split; [by left|]. intros _. by eapply Hin.
      - injection Hids as <- <-. rewrite list_elem_of_singleton. split.
        + intros ->. by right.
        + intros [Hu'|Hid']; [done | congruence]. }
    rewrite Hsel in Hfiles.
    assert (Hw1 : w1 = w).
    { case_bool_decide as Hu.
      - by apply FileFacts.map_ids_ok in Hids as [-> _].
      - by injection Hids as _ <-. }
    subst w1. by exists files. }
  destruct (fs_mkdir fs) as [|[]|e]; try discriminate;
    intros H; destruct (Hloop H) as (files & Hw & Hf); by exists sid, files.
Qed.

Lemma main_writes_one_script_per_selected_vm_witness :
  ∃ w' text,
    main Examples.py Examples.fs Examples.board MoreExamples.scenario 0 "out"
      Examples.nothing_yet = Ok (0, w')
    ∧ written w' = [("out/launch_user_vm_id1.sh", text)].
Proof.
  destruct (main Examples.py Examples.fs Examples.board MoreExamples.scenario 0 "out"
              Examples.nothing_yet) as [[r w']|e] eqn:E;
    [|vm_compute in E; discriminate E].
  assert (Hr : r = 0) by (vm_compute in E; by injection E as <- _).
  subst r.
  destruct (main_writes_one_script_per_selected_vm _ _ _ _ _ _ _ _ E)
    as (sid & files & Hsid & Hw & Hf).
  vm_compute in Hsid. injection Hsid as <-.
  assert (Hsel : selected_post_vms Examples.py MoreExamples.scenario 0 0
                 = [Examples.vm "VM1" None ["1"; "3"] ["00:1f.3"]])
    by (vm_compute; reflexivity).
  rewrite Hsel in Hf.
  apply Forall2_cons_inv_l in Hf as ([path text] & rest & (id & Hid & Hpath) & Hrest & ->).
  apply Forall2_nil_inv_l in Hrest as ->.
  vm_compute in Hid. injection Hid as <-.
  exists w', text. split; [reflexivity|].
  rewrite Hw. cbn [fst] in Hpath. rewrite Hpath. vm_compute. reflexivity.
Defined.

(** ** Serialization and the dictionaries *)

Module SerializeFacts.

Lemma cpu_rows_ok (d : list (Z * option Z)) (vcpu_id : Z) :
  Forall (fun kv => kv.2 ≠ None) d → ∃ rows, cpu_rows vcpu_id d = Ok rows.
Proof.
  intros H. revert vcpu_id. induction H as [|[cpu [apic|]] d Hx Hd IH];
    intros vcpu_id; [by eexists | | done].
  cbn [cpu_rows]. destruct (IH (vcpu_id + 1)) as [rest ->]. by eexists.
Qed.

Lemma cpu_rows_raises (d : list (Z * option Z)) (vcpu_id : Z) :
  Exists (fun kv => kv.2 = None) d → cpu_rows vcpu_id d = Raise TypeError.
Proof.
  intros H. revert vcpu_id. induction d as [|[cpu [apic|]] d IH]; intros vcpu_id.
  - by inversion H.
  - apply Exists_cons in H as [H|H]; [discriminate H|].
    cbn [cpu_rows]. by rewrite IH.
  - reflexivity.
Qed.

Lemma dict_set_get {K V} `{EqDecision K} (k k' : K) (v : V) (d : list (K * V)) :
  dict_get k' (Py.dict_set k v d)
  = if decide (k' = k) then Some v else dict_get k' d.
Proof.
  induction d as [|[k0 v0] d IH]; cbn [Py.dict_set dict_get].
  - by destruct (decide (k' = k)).
  - destruct (decide (k = k0)) as [->|Hne]; cbn [dict_get].
    + by destruct (decide (k' = k0)).
    + rewrite IH. destruct (decide (k' = k0)) as [->|]; [|done].
      by rewrite decide_False.
Qed.

Lemma dict_set_keys {K V} `{EqDecision K} (k : K) (v : V) (d : list (K * V)) :
  dict_keys (Py.dict_set k v d)
  = if decide (k ∈ dict_keys d) then dict_keys d else dict_keys d ++ [k].
Proof.
  unfold dict_keys. induction d as [|[k0 v0] d IH]; cbn [Py.dict_set map fst].
  - rewrite decide_False by apply not_elem_of_nil. done.
  - destruct (decide (k = k0)) as [->|Hne]; cbn [map fst].
    + rewrite decide_True by (by left). done.
    + rewrite IH. destruct (decide (k ∈ map fst d)) as [Hin|Hout].
      * rewrite decide_True by (by right). done.
      * rewrite decide_False; [done|].
        intros [?|?]%elem_of_cons; done.
Qed.

Lemma append_assoc (a b c : string) : (a +:+ b) +:+ c = a +:+ (b +:+ c).
Proof.
  induction a as [|x a IH]; [done|].
  by rewrite !TextFacts.append_cons, IH.
Qed.

Lemma holds_here (block after : string) :
  ∃ b a, block +:+ after = b +:+ block +:+ a.
Proof. by exists EmptyString, after. Qed.

Lemma holds_later (x rest block : string) :
  (∃ b a, rest = b +:+ block +:+ a) → ∃ b a, x +:+ rest = b +:+ block +:+ a.
Proof.
  intros (b & a & ->). exists (x +:+ b), a. by rewrite append_assoc.
Qed.

End SerializeFacts.

(** X20. [to_string] raises [TypeError] exactly when the CPU table holds a
    CPU without APIC id, and returns the text otherwise; the text holds the
    parameter block of the script. *)
Theorem to_string_needs_every_apic_id (template : string) (s : LaunchScript) :
  (to_string template s = Raise TypeError
   ↔ Exists (fun kv => kv.2 = None) (_cpu_dict s))
  ∧ (Forall (fun kv => kv.2 ≠ None) (_cpu_dict s)
     ↔ ∃ before after,
         to_string template s = Ok (before +:+ dm_params_block s +:+ after)).
Proof.
  assert (Hok : Forall (fun kv : Z * option Z => kv.2 ≠ None) (_cpu_dict s) →
            ∃ before after,
              to_string template s = Ok (before +:+ dm_params_block s +:+ after)).
  { intros H. destruct (SerializeFacts.cpu_rows_ok _ 0 H) as [rows Hrows].
    unfold to_string. rewrite Hrows.
    assert (Hin : ∀ t, (∃ b a, t = b +:+ dm_params_block s +:+ a) →
              ∃ b a, Ok t = Ok (b +:+ dm_params_block s +:+ a) :> result string).
    { intros t (b & a & ->). by exists b, a. }
    apply Hin.
    do 26 apply SerializeFacts.holds_later. apply SerializeFacts.holds_here. }
  destruct (decide (Exists (fun kv : Z * option Z => kv.2 = None) (_cpu_dict s)))
    as [Hex|Hno].
  - pose proof (SerializeFacts.cpu_rows_raises _ 0 Hex) as Hr.
    assert (Hto : to_string template s = Raise TypeError)
      by (unfold to_string; by rewrite Hr).
    split; [done|]. split.
    + intros Hall. apply Exists_exists in Hex as (kv & Hin & Hnone).
      rewrite Forall_forall in Hall. by destruct (Hall kv Hin).
    + intros (b & a & H). congruence.
  - assert (Hall : Forall (fun kv : Z * option Z => kv.2 ≠ None) (_cpu_dict s)).
    { apply Forall_forall. intros kv Hin Hnone. apply Hno, Exists_exists.
      by exists kv. }
    split; [|done].
    split; [|done]. destruct (Hok Hall) as (b & a & H). congruence.
Qed.

(** X21. [add_vm_descriptor] sets the value of a name and keeps the values
    of the other names; a name that was there keeps its place, a new name
    goes to the end. *)
Theorem add_vm_descriptor_upserts (name value other : string) (s : LaunchScript) :
  dict_get other (_vm_descriptors (add_vm_descriptor name value s))
  = (if decide (other = name) then Some value
     else dict_get other (_vm_descriptors s))
  ∧ dict_keys (_vm_descriptors (add_vm_descriptor name value s))
    = (if decide (name ∈ dict_keys (_vm_descriptors s))
       then dict_keys (_vm_descriptors s)
       else dict_keys (_vm_descriptors s) ++ [name])
  ∧ (NoDup (dict_keys (_vm_descriptors s)) →
     NoDup (dict_keys (_vm_descriptors (add_vm_descriptor name value s)))).
Proof.
  cbn [add_vm_descriptor _vm_descriptors set_vm_descriptors].
  split; [apply SerializeFacts.dict_set_get|].
  split; [apply SerializeFacts.dict_set_keys|].
  rewrite SerializeFacts.dict_set_keys. intros Hnd.
  destruct (decide _) as [Hin|Hout]; [done|].
  apply NoDup_app. split; [done|]. split; [|apply NoDup_singleton].
  intros k Hk Hk'. apply list_elem_of_singleton in Hk'. by subst.
Qed.

(** ** Slots of the devices *)

Module DeviceFacts.

Lemma add_virtual_device_drawn kind options s n rest :
  pool s = n :: rest →
  add_virtual_device kind None options s
  = Ok (add_dynamic_dm_parameter "add_virtual_device"
          (Py.str_of_int n +:+ " " +:+ kind +:+ " " +:+ options)
          (set_vbdf_allocator {| VirtualBDFAllocator._free_slots := rest |}
             (if Py.str_in "virtio" kind
                 && bool_decide (vm_vm_type (_vm_scenario_etree s) = Some "RTVM")
              then add_plain_dm_parameter virtio_poll_parameter s
              else s))).
Proof.
  unfold pool. intros Hpool. unfold add_virtual_device. cbv zeta.
  fold virtio_poll_parameter.
  set (s1 := if _ && _ then _ else s).
  assert (Ha : _vbdf_allocator s1 = _vbdf_allocator s)
    by (subst s1; by destruct (_ && _)).
  rewrite Ha. destruct (_vbdf_allocator s) as [l]. cbn in Hpool. subst l.
  reflexivity.
Qed.

Lemma split_once_join (sep : ascii) (s a : string) (b : option string) :
  Py.split_once sep s = (a, b) →
  s = match b with Some r => a +:+ String sep r | None => a end.
Proof.
  revert a b. induction s as [|c s IH]; intros a b; cbn [Py.split_once].
  - by intros [= <- <-].
  - destruct (decide (c = sep)) as [->|Hne]; [by intros [= <- <-]|].
    destruct (Py.split_once sep s) as [a' b'] eqn:E.
    intros [= <- <-]. rewrite (IH a' b' eq_refl). by destruct b'.
Qed.

End DeviceFacts.

(** X22. [add_virtual_device] fails only for a call without slot on an
    empty pool, and then with [IndexError]. *)
Theorem add_virtual_device_fails_on_empty_pool
    (kind : string) (vbdf : option vbdf_t) (options : string)
    (s : LaunchScript) (e : exn) :
  add_virtual_device kind vbdf options s = Raise e
  ↔ e = IndexError ∧ vbdf = None ∧ pool s = [].
Proof.
  split.
  - intros H.
    destruct (decide (vbdf = None ∧ pool s = [])) as [[-> Hp]|Hno].
    + rewrite VirtualDeviceFacts.add_virtual_device_raises in H by exact Hp.
      by injection H as <-.
    + destruct (VirtualDeviceFacts.add_virtual_device_succeeds kind vbdf options s)
        as (slot & a & Hok).
      * intros Hv Hp. apply Hno. by split.
      * congruence.
  - intros (-> & -> & Hp).
    by apply VirtualDeviceFacts.add_virtual_device_raises.
Qed.

(** X23. Without a slot given, [add_virtual_device] gives the device the
    first slot of the pool and takes it out of the pool. With an integer
    slot given, that slot leaves a pool without repetitions and the other
    slots stay; with a string given, the pool stays as it is. *)
Theorem add_virtual_device_takes_its_slot
    (kind options : string) (s : LaunchScript) (n : Z) (t : string) (rest : list Z) :
  (pool s = n :: rest →
   ∃ s', add_virtual_device kind None options s = Ok s'
         ∧ pool s' = rest
         ∧ dynamic_dm_parameter "add_virtual_device"
             (Py.str_of_int n +:+ " " +:+ kind +:+ " " +:+ options)
           ∈ _dm_parameters s')
  ∧ (NoDup (pool s) →
     ∃ s', add_virtual_device kind (Some (VInt n)) options s = Ok s'
           ∧ pool s' = filter (fun x => x ≠ n) (pool s))
  ∧ (∃ s', add_virtual_device kind (Some (VStr t)) options s = Ok s'
           ∧ pool s' = pool s).
Proof.
  assert (Ha : _vbdf_allocator
                 (if Py.str_in "virtio" kind
                     && bool_decide (vm_vm_type (_vm_scenario_etree s) = Some "RTVM")
                  then add_plain_dm_parameter "--virtio_poll 1000000" s
                  else s)
               = _vbdf_allocator s) by (by destruct (_ && _)).
  split; [|split].
  - intros Hp. eexists. split; [by apply DeviceFacts.add_virtual_device_drawn|].
    split; [reflexivity|]. cbn. apply BuilderFacts.append_if_absent_elem.
  - intros Hnd. unfold add_virtual_device. cbv zeta. eexists. split; [reflexivity|].
    unfold pool.
    cbn [_vbdf_allocator add_dynamic_dm_parameter set_dm_parameters
         set_vbdf_allocator].
    rewrite Ha.
    by apply AllocatorOrder.remove_virtual_bdf_filter.
  - unfold add_virtual_device. cbv zeta. eexists. split; [reflexivity|].
    unfold pool.
    cbn [_vbdf_allocator add_dynamic_dm_parameter set_dm_parameters
         set_vbdf_allocator VirtualBDFAllocator.remove_virtual_bdf].
    by rewrite Ha.
Qed.

(** ** Passthrough devices and their slots *)


(** X24. [add_passthru_device] fails only when the device takes neither of
    the two early returns of slot 2 and the pool is empty, and then with
    [IndexError]. *)
Theorem add_passthru_device_fails_on_empty_pool
    (bus dev fn : Z) (options : string) (s : LaunchScript) (e : exn) :
  add_passthru_device bus dev fn options s = Raise e
  ↔ e = IndexError
    ∧ VirtualBDFAllocator.gpu_shortcut
        (find_pci_device (_board_etree s) bus dev fn)
        (Some (passthru_options options
                 (find_pci_device (_board_etree s) bus dev fn) s)) = false
    ∧ pool s = [].
Proof.
  unfold add_passthru_device, pool. cbv zeta.
  set (d := find_pci_device _ _ _ _). set (o := passthru_options _ _ _).
  destruct (VirtualBDFAllocator.gpu_shortcut d (Some o)) eqn:Hg.
  - rewrite (AllocatorFacts.get_virtual_bdf_shortcut _ _ _ Hg).
    rewrite bool_decide_eq_false_2 by (intros Hne; by apply Hne).
    split; [discriminate|]. by intros (_ & [=] & _).
  - rewrite (AllocatorFacts.get_virtual_bdf_draw _ _ _ Hg).
    unfold VirtualBDFAllocator.pop0.
    destruct (VirtualBDFAllocator._free_slots (_vbdf_allocator s)) as [|n rest].
    + split; [by intros [= <-]|]. by intros (-> & _ & _).
    + split.
      * destruct (bool_decide (n ≠ 2)); discriminate.
      * by intros (_ & _ & [=]).
Qed.

(** X25. A passthrough device that takes an early return of slot 2 (class
    [0x030000], or [igd] in its options) never fails, leaves the pool as it
    is and adds its own entry and nothing else: no interrupt storm monitor
    is added for it. *)
Theorem gpu_passthrough_adds_no_monitor
    (bus dev fn : Z) (options : string) (s : LaunchScript) :
  VirtualBDFAllocator.gpu_shortcut
    (find_pci_device (_board_etree s) bus dev fn)
    (Some (passthru_options options
             (find_pci_device (_board_etree s) bus dev fn) s)) = true →
  ∃ s', add_passthru_device bus dev fn options s = Ok s'
        ∧ pool s' = pool s
        ∧ _dm_parameters s'
          = append_if_absent
              (dynamic_dm_parameter "add_passthrough_device"
                 (passthru_text 2 bus dev fn
                    (passthru_options options
                       (find_pci_device (_board_etree s) bus dev fn) s)))
              (_dm_parameters s).
Proof.
  intros Hg. unfold add_passthru_device. cbv zeta.
  rewrite (AllocatorFacts.get_virtual_bdf_shortcut _ _ _ Hg).
  rewrite bool_decide_eq_false_2 by (intros Hne; by apply Hne).
  eexists. split; [reflexivity|]. split; reflexivity.
Qed.

Lemma gpu_passthrough_adds_no_monitor_witness :
  ∃ s', add_passthru_device 0 2 0 EmptyString
          (LaunchScript_init Examples.board "VM1"
             (Examples.vm "VM1" None ["1"] ["00:02.0"])) = Ok s'
        ∧ pool s' = Py.range 3 30.
Proof.
  destruct (gpu_passthrough_adds_no_monitor 0 2 0 EmptyString
              (LaunchScript_init Examples.board "VM1"
                 (Examples.vm "VM1" None ["1"] ["00:02.0"]))) as (s' & H1 & H2 & _).
  - vm_compute. reflexivity.
  - by exists s'.
Defined.

(** X26. The option text of a virtio network device is [tap=] followed by
    the interface name as written (a comma and what follows it included),
    then [,vhost] for the kernel based framework, then the MAC seed that
    ends in the VM name. A network element without interface name makes
    the step fail with [AttributeError]. *)
Theorem virtio_network_options
    (vm : vm_etree) (e : virtio_network_etree) (sw : LaunchScript * world) :
  virtio_network_device vm e sw
  = match network_interface_name e with
    | None => Raise AttributeError
    | Some name =>
        (upd (add_init_command "mac=$(cat /sys/class/net/e*/address)") ;;;
         attempt (add_virtual_device "virtio-net" None
                    ("tap=" +:+ name
                     +:+ (if bool_decide (network_virtio_framework e
                                          = Some "Kernel based (Virtual Host)")
                          then ",vhost" else EmptyString)
                     +:+ ",mac_seed=${mac:0:17}-" +:+ the_vm_name vm)))%se sw
    end.
Proof.
  unfold virtio_network_device.
  destruct (network_interface_name e) as [name|]; [|reflexivity].
  destruct (Py.split_once "," name) as [first more] eqn:E.
  pose proof (DeviceFacts.split_once_join _ _ _ _ E) as Hname.
  change (",mac_seed=${mac:0:17}-" +:+ the_vm_name vm)
    with ("," +:+ ("mac_seed=${mac:0:17}-" +:+ the_vm_name vm)).
  generalize ("mac_seed=${mac:0:17}-" +:+ the_vm_name vm) as seed.
  intros seed.
  match goal with
  | |- (_ ;;; attempt (add_virtual_device _ _ ?x)) _
       = (_ ;;; attempt (add_virtual_device _ _ ?y)) _ =>
      assert (Htext : x = y); [|by rewrite Htext]
  end.
  subst name. unfold Py.join.
  destruct more as [r|], (bool_decide _); cbn [option_list app String.concat];
    rewrite ?TextFacts.append_cons, ?TextFacts.append_nil,
            ?SerializeFacts.append_assoc; reflexivity.
Qed.
